(** * ExcelFormatter: the mapping and formula engine, embedded in Rocq

    A shallow embedding of [core/excel_processor.py] and
    [core/config_manager.py].  Python text is modelled as ASCII strings,
    Python objects as the tagged union [pyval], a pandas DataFrame as a
    record of column names, row labels and rows, and the builtins whose
    behaviour is fixed by the interpreter rather than by this repository
    ([eval], [float], the text of a float, the iteration order of a set) as
    the fields of a host record. *)

From Stdlib Require Import Bool List Ascii String ZArith Lia Floats Permutation.
From Stdlib Require Import QArith_base Qround.
From Stdlib Require Import Numbers.DecimalString DecimalFacts DecimalPos DecimalZ.
Import ListNotations.
Open Scope string_scope.

(* ------------------------------------------------------------------ *)
(** ** Text: the [str] methods the code uses *)

Module Text.

Definition code (c : ascii) : nat := nat_of_ascii c.

Definition between (lo hi : nat) (c : ascii) : bool :=
  Nat.leb lo (code c) && Nat.leb (code c) hi.

Definition dquote : ascii := ascii_of_nat 34.
Definition backslash : ascii := ascii_of_nat 92.

Definition is_digit (c : ascii) : bool := between 48 57 c.
Definition is_upper (c : ascii) : bool := between 65 90 c.
Definition is_lower (c : ascii) : bool := between 97 122 c.
Definition is_alpha (c : ascii) : bool := is_upper c || is_lower c.

(** [\w] on ASCII text: letters, digits and the underscore. *)
Definition is_word (c : ascii) : bool :=
  is_alpha c || is_digit c || Ascii.eqb c "_".

(** [str.isspace] and [\s]: TAB, LF, VT, FF, CR, the four separators
    28..31 and the space; and, past ASCII, the next-line character 133
    and the no-break space 160 of Latin-1. *)
Definition is_space (c : ascii) : bool :=
  between 9 13 c || between 28 32 c
  || Nat.eqb (code c) 133 || Nat.eqb (code c) 160.

Definition lower_char (c : ascii) : ascii :=
  if is_upper c then ascii_of_nat (code c + 32) else c.

(** [s.lower()] *)
Fixpoint lower (s : string) : string :=
  match s with
  | EmptyString => EmptyString
  | String c t => String (lower_char c) (lower t)
  end.

Fixpoint lstrip_by (blank : ascii -> bool) (s : string) : string :=
  match s with
  | EmptyString => EmptyString
  | String c t => if blank c then lstrip_by blank t else s
  end.

Fixpoint rstrip_by (blank : ascii -> bool) (s : string) : string :=
  match s with
  | EmptyString => EmptyString
  | String c t =>
      match rstrip_by blank t with
      | EmptyString => if blank c then EmptyString else String c EmptyString
      | t' => String c t'
      end
  end.

(** [s.strip()] *)
Definition strip (s : string) : string :=
  rstrip_by is_space (lstrip_by is_space s).

(** The blanks of C's [isspace], which [float] and [int] skip around a
    number. *)
Definition is_cspace (c : ascii) : bool := between 9 13 c || Ascii.eqb c " ".

Definition cstrip (s : string) : string :=
  rstrip_by is_cspace (lstrip_by is_cspace s).

(** [sub in s] *)
Fixpoint contains (sub s : string) : bool :=
  String.prefix sub s ||
  match s with
  | EmptyString => false
  | String _ t => contains sub t
  end.

(** [s.startswith(p)] *)
Definition startswith (p s : string) : bool := String.prefix p s.

(** [c in s] for a single character. *)
Fixpoint has_char (c : ascii) (s : string) : bool :=
  match s with
  | EmptyString => false
  | String d t => Ascii.eqb c d || has_char c t
  end.

(** [all(p(c) for c in s)] *)
Fixpoint all_chars (p : ascii -> bool) (s : string) : bool :=
  match s with
  | EmptyString => true
  | String c t => p c && all_chars p t
  end.

(** The texts of this development are ASCII.  Past code 127 a character
    stands for its Latin-1 code point, where Python's case mapping and word
    characters are those of Unicode, which the definitions here do not
    follow: a statement that rests on them is made for ASCII texts. *)
Definition is_ascii (c : ascii) : bool := Nat.leb (code c) 127.

Definition ascii_text (s : string) : bool := all_chars is_ascii s.

(** [s[1:]] *)
Definition drop_first (s : string) : string :=
  match s with
  | EmptyString => EmptyString
  | String _ t => t
  end.

(** Left-to-right, non-overlapping replacement; [skip] counts the
    characters of the current occurrence that are still to be passed. *)
Fixpoint replace_from (skip : nat) (old new s : string) : string :=
  match s with
  | EmptyString => EmptyString
  | String c t =>
      match skip with
      | S k => replace_from k old new t
      | O =>
          if String.prefix old s
          then new ++ replace_from (String.length old - 1) old new t
          else String c (replace_from 0 old new t)
      end
  end.

Fixpoint intersperse (new s : string) : string :=
  match s with
  | EmptyString => EmptyString
  | String c t => String c (new ++ intersperse new t)
  end.

(** [s.replace(old, new)]; with an empty [old] Python puts [new] before
    every character and at the end. *)
Definition replace (old new s : string) : string :=
  match old with
  | EmptyString => new ++ intersperse new s
  | _ => replace_from 0 old new s
  end.

(** [str(n)] for an [int]. *)
Definition of_Z (z : Z) : string := NilEmpty.string_of_int (Z.to_int z).

(** [' '.join(parts)] *)
Fixpoint join (sep : string) (parts : list string) : string :=
  match parts with
  | [] => EmptyString
  | [p] => p
  | p :: rest => p ++ sep ++ join sep rest
  end.

End Text.

(* ------------------------------------------------------------------ *)
(** ** Re: the three regular expressions of the formula engine *)

Module Re.
Import Text.

(** The body of a quoted name: the characters up to the next double quote,
    [None] when the text ends first. *)
Fixpoint quoted_body (s : string) : option string :=
  match s with
  | EmptyString => None
  | String c t =>
      if Ascii.eqb c dquote then Some EmptyString
      else option_map (String c) (quoted_body t)
  end.

Fixpoint findall_quoted_from (skip : nat) (s : string) : list string :=
  match s with
  | EmptyString => []
  | String c t =>
      match skip with
      | S k => findall_quoted_from k t
      | O =>
          if Ascii.eqb c dquote then
            match quoted_body t with
            | Some (String b bs) =>
                String b bs :: findall_quoted_from (S (String.length bs) + 1) t
            | _ => findall_quoted_from 0 t
            end
          else findall_quoted_from 0 t
      end
  end.

(** [re.findall] for the quoted-name pattern (a double quote, one or more
    characters other than a double quote, a double quote): the bodies of the
    quoted names. *)
Definition findall_quoted (s : string) : list string := findall_quoted_from 0 s.

(** The class [[A-Za-z0-9_\s\-]]. *)
Definition is_mid (c : ascii) : bool :=
  is_word c || is_space c || Ascii.eqb c "-".

Definition word_at_head (s : string) : bool :=
  match s with
  | EmptyString => false
  | String c _ => is_word c
  end.

(** After the first letter: the length of the longest continuation
    [[A-Za-z0-9_\s\-]*[A-Za-z0-9_]\b], the greedy star giving back
    characters until the last one is a word character followed by a
    non-word character or the end. *)
Fixpoint token_tail (s : string) : option nat :=
  match s with
  | EmptyString => None
  | String c t =>
      if is_mid c then
        match token_tail t with
        | Some m => Some (S m)
        | None => if is_word c && negb (word_at_head t) then Some 1%nat else None
        end
      else None
  end.

Fixpoint findall_unquoted_from (skip : nat) (prev_word : bool) (s : string)
  : list string :=
  match s with
  | EmptyString => []
  | String c t =>
      match skip with
      | S k => findall_unquoted_from k (is_word c) t
      | O =>
          if is_alpha c && negb prev_word then
            match token_tail t with
            | Some m =>
                String c (String.substring 0 m t)
                  :: findall_unquoted_from m (is_word c) t
            | None => findall_unquoted_from 0 (is_word c) t
            end
          else findall_unquoted_from 0 (is_word c) t
      end
  end.

(** [re.findall(r'\b[A-Za-z][A-Za-z0-9_\s\-]*[A-Za-z0-9_]\b', s)] *)
Definition findall_unquoted (s : string) : list string :=
  findall_unquoted_from 0 false s.

(** [\b] between a character (word or not) and the text that follows. *)
Definition boundary (prev_word : bool) (s : string) : bool :=
  xorb prev_word (word_at_head s).

Fixpoint last_is_word (prev_word : bool) (w : string) : bool :=
  match w with
  | EmptyString => prev_word
  | String c t => last_is_word (is_word c) t
  end.

Fixpoint drop (n : nat) (s : string) : string :=
  match n, s with
  | S k, String _ t => drop k t
  | _, _ => s
  end.

(** Does [\b w \b] match at the head of [s]? *)
Definition word_here (prev_word : bool) (w s : string) : bool :=
  boundary prev_word s && String.prefix w s &&
  boundary (last_is_word prev_word w) (drop (String.length w) s).

Fixpoint sub_word_from (skip : nat) (prev_word : bool) (w repl s : string)
  : string :=
  match s with
  | EmptyString => if word_here prev_word w s then repl else EmptyString
  | String c t =>
      match skip with
      | S k => sub_word_from k (is_word c) w repl t
      | O =>
          if word_here prev_word w s then
            match w with
            | EmptyString => repl ++ String c (sub_word_from 0 (is_word c) w repl t)
            | String _ w' =>
                repl ++ sub_word_from (String.length w') (is_word c) w repl t
            end
          else String c (sub_word_from 0 (is_word c) w repl t)
      end
  end.

(** [re.sub(r'\b' + re.escape(w) + r'\b', repl, s)] for a replacement
    text [repl] free of backslashes (a literal template). *)
Definition sub_word (w repl s : string) : string :=
  sub_word_from 0 false w repl s.

End Re.

(* ------------------------------------------------------------------ *)
(** ** Py: Python values and exceptions *)

Module Py.
Import Text.

(** The objects that reach the engine: cell values read from a sheet,
    the numbers a formula evaluates to, and the empty tuple, which is what
    the text [()] evaluates to. *)
Inductive pyval : Type :=
| VInt (z : Z)
| VFloat (x : float)
| VStr (s : string)
| VBool (b : bool)
| VNone
| VTuple.

(** A computation that returns or raises an [Exception]. *)
Inductive res (A : Type) : Type :=
| Ok (a : A)
| Raise.
Arguments Ok {A} a.
Arguments Raise {A}.

Definition bind {A B : Type} (m : res A) (k : A -> res B) : res B :=
  match m with
  | Ok a => k a
  | Raise => Raise
  end.

Notation "x <- m ;; k" := (bind m (fun x => k))
  (at level 61, m at next level, right associativity).

(** [[f(x) for x in xs]]: the first exception ends the comprehension. *)
Fixpoint traverse {A B : Type} (f : A -> res B) (xs : list A) : res (list B) :=
  match xs with
  | [] => Ok []
  | x :: rest =>
      y <- f x ;;
      ys <- traverse f rest ;;
      Ok (y :: ys)
  end.

(** [float(n)] for an [int]: the nearest binary64 number, ties to even;
    [OverflowError] when the integer is out of range. *)
Definition float_of_Z (z : Z) : float :=
  SF2Prim (binary_normalize prec emax z 0 false).

Definition float_of_int (z : Z) : res float :=
  let x := float_of_Z z in
  if PrimFloat.is_infinity x then Raise else Ok x.

(** [pd.isna(v)] on a scalar. *)
Definition isna (v : pyval) : bool :=
  match v with
  | VNone => true
  | VFloat x => PrimFloat.is_nan x
  | _ => false
  end.

Definition notna (v : pyval) : bool := negb (isna v).

(** A number, as opposed to text, a truth value, [None] or a tuple. *)
Definition is_number (v : pyval) : bool :=
  match v with
  | VInt _ | VFloat _ => true
  | _ => false
  end.

(** [xs[i]] on a list: negative indices count from the end, [None] stands
    for [IndexError]. *)
Definition list_index {A : Type} (xs : list A) (i : Z) : option A :=
  let n := Z.of_nat (List.length xs) in
  if (0 <=? i)%Z && (i <? n)%Z then nth_error xs (Z.to_nat i)
  else if (- n <=? i)%Z && (i <? 0)%Z then nth_error xs (Z.to_nat (n + i))
  else None.

(** A [dict] with text keys: insertion-ordered, one entry per key. *)
Definition dict (A : Type) : Type := list (string * A).

Fixpoint dict_get {A : Type} (d : dict A) (k : string) : option A :=
  match d with
  | [] => None
  | (k', v) :: rest => if String.eqb k k' then Some v else dict_get rest k
  end.

Definition dict_has {A : Type} (d : dict A) (k : string) : bool :=
  match dict_get d k with
  | Some _ => true
  | None => false
  end.

(** [d[k] = v]: overwrite in place when the key exists, append otherwise. *)
Fixpoint dict_set {A : Type} (d : dict A) (k : string) (v : A) : dict A :=
  match d with
  | [] => [(k, v)]
  | (k', v') :: rest =>
      if String.eqb k k' then (k', v) :: rest else (k', v') :: dict_set rest k v
  end.

Definition dict_keys {A : Type} (d : dict A) : list string := map fst d.

(** [x in names] *)
Definition mem (x : string) (names : list string) : bool :=
  existsb (String.eqb x) names.

End Py.

(* ------------------------------------------------------------------ *)
(** ** Json: configuration documents as [json.load] returns them *)

Module Json.
Import Text Py.

#[local] Set Warnings "-register-all".

Inductive json : Type :=
| JNull
| JBool (b : bool)
| JInt (z : Z)
| JFloat (x : float)
| JStr (s : string)
| JList (items : list json)
| JDict (fields : list (string * json)).

(** [bool(v)] *)
Definition truthy (v : json) : bool :=
  match v with
  | JNull => false
  | JBool b => b
  | JInt z => negb (z =? 0)%Z
  | JFloat x => negb (PrimFloat.eqb x 0)
  | JStr s => negb (String.eqb s "")
  | JList items => match items with [] => false | _ => true end
  | JDict fields => match fields with [] => false | _ => true end
  end.

(** [k in d] and [d[k]] for a dict. *)
Definition field (d : list (string * json)) (k : string) : option json :=
  dict_get d k.

(** [v.get(k, default)]: only a dict has [get]. *)
Definition get (v : json) (k : string) (default : json) : res json :=
  match v with
  | JDict d => Ok (match field d k with Some x => x | None => default end)
  | _ => Raise
  end.

Fixpoint chars (s : string) : list json :=
  match s with
  | EmptyString => []
  | String c t => JStr (String c EmptyString) :: chars t
  end.

(** [for x in v]: a list yields its items, text its characters, a dict its
    keys; anything else is not iterable. *)
Definition iter (v : json) : res (list json) :=
  match v with
  | JList items => Ok items
  | JStr s => Ok (chars s)
  | JDict d => Ok (map (fun kv => JStr (fst kv)) d)
  | _ => Raise
  end.

(** [v in names] for an index of column names: text is looked up, a list
    or a dict is unhashable, any other scalar is simply absent. *)
Definition in_columns (v : json) (names : list string) : res bool :=
  match v with
  | JStr s => Ok (mem s names)
  | JList _ | JDict _ => Raise
  | _ => Ok false
  end.

End Json.

(* ------------------------------------------------------------------ *)
(** ** Host: what the interpreter decides *)

Module Host.
Import Text Py Json.

(** What the interpreter and its libraries decide, not this repository. *)
Record PyHost : Type := {
  (** [eval(text)]: [None] when it raises an Exception. *)
  py_eval : string -> option pyval;
  (** [float(text)]: [None] when it raises [ValueError]. *)
  float_of_text : string -> option float;
  (** [str(x)] for a float. *)
  float_text : float -> string;
  (** [list(set(names))]: the distinct names in the order of the hash table. *)
  set_order : list string -> list string;
  (** [pd.to_numeric] on one text cell with [errors='coerce']: [None] is NaN. *)
  to_numeric_text : string -> option float;
  (** The expansion of a replacement template that contains a backslash,
      at a given matched text: [None] when [re.error] is raised. *)
  re_template : string -> string -> option string;
  (** [str(v)] for a list or a dict of a configuration: [None] when it
      raises [ValueError], an integer inside having too many digits. *)
  container_text : json -> option string;
  (** The cell that [pd.DataFrame] makes of a value, given the list its
      column is built from: pandas settles one dtype for the column and
      converts the cells to it (an [int] beside floats becomes a float,
      [None] among numbers becomes NaN). *)
  frame_cell : list pyval -> pyval -> pyval
}.

(** [sys.get_int_max_str_digits()], which the program never changes. *)
Definition int_max_str_digits : nat := 4300.

(** The decimal digits of an integer, the sign left out. *)
Definition digits (z : Z) : nat := String.length (of_Z (Z.abs z)).

(** [str(n)] for an [int]: [ValueError] beyond the limit of digits. *)
Definition int_str (z : Z) : res string :=
  if Nat.ltb int_max_str_digits (digits z) then Raise else Ok (of_Z z).

(** [str(v)] *)
Definition py_str (h : PyHost) (v : pyval) : res string :=
  match v with
  | VInt z => int_str z
  | VFloat x => Ok (float_text h x)
  | VStr s => Ok s
  | VBool true => Ok "True"
  | VBool false => Ok "False"
  | VNone => Ok "None"
  | VTuple => Ok "()"
  end.

(** [str(v)] for a value of a configuration, as an f-string prints it. *)
Definition json_str (h : PyHost) (v : json) : res string :=
  match v with
  | JNull => Ok "None"
  | JBool true => Ok "True"
  | JBool false => Ok "False"
  | JInt z => int_str z
  | JFloat x => Ok (float_text h x)
  | JStr s => Ok s
  | JList _ | JDict _ =>
      match container_text h v with
      | Some text => Ok text
      | None => Raise
      end
  end.

End Host.

(* ------------------------------------------------------------------ *)
(** ** Pandas: the DataFrame operations the code relies on *)

Module Pandas.
Import Text Py Host.

(** A frame: the column names and the rows, each row with its index label.
    Labels are unique machine integers, which always print; a frame read
    from a file carries 0, 1, 2, ... and boolean selection keeps the labels
    of the rows it keeps. *)
Record DataFrame : Type := {
  columns : list string;
  rows : list (Z * list pyval)
}.

Definition len (df : DataFrame) : nat := List.length (rows df).

Definition index (df : DataFrame) : list Z := map fst (rows df).

(** The labels a freshly read frame has: [RangeIndex(len(df))]. *)
Definition range_index (n : nat) : list Z := map Z.of_nat (seq 0 n).

Definition fresh (df : DataFrame) : Prop := index df = range_index (len df).

(** A row as a Series: its cells keyed by the column names. *)
Definition Series : Type := list (string * pyval).

(** [df.iterrows()] *)
Definition iterrows (df : DataFrame) : list (Z * Series) :=
  map (fun r => (fst r, combine (columns df) (snd r))) (rows df).

Definition occurrences (name : string) (names : list string) : nat :=
  List.length (filter (String.eqb name) names).

(** [row[name]] when exactly one column bears the name. *)
Definition cell (row : Series) (name : string) : pyval :=
  match dict_get row name with
  | Some v => v
  | None => VNone
  end.

(** [df[name].tolist()]; two columns of that name give a frame, which has
    no [tolist]. *)
Definition column_values (df : DataFrame) (name : string) : res (list pyval) :=
  if Nat.ltb 1 (occurrences name (columns df)) then Raise
  else Ok (map (fun r => cell (snd r) name) (iterrows df)).

Definition is_text (v : pyval) : bool :=
  match v with
  | VStr _ => true
  | _ => false
  end.

(** A column of [pd.DataFrame(data)], built from the list stored under its
    name: a list of texts stays as it is, an object column; of any other
    list pandas converts the cells to the dtype it settles for the
    column. *)
Definition frame_column (h : PyHost) (values : list pyval) : list pyval :=
  if forallb is_text values then values
  else map (frame_cell h values) values.

(** [pd.DataFrame(data)] for a dict of lists of one length: the columns in
    the order of the keys. *)
Definition frame_of_dict (h : PyHost) (data : dict (list pyval))
  : dict (list pyval) :=
  map (fun kv => (fst kv, frame_column h (snd kv))) data.

End Pandas.

(* ------------------------------------------------------------------ *)
(** ** ExcelProcessor: core/excel_processor.py *)

Module ExcelProcessor.
Import Text Re Py Json Host Pandas.

Section Processor.

Variable host : PyHost.

(** *** Header location *)

Definition header_keywords : list string :=
  [ "name"; "employee"; "pay"; "gross"; "net"; "date"; "period";
    "amount"; "salary"; "wage"; "hours"; "rate"; "deduction";
    "tax"; "social"; "security"; "medicare"; "federal"; "state" ].

(** The text of a raw row: its present cells, lower-cased, joined by one
    space; a cell that [str] refuses ends the search with its
    [ValueError]. *)
Definition row_str (cells : list pyval) : res string :=
  texts <- traverse (fun c => s <- py_str host c ;; Ok (lower s))
                    (filter notna cells) ;;
  Ok (join " " texts).

Definition count_keywords (text : string) : nat :=
  List.length (filter (fun keyword => contains keyword text) header_keywords).

Definition matches (cells : list pyval) : res nat :=
  text <- row_str cells ;;
  Ok (count_keywords text).

Fixpoint find_header_in (rs : list (Z * list pyval)) : res (option Z) :=
  match rs with
  | [] => Ok None
  | (idx, cells) :: rest =>
      if (20 <? idx)%Z then Ok None
      else
        m <- matches cells ;;
        if Nat.leb 3 m then Ok (Some idx) else find_header_in rest
  end.

Definition _find_header_row (df_raw : DataFrame) : res (option Z) :=
  find_header_in (rows df_raw).

(** *** Formula evaluation *)

(** [float(value)] behind the [pd.isna] test; only the overflow of a huge
    integer escapes the [except (ValueError, TypeError)]. *)
Definition _to_numeric (value : pyval) : res float :=
  match value with
  | VNone => Ok 0%float
  | VFloat x => Ok (if PrimFloat.is_nan x then 0%float else x)
  | VInt z => float_of_int z
  | VStr s =>
      Ok (match float_of_text host s with Some x => x | None => 0%float end)
  | VBool b => Ok (if b then 1%float else 0%float)
  | VTuple => Ok 0%float
  end.

(** [_to_numeric(row[col])]; when two columns bear the name the lookup
    gives a Series, whose truth value raises [ValueError]: the result is
    then 0.0. *)
Definition numeric_at (row : Series) (col : string) : res float :=
  if Nat.ltb 1 (occurrences col (map fst row)) then Ok 0%float
  else _to_numeric (cell row col).

Definition partial_match (col_name col : string) : bool :=
  contains (lower col_name) (lower col) || contains (lower col) (lower col_name).

Definition _find_column_value (col_name : string) (row : Series)
  : res (option float) :=
  let names := map fst row in
  if mem col_name names then
    x <- numeric_at row col_name ;; Ok (Some x)
  else
    match find (fun col => String.eqb (lower col) (lower col_name)) names with
    | Some col => x <- numeric_at row col ;; Ok (Some x)
    | None =>
        match find (partial_match col_name) names with
        | Some col => x <- numeric_at row col ;; Ok (Some x)
        | None => Ok None
        end
    end.

Definition allowed_chars : string := "0123456789+-*/()._ ".

Definition dangerous : list string :=
  [ "import"; "exec"; "eval"; "__"; "open"; "file" ].

Definition _is_safe_expression (expr : string) : bool :=
  all_chars (fun c => has_char c allowed_chars) expr &&
  negb (existsb (fun d => contains d (lower expr)) dangerous).

Definition reserved_words : list string :=
  [ "and"; "or"; "not"; "abs"; "sum"; "avg"; "max"; "min" ].

(** The value a name stands for: an input column first, then a column of
    the output built so far at position [row_idx]; [None] (also for a
    stored [None]) leaves the name in place. *)
Definition reference_value (word_clean : string) (row : Series)
    (output_data : dict (list pyval)) (row_idx : Z) : res (option pyval) :=
  v <- _find_column_value word_clean row ;;
  match v with
  | Some x => Ok (Some (VFloat x))
  | None =>
      match dict_get output_data word_clean with
      | Some col =>
          match list_index col row_idx with
          | Some VNone => Ok None
          | Some value => Ok (Some value)
          | None => Ok None
          end
      | None => Ok None
      end
  end.

(** The replacement of one name by the text of its value. *)
Definition substitute (word_clean text replaced_formula : string) : res string :=
  if has_char " " word_clean || has_char "-" word_clean then
    Ok (replace word_clean text replaced_formula)
  else if has_char backslash text then
    match re_template host text word_clean with
    | Some expansion => Ok (sub_word word_clean expansion replaced_formula)
    | None => Raise
    end
  else Ok (sub_word word_clean text replaced_formula).

Definition replace_word (row : Series) (output_data : dict (list pyval))
    (row_idx : Z) (replaced_formula word : string) : res string :=
  let word_clean := strip word in
  if mem (lower word_clean) reserved_words then Ok replaced_formula
  else
    value <- reference_value word_clean row output_data row_idx ;;
    match value with
    | Some v =>
        text <- py_str host v ;;
        substitute word_clean text replaced_formula
    | None => Ok replaced_formula
    end.

Fixpoint replace_words (row : Series) (output_data : dict (list pyval))
    (row_idx : Z) (words : list string) (replaced_formula : string)
  : res string :=
  match words with
  | [] => Ok replaced_formula
  | word :: rest =>
      r <- replace_word row output_data row_idx replaced_formula word ;;
      replace_words row output_data row_idx rest r
  end.

Definition formula_words (formula : string) : list string :=
  set_order host (findall_quoted formula ++ findall_unquoted formula)%list.

Definition _replace_formula_references (formula : string) (row : Series)
    (output_data : dict (list pyval)) (row_idx : Z) : res string :=
  replace_words row output_data row_idx (formula_words formula) formula.

(** [eval(expr)] under the row's [except Exception]. *)
Definition eval_or_zero (expr : string) : pyval :=
  match py_eval host expr with
  | Some v => v
  | None => VInt 0
  end.

(** One turn of the row loop: the value appended to the result and the
    texts handed to [eval] on the way. *)
Definition evaluate_row (formula_clean : string)
    (output_data : dict (list pyval)) (idx : Z) (row : Series)
  : pyval * list string :=
  match _replace_formula_references formula_clean row output_data idx with
  | Raise => (VInt 0, [])
  | Ok evaluated_formula =>
      if _is_safe_expression evaluated_formula then
        (eval_or_zero evaluated_formula, [evaluated_formula])
      else
        let fixed_formula :=
          replace (String dquote EmptyString) EmptyString evaluated_formula in
        if _is_safe_expression fixed_formula then
          (eval_or_zero fixed_formula, [fixed_formula])
        else (VInt 0, [])
  end.

Definition formula_clean_of (formula : string) : string :=
  strip (drop_first formula).

Definition _evaluate_formula (formula : string) (input_df : DataFrame)
    (output_data : dict (list pyval)) : list pyval :=
  map (fun r => fst (evaluate_row (formula_clean_of formula) output_data
                                  (fst r) (snd r)))
      (iterrows input_df).

(** The texts [eval] receives while the column is computed, row by row. *)
Definition evaluated_texts (formula : string) (input_df : DataFrame)
    (output_data : dict (list pyval)) : list (list string) :=
  map (fun r => snd (evaluate_row (formula_clean_of formula) output_data
                                  (fst r) (snd r)))
      (iterrows input_df).

(** *** Direct mapping *)

Definition remove_asterisks (value : pyval) : res pyval :=
  if notna value then
    text <- py_str host value ;;
    Ok (VStr (replace "*" EmptyString text))
  else Ok value.

Definition blank_column (input_df : DataFrame) : list pyval :=
  repeat (VStr EmptyString) (len input_df).

Definition _map_column (source_column : string) (input_df : DataFrame)
    (col_config : json) : res (list pyval) :=
  if mem source_column (columns input_df) then
    values <- column_values input_df source_column ;;
    if truthy col_config then
      formatting <- get col_config "formatting" (JDict []) ;;
      flag <- get formatting "remove_asterisks" (JBool false) ;;
      if truthy flag then traverse remove_asterisks values else Ok values
    else Ok values
  else Ok (blank_column input_df).

(** *** Void filtering *)

(** [pd.to_numeric(cell, errors='coerce')], NaN filled with 0, compared
    with 0.  What does not parse is coerced to NaN; an [int] too large for
    a float raises [OverflowError], which [errors='coerce'] lets
    through. *)
Definition is_zero_cell (value : pyval) : res bool :=
  match value with
  | VInt z => _ <- float_of_int z ;; Ok (z =? 0)%Z
  | VFloat x => Ok (PrimFloat.is_nan x || PrimFloat.eqb x 0)
  | VStr s =>
      Ok (match to_numeric_text host s with
          | Some x => PrimFloat.is_nan x || PrimFloat.eqb x 0
          | None => true
          end)
  | VBool b => Ok (negb b)
  | VNone => Ok true
  | VTuple => Ok true
  end.

(** [[col for col in names if col in df.columns]] *)
Fixpoint existing_in (names : list json) (cols : list string)
  : res (list string) :=
  match names with
  | [] => Ok []
  | col :: rest =>
      here <- in_columns col cols ;;
      tail <- existing_in rest cols ;;
      match col with
      | JStr s => Ok (if here then s :: tail else tail)
      | _ => Ok tail
      end
  end.

(** [pd.to_numeric(df[col], errors='coerce').fillna(0) == 0]: one entry
    for each row of the frame. *)
Definition col_mask (df : DataFrame) (col : string) : res (list bool) :=
  traverse (fun r => is_zero_cell (cell (snd r) col)) (iterrows df).

(** [pd.Series([True] * len(df))] is labelled 0 .. len(df)-1, each column's
    test by the frame; [&] aligns the two on labels, and a label missing on
    either side gives [False].  The mask is kept here at the rows of the
    frame, where [df[~mask]] reads it: a row whose label is not among
    0 .. len(df)-1 starts at [False]. *)
Definition start_mask (df : DataFrame) : list bool :=
  map (fun r => (0 <=? fst r)%Z && (fst r <? Z.of_nat (len df))%Z) (rows df).

Definition and_mask (mask col_mask : list bool) : list bool :=
  map (fun p => fst p && snd p) (combine mask col_mask).

(** [for col in existing_columns: mask = mask & col_mask] *)
Fixpoint void_mask (df : DataFrame) (existing_columns : list string)
    (mask : list bool) : res (list bool) :=
  match existing_columns with
  | [] => Ok mask
  | col :: rest =>
      zero <- col_mask df col ;;
      void_mask df rest (and_mask mask zero)
  end.

(** [df[~mask]] *)
Definition drop_void (df : DataFrame) (mask : list bool) : DataFrame :=
  {| columns := columns df;
     rows := map snd (filter (fun p => negb (fst p))
                             (combine mask (rows df))) |}.

(** The body of the [try]. *)
Definition void_filtering (df : DataFrame) (config : json) : res DataFrame :=
  void_config <- get config "void" (JDict []) ;;
  enabled <- get void_config "enabled" (JBool false) ;;
  if negb (truthy enabled) then Ok df
  else
    zero_columns <- get void_config "zero_columns" (JList []) ;;
    if negb (truthy zero_columns) then Ok df
    else
      names <- iter zero_columns ;;
      existing_columns <- existing_in names (columns df) ;;
      match existing_columns with
      | [] => Ok df
      | _ =>
          if existsb (fun col => Nat.ltb 1 (occurrences col (columns df)))
                     existing_columns
          then Raise
          else
            mask <- void_mask df existing_columns (start_mask df) ;;
            Ok (drop_void df mask)
      end.

Definition _apply_void_filtering (df : DataFrame) (config : json) : DataFrame :=
  match void_filtering df config with
  | Ok filtered => filtered
  | Raise => df
  end.

(** *** The mapping *)

(** The output under construction and the finished table: columns by name,
    in order. *)
Definition Table : Type := list (string * list pyval).

Definition text_of (v : json) : res string :=
  match v with
  | JStr s => Ok s
  | _ => Raise
  end.

(** The values of a rule, by the kind of its source: a formula, a blank
    column, a direct mapping. *)
Definition rule_values (filtered_input_df : DataFrame)
    (output_data : dict (list pyval)) (col_config : json)
    (source_column : string) : res (list pyval) :=
  if startswith "=" source_column then
    Ok (_evaluate_formula source_column filtered_input_df output_data)
  else if String.eqb source_column EmptyString then
    Ok (blank_column filtered_input_df)
  else _map_column source_column filtered_input_df col_config.

(** The body of the loop over [output_columns]. *)
Definition map_rule (filtered_input_df : DataFrame)
    (output_data : dict (list pyval)) (col_config : json)
  : res (dict (list pyval)) :=
  name <- get col_config "name" (JStr EmptyString) ;;
  name_text <- text_of name ;;
  let col_name := strip name_text in
  if String.eqb col_name EmptyString then Ok output_data
  else
    source <- get col_config "source_column" (JStr EmptyString) ;;
    source_column <- text_of source ;;
    values <- rule_values filtered_input_df output_data col_config
                          source_column ;;
    Ok (dict_set output_data col_name values).

Fixpoint map_rules (filtered_input_df : DataFrame)
    (output_data : dict (list pyval)) (rules : list json)
  : res (dict (list pyval)) :=
  match rules with
  | [] => Ok output_data
  | col_config :: rest =>
      d <- map_rule filtered_input_df output_data col_config ;;
      map_rules filtered_input_df d rest
  end.

(** [result_df[final_order]]: the named columns, in the order asked for. *)
Definition select (result_df : dict (list pyval)) (final_order : list string)
  : Table :=
  map (fun col => (col, match dict_get result_df col with
                        | Some values => values
                        | None => []
                        end))
      final_order.

Definition order_columns (result_df : dict (list pyval)) (column_order : json)
  : res Table :=
  if truthy column_order then
    listed <- iter column_order ;;
    valid_order <- existing_in listed (dict_keys result_df) ;;
    let remaining_cols :=
      filter (fun col => negb (mem col valid_order)) (dict_keys result_df) in
    Ok (select result_df (valid_order ++ remaining_cols)%list)
  else Ok result_df.

Definition apply_mapping (input_df : DataFrame) (config : json) : res Table :=
  let filtered_input_df := _apply_void_filtering input_df config in
  output_columns <- get config "output_columns" (JList []) ;;
  rules <- iter output_columns ;;
  output_data <- map_rules filtered_input_df [] rules ;;
  let result_df := frame_of_dict host output_data in
  column_order <- get config "column_order" (JList []) ;;
  order_columns result_df column_order.

End Processor.

End ExcelProcessor.

(* ------------------------------------------------------------------ *)
(** ** ConfigManager: core/config_manager.py *)

Module ConfigManager.
Import Text Py Json Host.

Inductive kind : Type := ValueError | TypeError | OverflowError.

(** A validation step: it returns, or raises an exception of some class
    with a message. *)
Inductive outcome (A : Type) : Type :=
| Return (a : A)
| Throw (k : kind) (msg : string).
Arguments Return {A} a.
Arguments Throw {A} k msg.

Definition andthen {A B : Type} (m : outcome A) (k : A -> outcome B)
  : outcome B :=
  match m with
  | Return a => k a
  | Throw e msg => Throw e msg
  end.

Notation "x <-- m ;; k" := (andthen m (fun x => k))
  (at level 61, m at next level, right associativity).
Notation "m ;;; k" := (andthen m (fun _ => k))
  (at level 61, right associativity).

(** [if cond: raise ValueError(msg)] *)
Definition raise_if (cond : bool) (msg : string) : outcome unit :=
  if cond then Throw ValueError msg else Return tt.

(** [try: body  except (TypeError, ValueError): handler] *)
Definition except_type_or_value {A : Type} (body handler : outcome A)
  : outcome A :=
  match body with
  | Throw ValueError _ | Throw TypeError _ => handler
  | _ => body
  end.

Definition is_dict (v : json) : bool :=
  match v with JDict _ => true | _ => false end.
Definition is_list (v : json) : bool :=
  match v with JList _ => true | _ => false end.
Definition is_str (v : json) : bool :=
  match v with JStr _ => true | _ => false end.
Definition is_bool (v : json) : bool :=
  match v with JBool _ => true | _ => false end.

(** [k in d and not isinstance(d[k], T)] *)
Definition present_not (is_t : json -> bool) (d : list (string * json))
    (k : string) : bool :=
  match field d k with
  | Some v => negb (is_t v)
  | None => false
  end.

Definition upper_char (c : ascii) : ascii :=
  if is_lower c then ascii_of_nat (code c - 32) else c.

Fixpoint upper (s : string) : string :=
  match s with
  | EmptyString => EmptyString
  | String c t => String (upper_char c) (upper t)
  end.

Definition is_hex (c : ascii) : bool :=
  is_digit c || between 65 70 c || between 97 102 c.

(** Digits of [int(text, 16)]: hexadecimal digits, single underscores
    between them only. *)
Fixpoint hex_digits (prev_digit : bool) (s : string) : bool :=
  match s with
  | EmptyString => prev_digit
  | String c t =>
      if is_hex c then hex_digits true t
      else if Ascii.eqb c "_" then prev_digit && hex_digits false t
      else false
  end.

Definition drop_sign (s : string) : string :=
  match s with
  | String c t => if Ascii.eqb c "+" || Ascii.eqb c "-" then t else s
  | EmptyString => s
  end.

(** Does [int(color, 16)] succeed?  Blanks around, a sign and a [0x]
    prefix (with one underscore after it) are accepted. *)
Definition int16_ok (color : string) : bool :=
  match drop_sign (cstrip color) with
  | String z (String x t) =>
      if Ascii.eqb z "0" && (Ascii.eqb x "x" || Ascii.eqb x "X") then
        match t with
        | String u t' => if Ascii.eqb u "_" then hex_digits false t'
                         else hex_digits false t
        | EmptyString => false
        end
      else hex_digits false (String z (String x t))
  | s => hex_digits false s
  end.

Definition _is_valid_hex_color (color : string) : bool :=
  if String.eqb color EmptyString then true
  else if negb (Nat.eqb (String.length color) 6) then false
  else int16_ok color.

Fixpoint all_digits_then_end (seen : bool) (s : string) : bool :=
  match s with
  | EmptyString => seen
  | String c t =>
      if is_digit c then all_digits_then_end true t
      else seen && Ascii.eqb c (ascii_of_nat 10) && String.eqb t EmptyString
  end.

Fixpoint letters_then_digits (seen : bool) (s : string) : bool :=
  match s with
  | EmptyString => false
  | String c t =>
      if is_upper c then letters_then_digits true t
      else seen && all_digits_then_end false s
  end.

(** [re.match(r'^[A-Z]+\d+$', text)]: the dollar also matches before a
    final newline. *)
Definition cell_reference (text : string) : bool :=
  letters_then_digits false text.

Section Validator.

Variable host : PyHost.

Definition num (n : nat) : string := of_Z (Z.of_nat n).

(** [float(v)] *)
Definition py_float (v : json) : outcome float :=
  match v with
  | JInt z =>
      match float_of_int z with
      | Ok x => Return x
      | Raise => Throw OverflowError "int too large to convert to float"
      end
  | JFloat x => Return x
  | JBool b => Return (if b then 1%float else 0%float)
  | JStr s =>
      match float_of_text host s with
      | Some x => Return x
      | None => Throw ValueError "could not convert string to float"
      end
  | _ => Throw TypeError "float() argument must be a string or a real number"
  end.

(** The message of the [ValueError] that [str] raises for an integer of
    too many digits. *)
Definition int_limit_message : string :=
  "Exceeds the limit (4300 digits) for integer string conversion; use sys.set_int_max_str_digits() to increase the limit".

(** [raise ValueError(f"{prefix}{v}")]: the message is built first, and
    building it raises a [ValueError] of its own when [v] does not
    print. *)
Definition raise_naming (prefix : string) (v : json) : outcome unit :=
  match json_str host v with
  | Ok text => Throw ValueError (prefix ++ text)
  | Raise => Throw ValueError int_limit_message
  end.

Definition alignments : list string := [ "left"; "center"; "right" ].

Definition bad_alignment (v : json) : bool :=
  match v with
  | JStr s => negb (mem s alignments)
  | _ => true
  end.

Definition _validate_column_config (col_config : json) (col_num : nat)
  : outcome unit :=
  match col_config with
  | JDict d =>
      match field d "name" with
      | None =>
          Throw ValueError
                ("Column " ++ num col_num ++ " missing required 'name' field")
      | Some name =>
          match name with
          | JStr s =>
              raise_if (String.eqb (strip s) EmptyString)
                ("Column " ++ num col_num ++ " 'name' cannot be empty") ;;;
              raise_if (present_not is_str d "source_column")
                ("Column " ++ num col_num ++ " 'source_column' must be a string") ;;;
              match field d "alignment" with
              | Some alignment =>
                  if bad_alignment alignment then
                    raise_naming
                      ("Column " ++ num col_num ++ " invalid alignment: ")
                      alignment
                  else Return tt
              | None => Return tt
              end ;;;
              match field d "width" with
              | Some w =>
                  except_type_or_value
                    (width <-- py_float w ;;
                     raise_if (PrimFloat.leb width 0)
                       ("Column " ++ num col_num ++ " width must be positive"))
                    (Throw ValueError
                       ("Column " ++ num col_num ++ " width must be a number"))
              | None => Return tt
              end ;;;
              raise_if (present_not is_dict d "formatting")
                ("Column " ++ num col_num ++ " 'formatting' must be a dictionary")
          | _ =>
              Throw ValueError
                    ("Column " ++ num col_num ++ " 'name' must be a string")
          end
      end
  | _ => Throw ValueError ("Column " ++ num col_num ++ " must be a dictionary")
  end.

(** [for i, col_config in enumerate(output_columns)], from index [i]. *)
Fixpoint validate_columns_from (i : nat) (output_columns : list json)
  : outcome unit :=
  match output_columns with
  | [] => Return tt
  | col_config :: rest =>
      _validate_column_config col_config (i + 1) ;;;
      validate_columns_from (S i) rest
  end.

Definition _validate_output_columns (config : list (string * json))
  : outcome unit :=
  match field config "output_columns" with
  | None => Throw ValueError "Missing required 'output_columns' field"
  | Some (JList output_columns) =>
      match output_columns with
      | [] => Throw ValueError "'output_columns' cannot be empty"
      | _ => validate_columns_from 0 output_columns
      end
  | Some _ => Throw ValueError "'output_columns' must be a list"
  end.

Definition validate_color (d : list (string * json)) (fld : string)
  : outcome unit :=
  match field d fld with
  | Some (JStr color) =>
      raise_if (negb (String.eqb color EmptyString)
                && negb (_is_valid_hex_color color))
        ("Header formatting '" ++ fld ++ "' must be a valid hex color")
  | Some _ =>
      Throw ValueError ("Header formatting '" ++ fld ++ "' must be a string")
  | None => Return tt
  end.

Definition _validate_header_formatting (header_config : json) : outcome unit :=
  match header_config with
  | JDict d =>
      raise_if (present_not is_bool d "bold")
        "Header formatting 'bold' must be boolean" ;;;
      validate_color d "background_color" ;;;
      validate_color d "font_color" ;;;
      match field d "alignment" with
      | Some alignment =>
          if bad_alignment alignment then
            raise_naming "Header formatting invalid alignment: " alignment
          else Return tt
      | None => Return tt
      end
  | _ => Throw ValueError "'header_formatting' must be a dictionary"
  end.

(** [for i, col_name in enumerate(names)]: every item is text. *)
Fixpoint all_text_from (i : nat) (what : string) (names : list json)
  : outcome unit :=
  match names with
  | [] => Return tt
  | col_name :: rest =>
      raise_if (negb (is_str col_name))
        (what ++ "[" ++ num i ++ "]' must be a string") ;;;
      all_text_from (S i) what rest
  end.

Definition validate_freeze_panes (freeze_panes : json) : outcome unit :=
  if truthy freeze_panes then
    match freeze_panes with
    | JStr s =>
        raise_if (negb (cell_reference (upper s)))
          "General settings 'freeze_panes' string must be a valid Excel cell reference (e.g., 'A2', 'B3')"
    | JDict d =>
        raise_if (present_not is_bool d "freeze_header")
          "General settings freeze_panes 'freeze_header' must be boolean" ;;;
        match field d "freeze_columns" with
        | Some (JList freeze_columns) =>
            all_text_from 0 "General settings freeze_panes 'freeze_columns"
                          freeze_columns
        | Some _ =>
            Throw ValueError
              "General settings freeze_panes 'freeze_columns' must be a list"
        | None => Return tt
        end
    | _ =>
        Throw ValueError
          "General settings 'freeze_panes' must be a string or dictionary"
    end
  else Return tt.

Definition _validate_general_settings (general_config : json) : outcome unit :=
  match general_config with
  | JDict d =>
      raise_if (present_not is_bool d "auto_fit_columns")
        "General settings 'auto_fit_columns' must be boolean" ;;;
      match field d "freeze_panes" with
      | Some freeze_panes => validate_freeze_panes freeze_panes
      | None => Return tt
      end
  | _ => Throw ValueError "'general_settings' must be a dictionary"
  end.

Definition _validate_void_settings (void_config : json) : outcome unit :=
  match void_config with
  | JDict d =>
      raise_if (present_not is_bool d "enabled")
        "Void settings 'enabled' must be boolean" ;;;
      match field d "zero_columns" with
      | Some (JList zero_columns) =>
          all_text_from 0 "Void settings 'zero_columns" zero_columns
      | Some _ => Throw ValueError "Void settings 'zero_columns' must be a list"
      | None => Return tt
      end
  | _ => Throw ValueError "'void' must be a dictionary"
  end.

Definition if_present (d : list (string * json)) (k : string)
    (check : json -> outcome unit) : outcome unit :=
  match field d k with
  | Some v => check v
  | None => Return tt
  end.

(** The body of the [try] of [validate_config]. *)
Definition validate_body (config : json) : outcome unit :=
  match config with
  | JDict d =>
      _validate_output_columns d ;;;
      if_present d "header_formatting" _validate_header_formatting ;;;
      if_present d "general_settings" _validate_general_settings ;;;
      if_present d "void" _validate_void_settings
  | _ => Throw ValueError "Configuration must be a dictionary"
  end.

(** Any exception is raised again as a [ValueError] whose message quotes
    the first one. *)
Definition validate_config (config : json) : outcome unit :=
  match validate_body config with
  | Return tt => Return tt
  | Throw _ msg => Throw ValueError ("Invalid configuration: " ++ msg)
  end.

End Validator.

End ConfigManager.

(* ------------------------------------------------------------------ *)
(** ** Reference: the interpreter on the arithmetic the engine produces *)

Module Reference.
Import Text Py Json Host.

(** The interpreter's answer to [eval(text)] as far as this reference
    knows it: a value, an exception, or no statement at all. *)
Inductive answer (A : Type) : Type :=
| Got (a : A)
| Raises
| Unknown.
Arguments Got {A} a.
Arguments Raises {A}.
Arguments Unknown {A}.

Definition then_ {A B : Type} (m : answer A) (k : A -> answer B) : answer B :=
  match m with
  | Got a => k a
  | Raises => Raises
  | Unknown => Unknown
  end.

Inductive token : Type :=
| TNum (v : pyval)
| TPlus | TMinus | TStar | TSlash | TOpen | TClose.

Fixpoint span (p : ascii -> bool) (s : string) : string * string :=
  match s with
  | EmptyString => (EmptyString, EmptyString)
  | String c t =>
      if p c then let (a, b) := span p t in (String c a, b)
      else (EmptyString, s)
  end.

Definition is_numchar (c : ascii) : bool := is_digit c || Ascii.eqb c "_".

(** The digits of one part of a literal: underscores may stand singly
    between digits. *)
Fixpoint clean (prev_digit : bool) (s : string) : option string :=
  match s with
  | EmptyString => if prev_digit then Some EmptyString else None
  | String c t =>
      if is_digit c then option_map (String c) (clean true t)
      else if prev_digit then clean false t else None
  end.

Definition digits_of (part : string) : option string :=
  match part with
  | EmptyString => Some EmptyString
  | _ => clean false part
  end.

Definition Z_of_digits (ds : string) : option Z :=
  option_map Z.of_uint (NilEmpty.uint_of_string ds).

Definition two53 : Z := 9007199254740992.

(** An integer literal; one that starts with a zero is left alone, and so
    is one of more digits than the interpreter converts. *)
Definition int_literal (ds : string) : option pyval :=
  if Nat.ltb int_max_str_digits (String.length ds) then None
  else
    match ds with
    | EmptyString => None
    | String c EmptyString => option_map VInt (Z_of_digits ds)
    | String c _ =>
        if Ascii.eqb c "0" then None else option_map VInt (Z_of_digits ds)
    end.

(** A literal with a point: when the digits fit 53 bits and the scale is
    at most 10^22, both are exact floats and one division rounds
    correctly. *)
Definition float_literal (ip fp : string) : option pyval :=
  match (ip ++ fp)%string with
  | EmptyString => None
  | ds =>
      match Z_of_digits ds with
      | Some m =>
          if (m <=? two53)%Z && Nat.leb (String.length fp) 22 then
            Some (VFloat (float_of_Z m
                          / float_of_Z (10 ^ Z.of_nat (String.length fp))))
          else None
      | None => None
      end
  end.

(** The literal at the head of [s], which starts with a digit or a point,
    and the text after it. *)
Definition number (s : string) : option (pyval * string) :=
  let (ipart, r1) := span is_numchar s in
  match r1 with
  | String "." r2 =>
      let (fpart, r3) := span is_numchar r2 in
      match digits_of ipart, digits_of fpart with
      | Some ip, Some fp =>
          option_map (fun v => (v, r3)) (float_literal ip fp)
      | _, _ => None
      end
  | _ =>
      match digits_of ipart with
      | Some ip => option_map (fun v => (v, r1)) (int_literal ip)
      | None => None
      end
  end.

Fixpoint lex (fuel : nat) (s : string) : option (list token) :=
  match fuel with
  | O => None
  | S fuel' =>
      match s with
      | EmptyString => Some []
      | String c t =>
          if Ascii.eqb c " " then lex fuel' t
          else if Ascii.eqb c "+" then option_map (cons TPlus) (lex fuel' t)
          else if Ascii.eqb c "-" then option_map (cons TMinus) (lex fuel' t)
          else if Ascii.eqb c "(" then option_map (cons TOpen) (lex fuel' t)
          else if Ascii.eqb c ")" then option_map (cons TClose) (lex fuel' t)
          else if Ascii.eqb c "*" then
            match t with
            | String "*" _ => None
            | _ => option_map (cons TStar) (lex fuel' t)
            end
          else if Ascii.eqb c "/" then
            match t with
            | String "/" _ => None
            | _ => option_map (cons TSlash) (lex fuel' t)
            end
          else if is_digit c || Ascii.eqb c "." then
            match number s with
            | Some (v, rest) => option_map (cons (TNum v)) (lex fuel' rest)
            | None => None
            end
          else None
      end
  end.

Definition to_float (v : pyval) : answer float :=
  match v with
  | VFloat x => Got x
  | VInt z =>
      match float_of_int z with
      | Ok x => Got x
      | Raise => Raises
      end
  | _ => Unknown
  end.

Definition is_real (v : pyval) : bool :=
  match v with
  | VInt _ | VFloat _ => true
  | _ => false
  end.

(** [a + b], [a - b], [a * b] on ints and floats. *)
Definition arith (iop : Z -> Z -> Z) (fop : float -> float -> float)
    (a b : pyval) : answer pyval :=
  match a, b with
  | VInt x, VInt y => Got (VInt (iop x y))
  | _, _ =>
      if is_real a && is_real b then
        then_ (to_float a) (fun x =>
        then_ (to_float b) (fun y => Got (VFloat (fop x y))))
      else Unknown
  end.

(** [a / b]: true division, [ZeroDivisionError] on a zero divisor. *)
Definition divide (a b : pyval) : answer pyval :=
  match a, b with
  | VInt x, VInt y =>
      if (y =? 0)%Z then Raises
      else if (Z.abs x <=? two53)%Z && (Z.abs y <=? two53)%Z then
        Got (VFloat (float_of_Z x / float_of_Z y))
      else Unknown
  | _, _ =>
      if is_real a && is_real b then
        then_ (to_float a) (fun x =>
        then_ (to_float b) (fun y =>
          if PrimFloat.eqb y 0 then Raises else Got (VFloat (x / y))))
      else Unknown
  end.

Definition negate (v : pyval) : answer pyval :=
  match v with
  | VInt z => Got (VInt (- z))
  | VFloat x => Got (VFloat (- x))
  | _ => Unknown
  end.

Definition unary_plus (v : pyval) : answer pyval :=
  if is_real v then Got v else Unknown.

(** Sums of terms of factors, evaluated while parsed, left to right. *)
Fixpoint expr (n : nat) (ts : list token) : answer (pyval * list token) :=
  match n with
  | O => Unknown
  | S n' => then_ (term n' ts) (fun vr => expr_rest n' (fst vr) (snd vr))
  end
with expr_rest (n : nat) (acc : pyval) (ts : list token)
  : answer (pyval * list token) :=
  match n with
  | O => Unknown
  | S n' =>
      match ts with
      | TPlus :: r =>
          then_ (term n' r) (fun vr =>
          then_ (arith Z.add PrimFloat.add acc (fst vr)) (fun a =>
          expr_rest n' a (snd vr)))
      | TMinus :: r =>
          then_ (term n' r) (fun vr =>
          then_ (arith Z.sub PrimFloat.sub acc (fst vr)) (fun a =>
          expr_rest n' a (snd vr)))
      | _ => Got (acc, ts)
      end
  end
with term (n : nat) (ts : list token) : answer (pyval * list token) :=
  match n with
  | O => Unknown
  | S n' => then_ (factor n' ts) (fun vr => term_rest n' (fst vr) (snd vr))
  end
with term_rest (n : nat) (acc : pyval) (ts : list token)
  : answer (pyval * list token) :=
  match n with
  | O => Unknown
  | S n' =>
      match ts with
      | TStar :: r =>
          then_ (factor n' r) (fun vr =>
          then_ (arith Z.mul PrimFloat.mul acc (fst vr)) (fun a =>
          term_rest n' a (snd vr)))
      | TSlash :: r =>
          then_ (factor n' r) (fun vr =>
          then_ (divide acc (fst vr)) (fun a =>
          term_rest n' a (snd vr)))
      | _ => Got (acc, ts)
      end
  end
with factor (n : nat) (ts : list token) : answer (pyval * list token) :=
  match n with
  | O => Unknown
  | S n' =>
      match ts with
      | TMinus :: r =>
          then_ (factor n' r) (fun vr =>
          then_ (negate (fst vr)) (fun a => Got (a, snd vr)))
      | TPlus :: r =>
          then_ (factor n' r) (fun vr =>
          then_ (unary_plus (fst vr)) (fun a => Got (a, snd vr)))
      | TNum v :: r => Got (v, r)
      | TOpen :: TClose :: r => Got (VTuple, r)
      | TOpen :: r =>
          then_ (expr n' r) (fun vr =>
            match snd vr with
            | TClose :: r' => Got (fst vr, r')
            | _ => Unknown
            end)
      | _ => Unknown
      end
  end.

(** [eval(text)] on expressions of numbers, [+ - * /], parentheses and
    spaces. *)
Definition py_arith (text : string) : answer pyval :=
  match lex (S (String.length text)) text with
  | Some ts =>
      match expr (5 * List.length ts + 5) ts with
      | Got (v, []) => Got v
      | Got _ => Unknown
      | Raises => Raises
      | Unknown => Unknown
      end
  | None => Unknown
  end.

(** *** The text of a float

    [str(x)] is the shortest decimal text that reads back as [x], the
    closest to [x] among the shortest; the search below works on exact
    rationals. *)

Definition scale2 (e : Z) : Q :=
  if (0 <=? e)%Z then inject_Z (2 ^ e) else Qmake 1 (Z.to_pos (2 ^ (- e))).

Definition scale10 (k : Z) : Q :=
  if (0 <=? k)%Z then inject_Z (10 ^ k) else Qmake 1 (Z.to_pos (10 ^ (- k))).

Definition dyadic (m e : Z) : Q := Qmult (inject_Z m) (scale2 e).
Definition decimal (d k : Z) : Q := Qmult (inject_Z d) (scale10 k).
Definition Qltb (a b : Q) : bool := negb (Qle_bool b a).

Fixpoint adjust (fuel : nat) (x : Q) (E : Z) : Z :=
  match fuel with
  | O => E
  | S f =>
      if Qle_bool (scale10 (E + 1)) x then adjust f x (E + 1)
      else if Qltb x (scale10 E) then adjust f x (E - 1)
      else E
  end.

(** The decimal exponent of [m * 2^e]: the floor of its logarithm. *)
Definition dec_exp (m e : Z) : Z :=
  adjust 8 (dyadic m e) (((Z.log2 m + e) * 30103) / 100000).

(** Is the decimal [c] read back as the float [m * 2^e]?  It is when it
    lies between the midpoints to the two neighbouring floats, the
    midpoints included when [m] is even. *)
Definition reads_back (m e : Z) (c : Q) : bool :=
  let lo := if (m =? 2 ^ 52)%Z && (-1074 <? e)%Z
            then dyadic (4 * m - 1) (e - 2) else dyadic (2 * m - 1) (e - 1) in
  let hi := dyadic (2 * m + 1) (e - 1) in
  if Z.even m then Qle_bool lo c && Qle_bool c hi
  else Qltb lo c && Qltb c hi.

(** The best decimal of [n] digits, if one reads back. *)
Definition candidate (m e n : Z) : option (Z * Z) :=
  let x := dyadic m e in
  let k := (dec_exp m e - n + 1)%Z in
  let low := Qfloor (Qdiv x (scale10 k)) in
  let cl := decimal low k in
  let ch := decimal (low + 1) k in
  match reads_back m e cl, reads_back m e ch with
  | true, true =>
      let dl := Qminus x cl in
      let dh := Qminus ch x in
      if Qltb dl dh then Some (low, k)
      else if Qltb dh dl then Some ((low + 1)%Z, k)
      else Some (if Z.even low then low else (low + 1)%Z, k)
  | true, false => Some (low, k)
  | false, true => Some ((low + 1)%Z, k)
  | false, false => None
  end.

Fixpoint shortest_from (fuel : nat) (m e n : Z) : Z * Z :=
  match fuel with
  | O => (m, 0%Z)
  | S f =>
      match candidate m e n with
      | Some r => r
      | None => shortest_from f m e (n + 1)
      end
  end.

Fixpoint strip_zeros (fuel : nat) (d k : Z) : Z * Z :=
  match fuel with
  | O => (d, k)
  | S f =>
      if (d mod 10 =? 0)%Z then strip_zeros f (d / 10) (k + 1) else (d, k)
  end.

Fixpoint zeros (n : nat) : string :=
  match n with
  | O => EmptyString
  | S k => String "0" (zeros k)
  end.

(** Digits and the position of the point: fixed notation between 1e-4
    and 1e16, exponent notation outside. *)
Definition format_digits (digits : string) (decpt : Z) : string :=
  let n := Z.of_nat (String.length digits) in
  if (decpt <=? -4)%Z || (16 <? decpt)%Z then
    let mant := match digits with
                | String c (String c' t) => String c (String "." (String c' t))
                | _ => digits
                end in
    let ex := (decpt - 1)%Z in
    mant ++ "e" ++ (if (ex <? 0)%Z then "-" else "+")
         ++ (if (Z.abs ex <? 10)%Z then "0" else "") ++ of_Z (Z.abs ex)
  else if (decpt <=? 0)%Z then "0." ++ zeros (Z.to_nat (- decpt)) ++ digits
  else if (n <=? decpt)%Z then digits ++ zeros (Z.to_nat (decpt - n)) ++ ".0"
  else String.substring 0 (Z.to_nat decpt) digits ++ "."
       ++ String.substring (Z.to_nat decpt)
                           (String.length digits - Z.to_nat decpt) digits.

Definition float_repr (x : float) : string :=
  match Prim2SF x with
  | S754_nan => "nan"
  | S754_infinity s => if s then "-inf" else "inf"
  | S754_zero s => if s then "-0.0" else "0.0"
  | S754_finite s m e =>
      let (d0, k0) := shortest_from 17 (Zpos m) e 1 in
      let (d, k) := strip_zeros 20 d0 k0 in
      let digits := of_Z d in
      (if s then "-" else "")
        ++ format_digits digits (Z.of_nat (String.length digits) + k)
  end.

(** *** Text to float *)

(** The float nearest to [D * 10^E10]: the quotient is computed with more
    than 55 bits and a sticky last bit, which the final rounding to 53 bits
    cannot tell from the exact value. *)
Definition round_decimal (D E10 : Z) : float :=
  if (D =? 0)%Z then 0%float
  else if (0 <=? E10)%Z then float_of_Z (D * 10 ^ E10)
  else
    let den := (10 ^ (- E10))%Z in
    let s := Z.max 0 (64 + Z.log2 den - Z.log2 D) in
    let num := (D * 2 ^ s)%Z in
    let sticky := if (num mod den =? 0)%Z then 0%Z else 1%Z in
    SF2Prim (binary_normalize prec emax (2 * (num / den) + sticky)
                              (- s - 1) false).

(** An exponent that takes the value out of range either way. *)
Definition scaled (D E10 : Z) : float :=
  if (400 <? E10)%Z then (if (D =? 0)%Z then 0%float else infinity)
  else if (E10 <? -800)%Z then 0%float
  else round_decimal D E10.

Definition split_sign (s : string) : bool * string :=
  match s with
  | String c t =>
      if Ascii.eqb c "-" then (true, t)
      else if Ascii.eqb c "+" then (false, t)
      else (false, s)
  | EmptyString => (false, s)
  end.

Definition signed (neg : bool) (x : float) : float :=
  if neg then (- x)%float else x.

(** The exponent part, after the letter: a sign and digits. *)
Definition exponent (underscores : bool) (s : string) : option Z :=
  let (neg, body) := split_sign s in
  match body with
  | EmptyString => None
  | _ =>
      match (if underscores then
               if all_chars is_numchar body then clean false body else None
             else if all_chars is_digit body then Some body else None) with
      | Some ds =>
          option_map (fun z => if neg then (- z)%Z else z) (Z_of_digits ds)
      | None => None
      end
  end.

(** A decimal number: digits, a point, digits, an exponent; at least one
    digit before the exponent. *)
Definition decimal_text (underscores : bool) (s : string) : option float :=
  let numchar := if underscores then is_numchar else is_digit in
  let part := if underscores then digits_of else (fun p => Some p) in
  let (ipart, r1) := span numchar s in
  let '(fpart, r2) :=
    match r1 with
    | String "." r => span numchar r
    | _ => (EmptyString, r1)
    end in
  match part ipart, part fpart with
  | Some ip, Some fp =>
      match (ip ++ fp)%string with
      | EmptyString => None
      | ds =>
          match Z_of_digits ds with
          | Some D =>
              let frac := Z.of_nat (String.length fp) in
              match r2 with
              | EmptyString => Some (scaled D (- frac))
              | String c r3 =>
                  if Ascii.eqb c "e" || Ascii.eqb c "E" then
                    option_map (fun ex => scaled D (ex - frac))
                               (exponent underscores r3)
                  else None
              end
          | None => None
          end
      end
  | _, _ => None
  end.

Definition number_text (underscores : bool) (s : string) : option float :=
  let (neg, body) := split_sign (cstrip s) in
  let l := lower body in
  if String.eqb l "inf" || String.eqb l "infinity" then
    Some (signed neg infinity)
  else if String.eqb l "nan" then Some nan
  else option_map (signed neg) (decimal_text underscores body).

(** [float(text)] *)
Definition float_parse (s : string) : option float := number_text true s.

(** [pd.to_numeric] on a text cell; an empty cell is NaN. *)
Definition numeric_parse (s : string) : option float := number_text false s.

(** *** Replacement templates *)

Definition is_octal (c : ascii) : bool := between 48 55 c.
Definition digit_value (c : ascii) : nat := code c - 48.

Definition control (c : ascii) : option ascii :=
  if Ascii.eqb c "a" then Some (ascii_of_nat 7)
  else if Ascii.eqb c "b" then Some (ascii_of_nat 8)
  else if Ascii.eqb c "f" then Some (ascii_of_nat 12)
  else if Ascii.eqb c "n" then Some (ascii_of_nat 10)
  else if Ascii.eqb c "r" then Some (ascii_of_nat 13)
  else if Ascii.eqb c "t" then Some (ascii_of_nat 9)
  else if Ascii.eqb c "v" then Some (ascii_of_nat 11)
  else if Ascii.eqb c backslash then Some backslash
  else None.

(** After [\g]: only the whole match, [<0>], can be named, as the pattern
    has no group. *)
Definition group_zero (s : string) : option string :=
  match s with
  | String "<" t =>
      let (name, rest) := span is_digit t in
      match name, rest with
      | String _ _, String ">" rest' =>
          if all_chars (Ascii.eqb "0") name then Some rest' else None
      | _, _ => None
      end
  | _ => None
  end.

(** The expansion of a template at a match: escapes are decoded, [\g<0>]
    is the match, a reference to a group or an unknown letter is an
    error. *)
Fixpoint expand (fuel : nat) (matched s : string) : option string :=
  match fuel with
  | O => None
  | S f =>
      match s with
      | EmptyString => Some EmptyString
      | String c t =>
          if negb (Ascii.eqb c backslash) then
            option_map (String c) (expand f matched t)
          else
            match t with
            | EmptyString => None
            | String d t' =>
                if Ascii.eqb d "g" then
                  match group_zero t' with
                  | Some rest =>
                      option_map (String.append matched) (expand f matched rest)
                  | None => None
                  end
                else if Ascii.eqb d "0" then
                  match t' with
                  | String o1 (String o2 t'') =>
                      if is_octal o1 && is_octal o2 then
                        option_map
                          (String (ascii_of_nat (8 * digit_value o1
                                                 + digit_value o2)))
                          (expand f matched t'')
                      else if is_octal o1 then
                        option_map (String (ascii_of_nat (digit_value o1)))
                                   (expand f matched (String o2 t''))
                      else option_map (String Ascii.zero) (expand f matched t')
                  | String o1 EmptyString =>
                      if is_octal o1 then
                        Some (String (ascii_of_nat (digit_value o1)) EmptyString)
                      else option_map (String Ascii.zero) (expand f matched t')
                  | EmptyString => Some (String Ascii.zero EmptyString)
                  end
                else if is_digit d then
                  match t' with
                  | String o1 (String o2 t'') =>
                      if is_octal d && is_octal o1 && is_octal o2
                         && Nat.leb (digit_value d) 3 then
                        option_map
                          (String (ascii_of_nat (64 * digit_value d
                                                 + 8 * digit_value o1
                                                 + digit_value o2)))
                          (expand f matched t'')
                      else None
                  | _ => None
                  end
                else
                  match control d with
                  | Some ch => option_map (String ch) (expand f matched t')
                  | None =>
                      if is_alpha d then None
                      else option_map (fun r => String c (String d r))
                                      (expand f matched t')
                  end
            end
      end
  end.

Definition template (text matched : string) : option string :=
  expand (S (String.length text)) matched text.

(** *** The text of a list or a dict *)

Definition hex_digit (n : nat) : ascii :=
  if Nat.ltb n 10 then ascii_of_nat (48 + n) else ascii_of_nat (87 + n).

Fixpoint escaped (q : ascii) (s : string) : string :=
  match s with
  | EmptyString => EmptyString
  | String c t =>
      (if Ascii.eqb c backslash || Ascii.eqb c q
       then String backslash (String c EmptyString)
       else if Ascii.eqb c (ascii_of_nat 10) then String backslash "n"
       else if Ascii.eqb c (ascii_of_nat 13) then String backslash "r"
       else if Ascii.eqb c (ascii_of_nat 9) then String backslash "t"
       else if between 32 126 c then String c EmptyString
       else String backslash
              (String "x" (String (hex_digit (code c / 16))
                             (String (hex_digit (code c mod 16)) EmptyString))))
      ++ escaped q t
  end.

(** [repr(s)]: single quotes, unless the text has one and no double quote. *)
Definition str_repr (s : string) : string :=
  let q := if has_char "'" s && negb (has_char dquote s) then dquote else "'"%char in
  String q (escaped q s ++ String q EmptyString).

Fixpoint all_some {A : Type} (xs : list (option A)) : option (list A) :=
  match xs with
  | [] => Some []
  | Some x :: rest => option_map (cons x) (all_some rest)
  | None :: _ => None
  end.

(** [repr(v)]: [None] when an integer inside has too many digits. *)
Fixpoint json_repr (v : json) : option string :=
  match v with
  | JNull => Some "None"
  | JBool b => Some (if b then "True" else "False")
  | JInt z =>
      match int_str z with
      | Ok text => Some text
      | Raise => None
      end
  | JFloat x => Some (float_repr x)
  | JStr s => Some (str_repr s)
  | JList items =>
      option_map (fun parts => "[" ++ join ", " parts ++ "]")
                 (all_some (map json_repr items))
  | JDict fields =>
      option_map
        (fun parts => "{" ++ join ", " parts ++ "}")
        (all_some
           (map (fun kv => option_map (fun r => str_repr (fst kv) ++ ": " ++ r)
                                      (json_repr (snd kv)))
                fields))
  end.

(** *** The cells of a frame *)

Definition number_or_missing (v : pyval) : bool :=
  match v with
  | VInt _ | VFloat _ | VNone => true
  | _ => false
  end.

Definition float_or_missing (v : pyval) : bool :=
  match v with
  | VFloat _ | VNone => true
  | _ => false
  end.

(** A list of numbers and missing values, not all of them integers and not
    all of them missing, gives a column of floats. *)
Definition float_column (values : list pyval) : bool :=
  forallb number_or_missing values && existsb is_number values
  && existsb float_or_missing values.

(** In a column of floats an integer is converted and [None] is NaN; the
    cells of any other column stay as they are. *)
Definition frame_value (values : list pyval) (v : pyval) : pyval :=
  if float_column values then
    match v with
    | VInt z => VFloat (float_of_Z z)
    | VNone => VFloat nan
    | _ => v
    end
  else v.

(** *** The reference host *)

Definition string_dec : forall a b : string, {a = b} + {a <> b} :=
  String.string_dec.

Definition ref_eval (text : string) : option pyval :=
  match py_arith text with
  | Got v => Some v
  | _ => None
  end.

(** A host that answers as CPython and pandas do: everywhere for the text
    of floats, of lists and of dicts, for text read as a number and for
    replacement templates; for [eval] on the expressions [py_arith]
    covers, with an exception standing in elsewhere; with one of the
    possible orders for a set, that of first occurrence; and for the cells
    of a frame on columns whose integers fit a float. *)
Definition ref_host : PyHost :=
  {| py_eval := ref_eval;
     float_of_text := float_parse;
     float_text := float_repr;
     set_order := nodup string_dec;
     to_numeric_text := numeric_parse;
     re_template := template;
     container_text := json_repr;
     frame_cell := frame_value |}.

(** What the theorems below ask of a host: a set lists each of its names
    once, and [eval] agrees with the reference where the reference speaks. *)
Record Conforms (h : PyHost) : Prop := {
  set_order_perm :
    forall names, Permutation (set_order h names) (nodup string_dec names);
  eval_value : forall text v, py_arith text = Got v -> py_eval h text = Some v;
  eval_raises : forall text, py_arith text = Raises -> py_eval h text = None
}.

End Reference.

(* ------------------------------------------------------------------ *)
(** ** The void filter *)

Module VoidFilter.
Import Text Py Json Host Pandas ExcelProcessor.

Lemma filter_all_true {A : Type} (f : A -> bool) (l : list A) :
  (forall x, In x l -> f x = true) -> filter f l = l.
Proof.
  induction l as [|a l IH]; intros H; simpl; [reflexivity|].
  rewrite (H a (or_introl eq_refl)).
  f_equal. apply IH. intros x Hx. apply H. right. exact Hx.
Qed.

Lemma filter_length_le {A : Type} (f : A -> bool) (l : list A) :
  (List.length (filter f l) <= List.length l)%nat.
Proof.
  induction l as [|a l IH]; simpl; [lia|].
  destruct (f a); simpl; lia.
Qed.

Lemma existsb_filter {A : Type} (f p : A -> bool) (l : list A) :
  existsb f l = false -> existsb f (filter p l) = false.
Proof.
  induction l as [|a l IH]; simpl; [reflexivity|].
  intros H. apply orb_false_iff in H. destruct H as [Ha Hl].
  destruct (p a); simpl; [rewrite Ha|]; apply IH; exact Hl.
Qed.

(** Selecting by a mask computed row by row is filtering the rows. *)
Lemma masked_rows {A : Type} (f : A -> bool) (l : list A) :
  map snd (filter (fun p => negb (fst p)) (combine (map f l) l))
  = filter (fun r => negb (f r)) l.
Proof.
  induction l as [|a l IH]; simpl; [reflexivity|].
  destruct (f a); simpl; rewrite IH; reflexivity.
Qed.

Lemma and_mask_map {A : Type} (f g : A -> bool) (l : list A) :
  and_mask (map f l) (map g l) = map (fun r => f r && g r) l.
Proof.
  unfold and_mask. induction l as [|a l IH]; simpl; [reflexivity|].
  rewrite IH. reflexivity.
Qed.

(** *** The specification's filter *)

(** The table of the specification: column names and rows of cells. *)
Record table : Type := {
  header : list string;
  body : list (list pyval)
}.


(** A number as the specification has it. *)
Inductive number : Type :=
| Whole (z : Z)
| Real (x : float).


Section Facts.

Variable host : PyHost.

(** What the filter settles from the column names and the configuration
    alone: leave the frame as it is ([None]) or test the given columns. *)
Definition void_plan (cols : list string) (config : json)
  : res (option (list string)) :=
  void_config <- get config "void" (JDict []) ;;
  enabled <- get void_config "enabled" (JBool false) ;;
  if negb (truthy enabled) then Ok None
  else
    zero_columns <- get void_config "zero_columns" (JList []) ;;
    if negb (truthy zero_columns) then Ok None
    else
      names <- iter zero_columns ;;
      existing_columns <- existing_in names cols ;;
      match existing_columns with
      | [] => Ok None
      | _ =>
          if existsb (fun col => Nat.ltb 1 (occurrences col cols))
                     existing_columns
          then Raise
          else Ok (Some existing_columns)
      end.

(** An integer that no float holds. *)
Definition overflows (v : pyval) : bool :=
  match v with
  | VInt z => PrimFloat.is_infinity (float_of_Z z)
  | _ => false
  end.

(** The zero test of a cell that converts. *)
Definition zero_value (v : pyval) : bool :=
  match v with
  | VInt z => (z =? 0)%Z
  | VFloat x => PrimFloat.is_nan x || PrimFloat.eqb x 0
  | VStr s =>
      match to_numeric_text host s with
      | Some x => PrimFloat.is_nan x || PrimFloat.eqb x 0
      | None => true
      end
  | VBool b => negb b
  | VNone => true
  | VTuple => true
  end.

Lemma is_zero_cell_cases (v : pyval) :
  is_zero_cell host v = if overflows v then Raise else Ok (zero_value v).
Proof.
  destruct v as [z|x|s|b| |]; try reflexivity.
  cbn [is_zero_cell overflows zero_value]. unfold float_of_int.
  destruct (PrimFloat.is_infinity (float_of_Z z)); reflexivity.
Qed.

(** A row of the frame as a Series. *)
Definition series (df : DataFrame) (r : Z * list pyval) : Series :=
  combine (columns df) (snd r).

(** Some cell of the tested columns is an integer that no float holds. *)
Definition overflow_in (df : DataFrame) (cols : list string) : bool :=
  existsb (fun col => existsb (fun r => overflows (cell (series df r) col))
                              (rows df))
          cols.

(** The final mask at a row of a frame of [n] rows. *)
Definition void_row (n : nat) (cols : list string) (r : Z * Series) : bool :=
  (0 <=? fst r)%Z && (fst r <? Z.of_nat n)%Z &&
  forallb (fun col => zero_value (cell (snd r) col)) cols.

(** The frame without its void rows. *)
Definition without_void (df : DataFrame) (cols : list string) : DataFrame :=
  {| columns := columns df;
     rows := filter (fun r => negb (void_row (len df) cols
                                       (fst r, series df r)))
                    (rows df) |}.

Lemma col_mask_rows (df : DataFrame) (col : string) :
  col_mask host df col =
  if existsb (fun r => overflows (cell (series df r) col)) (rows df)
  then Raise
  else Ok (map (fun r => zero_value (cell (series df r) col)) (rows df)).
Proof.
  unfold col_mask, iterrows, series.
  induction (rows df) as [|r rs IH]; [reflexivity|].
  cbn [map traverse existsb snd]. rewrite is_zero_cell_cases.
  destruct (overflows (cell (combine (columns df) (snd r)) col));
    [reflexivity|].
  cbn [bind orb]. rewrite IH.
  destruct (existsb _ rs); reflexivity.
Qed.

Lemma void_mask_rows (df : DataFrame) (cols : list string)
    (m : Z * list pyval -> bool) :
  void_mask host df cols (map m (rows df)) =
  if overflow_in df cols then Raise
  else Ok (map (fun r => m r &&
                         forallb (fun col => zero_value (cell (series df r) col))
                                 cols)
               (rows df)).
Proof.
  unfold overflow_in. revert m.
  induction cols as [|col cols IH]; intros m.
  - cbn [void_mask existsb forallb]. f_equal. apply map_ext.
    intros r. rewrite andb_true_r. reflexivity.
  - cbn [void_mask existsb forallb]. rewrite col_mask_rows.
    destruct (existsb (fun r => overflows (cell (series df r) col)) (rows df));
      [reflexivity|].
    cbn [bind orb]. rewrite and_mask_map, IH.
    destruct (existsb _ cols); [reflexivity|].
    f_equal. apply map_ext. intros r. rewrite andb_assoc. reflexivity.
Qed.

Lemma void_filtering_plan (df : DataFrame) (config : json) :
  void_filtering host df config =
  match void_plan (columns df) config with
  | Ok None => Ok df
  | Ok (Some existing_columns) =>
      if overflow_in df existing_columns then Raise
      else Ok (without_void df existing_columns)
  | Raise => Raise
  end.
Proof.
  unfold void_filtering, void_plan.
  destruct (get config "void" (JDict [])) as [void_config|]; simpl; [|reflexivity].
  destruct (get void_config "enabled" (JBool false)) as [enabled|]; simpl;
    [|reflexivity].
  destruct (negb (truthy enabled)); [reflexivity|].
  destruct (get void_config "zero_columns" (JList [])) as [zero_columns|];
    simpl; [|reflexivity].
  destruct (negb (truthy zero_columns)); [reflexivity|].
  destruct (iter zero_columns) as [names|]; simpl; [|reflexivity].
  destruct (existing_in names (columns df)) as [ex|]; simpl; [|reflexivity].
  destruct ex as [|c ex]; [reflexivity|].
  destruct (existsb _ (c :: ex)); [reflexivity|].
  unfold start_mask. rewrite void_mask_rows.
  destruct (overflow_in df (c :: ex)); [reflexivity|].
  cbn [bind]. unfold drop_void, without_void, void_row. f_equal. f_equal.
  apply (masked_rows
           (fun r => (0 <=? fst r)%Z && (fst r <? Z.of_nat (len df))%Z &&
                     forallb (fun col => zero_value (cell (series df r) col))
                             (c :: ex))).
Qed.

Lemma without_void_columns (df : DataFrame) (ex : list string) :
  columns (without_void df ex) = columns df.
Proof. reflexivity. Qed.

Lemma without_void_overflow (df : DataFrame) (ex cols : list string) :
  overflow_in df cols = false ->
  overflow_in (without_void df ex) cols = false.
Proof.
  unfold overflow_in. induction cols as [|col cols IH]; [reflexivity|].
  cbn [existsb]. intros H. apply orb_false_iff in H. destruct H as [Hc Hr].
  rewrite (IH Hr), orb_false_r.
  unfold without_void at 1. cbn [rows].
  apply (existsb_filter
           (fun r => overflows (cell (series df r) col))). exact Hc.
Qed.

(** A row that survives the filter survives it again: its label is out of
    range, or still is once the frame is shorter, or one of its cells is
    not zero. *)
Lemma without_void_idempotent (df : DataFrame) (ex : list string) :
  without_void (without_void df ex) ex = without_void df ex.
Proof.
  unfold without_void, len, series. simpl. f_equal.
  apply filter_all_true.
  intros r Hr.
  apply filter_In in Hr. destruct Hr as [_ Hkeep].
  pose proof (filter_length_le
                (fun r0 => negb (void_row (List.length (rows df)) ex
                                   (fst r0, combine (columns df) (snd r0))))
                (rows df)) as Hlen.
  unfold void_row in *. simpl fst in *. simpl snd in *.
  apply negb_true_iff in Hkeep. apply negb_true_iff.
  apply andb_false_iff in Hkeep.
  destruct Hkeep as [Hrange|Hzero].
  - apply andb_false_iff. left.
    apply andb_false_iff in Hrange. apply andb_false_iff.
    destruct Hrange as [H0|Hn]; [left; exact H0|right].
    apply Z.ltb_ge in Hn. apply Z.ltb_ge. lia.
  - rewrite Hzero. apply andb_false_r.
Qed.

(** C6.  Applying the void filter twice with the same configuration gives
    the same frame as applying it once: for every frame and every
    configuration document, well formed or not. *)
Theorem void_filter_idempotent (df : DataFrame) (config : json) :
  _apply_void_filtering host (_apply_void_filtering host df config) config
  = _apply_void_filtering host df config.
Proof.
  unfold _apply_void_filtering.
  rewrite (void_filtering_plan df config).
  destruct (void_plan (columns df) config) as [[ex|]|] eqn:Hplan.
  - destruct (overflow_in df ex) eqn:Hover.
    + rewrite void_filtering_plan, Hplan, Hover. reflexivity.
    + rewrite void_filtering_plan, without_void_columns, Hplan.
      rewrite (without_void_overflow df ex ex Hover).
      apply without_void_idempotent.
  - rewrite void_filtering_plan, Hplan. reflexivity.
  - rewrite void_filtering_plan, Hplan. reflexivity.
Qed.

(** The void section of a configuration, read as its two settings. *)
Definition void_setting (config : json) (enabled : bool)
    (zero_columns : list string) : Prop :=
  exists d v,
    config = JDict d /\
    field d "void" = Some (JDict v) /\
    field v "enabled" = Some (JBool enabled) /\
    field v "zero_columns" = Some (JList (map JStr zero_columns)).

(** The zero columns that are columns of the table. *)
Definition surviving (zero_columns cols : list string) : list string :=
  filter (fun z => mem z cols) zero_columns.

(** One of the names is borne by two columns or more. *)
Definition ambiguous (names cols : list string) : bool :=
  existsb (fun col => Nat.ltb 1 (occurrences col cols)) names.






Definition example_table : table :=
  {| header := ["A"; "B"];
     body := [ [VInt 0; VInt 0]; [VInt 0; VInt 1]; [VInt 1; VInt 0] ] |}.


Lemma existing_in_text (zs cols : list string) :
  existing_in (map JStr zs) cols = Ok (surviving zs cols).
Proof.
  induction zs as [|z zs IH]; simpl; [reflexivity|].
  rewrite IH. simpl. reflexivity.
Qed.

Lemma occurrences_absent (x : string) (l : list string) :
  ~ In x l -> filter (String.eqb x) l = [].
Proof.
  induction l as [|a l IH]; intros H; simpl; [reflexivity|].
  destruct (String.eqb_spec x a) as [->|_].
  - exfalso. apply H. left. reflexivity.
  - apply IH. intros Hin. apply H. right. exact Hin.
Qed.

Lemma occurrences_nodup (x : string) (l : list string) :
  NoDup l -> (occurrences x l <= 1)%nat.
Proof.
  unfold occurrences.
  induction 1 as [|a l Hnotin _ IH]; simpl; [lia|].
  destruct (String.eqb_spec x a) as [->|_]; [|exact IH].
  rewrite (occurrences_absent a l Hnotin). simpl. lia.
Qed.

Lemma no_ambiguous_column (cols ex : list string) :
  NoDup cols -> ambiguous ex cols = false.
Proof.
  intros Hnd. unfold ambiguous.
  induction ex as [|c ex IH]; simpl; [reflexivity|].
  rewrite IH, orb_false_r.
  apply Nat.ltb_ge. apply occurrences_nodup. exact Hnd.
Qed.





Lemma void_plan_setting (cols : list string) (config : json) (enabled : bool)
    (zs : list string) :
  void_setting config enabled zs ->
  void_plan cols config =
  if enabled then
    match zs, surviving zs cols with
    | [], _ => Ok None
    | _, [] => Ok None
    | _, ex => if ambiguous ex cols then Raise else Ok (Some ex)
    end
  else Ok None.
Proof.
  intros [d [v [-> [Hvoid [Hen Hzero]]]]].
  unfold void_plan, get, bind, field in *.
  rewrite Hvoid. cbv iota beta. rewrite Hen. cbv iota beta.
  destruct enabled; [|reflexivity].
  cbn [truthy negb]. rewrite Hzero. cbv iota beta.
  destruct zs as [|z zs]; [reflexivity|].
  remember (surviving (z :: zs) cols) as sv eqn:Hsv.
  cbn [map truthy negb iter].
  change (JStr z :: map JStr zs) with (map JStr (z :: zs)).
  rewrite (existing_in_text (z :: zs) cols), <- Hsv. cbv iota beta.
  destruct sv as [|e ex]; reflexivity.
Qed.


End Facts.






End VoidFilter.

(* ------------------------------------------------------------------ *)
(** ** The header locator *)

Module HeaderLocator.
Import Text Py Json Host Pandas ExcelProcessor.

(** The position of the first row that qualifies, counted from [i]; a row
    whose test raises ends the search. *)
Fixpoint first_from (i : nat) (qualifies : list pyval -> res bool)
    (grid : list (list pyval)) : res (option nat) :=
  match grid with
  | [] => Ok None
  | cells :: rest =>
      q <- qualifies cells ;;
      if q then Ok (Some i) else first_from (S i) qualifies rest
  end.

Section Facts.

Variable host : PyHost.

(** The locator as the specification words it: the present cells of a row
    are lower-cased and concatenated, the keywords found in that text are
    counted, and the first of the [maxScanRows] leading rows with three or
    more is the header. *)
Definition spec_row_text (cells : list pyval) : res string :=
  texts <- traverse (fun c => s <- py_str host c ;; Ok (lower s))
                    (filter notna cells) ;;
  Ok (String.concat EmptyString texts).

Definition spec_matches (cells : list pyval) : res nat :=
  text <- spec_row_text cells ;;
  Ok (count_keywords text).

Definition locate_header (maxScanRows : nat) (grid : list (list pyval))
  : res (option nat) :=
  first_from 0 (fun cells => m <- spec_matches cells ;; Ok (Nat.leb 3 m))
             (firstn maxScanRows grid).

(** The locator as the code runs it: rows 0 to 20, each row's cells joined
    by single spaces. *)
Definition scan (grid : list (list pyval)) : res (option nat) :=
  first_from 0 (fun cells => m <- matches host cells ;; Ok (Nat.leb 3 m))
             (firstn 21 grid).

Definition as_label (found : res (option nat)) : res (option Z) :=
  o <- found ;; Ok (option_map Z.of_nat o).

Lemma find_header_in_from (rs : list (Z * list pyval)) (i : nat) :
  map fst rs = map Z.of_nat (seq i (List.length rs)) ->
  find_header_in host rs =
  as_label
    (first_from i (fun cells => m <- matches host cells ;; Ok (Nat.leb 3 m))
                (firstn (21 - i) (map snd rs))).
Proof.
  revert i. induction rs as [|[idx cells] rest IH]; intros i Hlab.
  - destruct (21 - i)%nat; reflexivity.
  - simpl in Hlab. injection Hlab as Hidx Hrest. subst idx.
    cbn [find_header_in].
    destruct (20 <? Z.of_nat i)%Z eqn:Hfar.
    + apply Z.ltb_lt in Hfar.
      replace (21 - i)%nat with 0%nat by lia. reflexivity.
    + apply Z.ltb_ge in Hfar.
      replace (21 - i)%nat with (S (20 - i)) by lia.
      cbn [map snd firstn first_from].
      destruct (matches host cells) as [m|]; [|reflexivity].
      cbn [bind].
      destruct (Nat.leb 3 m); [reflexivity|].
      rewrite (IH (S i) Hrest).
      replace (21 - S i)%nat with (20 - i)%nat by lia. reflexivity.
Qed.

(** C9, as the code has it.  On a raw grid as read (rows labelled 0, 1,
    2, ...) the locator looks at the 21 leading rows, those of index 0 to
    20, and returns the index of the first one whose text (present cells,
    lower-cased, joined by single spaces) contains at least 3 of the 19
    keywords, or nothing when none of them does; a cell that [str] refuses,
    met before, ends the search with its exception; it is a function of
    the grid alone. *)
Theorem find_header_row_scans_21 (df_raw : DataFrame) :
  fresh df_raw ->
  _find_header_row host df_raw = as_label (scan (map snd (rows df_raw))).
Proof.
  intros Hfresh. unfold _find_header_row, scan.
  rewrite (find_header_in_from (rows df_raw) 0 Hfresh).
  reflexivity.
Qed.

End Facts.

(** Twenty rows of data and, at index 20, the header. *)
Definition late_header : DataFrame :=
  {| columns := ["0"; "1"; "2"];
     rows := (map (fun i => (Z.of_nat i, [VStr "Report"; VNone; VInt 2024]))
                  (seq 0 20)
              ++ [(20%Z, [VStr "Name"; VStr "Pay Date"; VStr "Tax"])])%list |}.

(** The 21st row is found, though it lies outside the 20 leading rows the
    claim allows the locator to scan. *)
Lemma header_at_row_20 :
  _find_header_row Reference.ref_host late_header = Ok (Some 20%Z) /\
  locate_header Reference.ref_host 20 (map snd (rows late_header)) = Ok None.
Proof. split; vm_compute; reflexivity. Qed.

Lemma find_header_row_scans_21_witness :
  _find_header_row Reference.ref_host late_header =
  as_label (scan Reference.ref_host (map snd (rows late_header))).
Proof.
  apply (find_header_row_scans_21 Reference.ref_host late_header).
  reflexivity.
Defined.

End HeaderLocator.

(* ------------------------------------------------------------------ *)
(** ** The formula evaluator *)

Module Formula.
Import Text Re Py Json Host Pandas ExcelProcessor.

(** The text with its double quotes removed: the one repair. *)
Definition unquote (expr : string) : string :=
  replace (String dquote EmptyString) EmptyString expr.

(** The alphabet the claim gives for a safe expression: digits, the seven
    signs and whitespace. *)
Definition claimed_alphabet (c : ascii) : bool :=
  is_digit c || has_char c "+-*/()." || is_space c.

(** The alphabet of the code: digits, the seven signs, the underscore and
    the space. *)
Definition allowed (c : ascii) : bool := has_char c allowed_chars.

(** An expression the code refuses: a character outside its alphabet, or
    one of the banned words in its lower-cased text. *)
Definition violates (expr : string) : Prop :=
  (exists c, has_char c expr = true /\ allowed c = false) \/
  (exists d, In d dangerous /\ contains d (lower expr) = true).

Lemma all_chars_false (p : ascii -> bool) (s : string) :
  all_chars p s = false <-> exists c, has_char c s = true /\ p c = false.
Proof.
  induction s as [|a s IH]; simpl.
  - split; [discriminate|]. intros [c [H _]]. discriminate.
  - split.
    + intros H. apply andb_false_iff in H. destruct H as [H|H].
      * exists a. rewrite Ascii.eqb_refl. split; [reflexivity|exact H].
      * apply IH in H. destruct H as [c [Hc Hp]].
        exists c. rewrite Hc, orb_true_r. split; [reflexivity|exact Hp].
    + intros [c [Hc Hp]]. apply andb_false_iff.
      apply orb_true_iff in Hc. destruct Hc as [Hc|Hc].
      * apply Ascii.eqb_eq in Hc. subst a. left. exact Hp.
      * right. apply IH. exists c. split; assumption.
Qed.

Lemma unsafe_iff_violates (expr : string) :
  _is_safe_expression expr = false <-> violates expr.
Proof.
  unfold _is_safe_expression, violates. split.
  - intros H. apply andb_false_iff in H. destruct H as [H|H].
    + left. apply all_chars_false in H. exact H.
    + right. apply negb_false_iff in H. apply existsb_exists in H.
      destruct H as [d [Hin Hc]]. exists d. split; assumption.
  - intros [H|[d [Hin Hc]]]; apply andb_false_iff.
    + left. apply all_chars_false. exact H.
    + right. apply negb_false_iff. apply existsb_exists.
      exists d. split; assumption.
Qed.

Section Facts.

Variable host : PyHost.

Lemma evaluate_formula_length (formula : string) (df : DataFrame)
    (output_data : dict (list pyval)) :
  List.length (_evaluate_formula host formula df output_data) = len df.
Proof.
  unfold _evaluate_formula, iterrows, len.
  rewrite !length_map. reflexivity.
Qed.

Lemma evaluate_formula_nth (formula : string) (df : DataFrame)
    (output_data : dict (list pyval)) (i : nat) (idx : Z) (row : Series) :
  nth_error (iterrows df) i = Some (idx, row) ->
  nth_error (_evaluate_formula host formula df output_data) i =
  Some (fst (evaluate_row host (formula_clean_of formula) output_data idx row))
  /\
  nth_error (evaluated_texts host formula df output_data) i =
  Some (snd (evaluate_row host (formula_clean_of formula) output_data idx row)).
Proof.
  intros Hrow. unfold _evaluate_formula, evaluated_texts.
  rewrite !nth_error_map, Hrow. split; reflexivity.
Qed.

Lemma unsafe_row (formula_clean : string) (output_data : dict (list pyval))
    (idx : Z) (row : Series) (evaluated : string) :
  _replace_formula_references host formula_clean row output_data idx
    = Ok evaluated ->
  _is_safe_expression evaluated = false ->
  _is_safe_expression (unquote evaluated) = false ->
  evaluate_row host formula_clean output_data idx row = (VInt 0, []).
Proof.
  intros Hrep Hunsafe Hfixed. unfold evaluate_row.
  rewrite Hrep, Hunsafe. fold (unquote evaluated). rewrite Hfixed.
  reflexivity.
Qed.

(** C2, as the code has it.  When the substituted expression of a row
    contains a character outside the digits, [+ - * / ( ) . _] and the
    space, or one of the banned words, and still does once its double
    quotes are removed, the value of that row is 0 and nothing is handed to
    [eval]; the column still has one value per row, each computed from its
    own row. *)
Theorem unsafe_expression_gives_zero
    (formula : string) (df : DataFrame) (output_data : dict (list pyval))
    (i : nat) (idx : Z) (row : Series) (evaluated : string) :
  nth_error (iterrows df) i = Some (idx, row) ->
  _replace_formula_references host (formula_clean_of formula) row
                              output_data idx = Ok evaluated ->
  violates evaluated ->
  violates (unquote evaluated) ->
  nth_error (_evaluate_formula host formula df output_data) i = Some (VInt 0)
  /\ nth_error (evaluated_texts host formula df output_data) i = Some []
  /\ List.length (_evaluate_formula host formula df output_data) = len df
  /\ forall j idx' row',
       nth_error (iterrows df) j = Some (idx', row') ->
       nth_error (_evaluate_formula host formula df output_data) j =
       Some (fst (evaluate_row host (formula_clean_of formula) output_data
                               idx' row')).
Proof.
  intros Hrow Hrep Hv Hvq.
  apply unsafe_iff_violates in Hv. apply unsafe_iff_violates in Hvq.
  destruct (evaluate_formula_nth formula df output_data i idx row Hrow)
    as [Hval Htexts].
  rewrite (unsafe_row _ _ _ _ _ Hrep Hv Hvq) in Hval, Htexts.
  repeat split; try assumption.
  - apply evaluate_formula_length.
  - intros j idx' row' Hj.
    apply (evaluate_formula_nth formula df output_data j idx' row' Hj).
Qed.

(** What one row yields: nothing is evaluated and the value is 0, or one
    safe text is evaluated and the value is what [eval] returns, 0 when it
    raises. *)
Lemma evaluate_row_cases (formula_clean : string)
    (output_data : dict (list pyval)) (idx : Z) (row : Series) :
  evaluate_row host formula_clean output_data idx row = (VInt 0, []) \/
  exists e,
    _is_safe_expression e = true /\
    evaluate_row host formula_clean output_data idx row
      = (eval_or_zero host e, [e]).
Proof.
  unfold evaluate_row.
  destruct (_replace_formula_references host formula_clean row output_data idx)
    as [evaluated|]; [|left; reflexivity].
  destruct (_is_safe_expression evaluated) eqn:Hsafe.
  - right. exists evaluated. split; [exact Hsafe|reflexivity].
  - destruct (_is_safe_expression
                (replace (String dquote EmptyString) EmptyString evaluated))
      eqn:Hfixed.
    + right. eexists. split; [exact Hfixed|reflexivity].
    + left. reflexivity.
Qed.

(** C3, as the code has it.  For every formula and input table the column
    has exactly one value per row.  The value of a row is 0 when nothing
    was evaluated (the substitution failed or the expression is unsafe) or
    when [eval] raised; otherwise it is whatever the safe expression
    evaluates to.  A row that fails changes no other row. *)
Theorem formula_column_one_value_per_row
    (formula : string) (df : DataFrame) (output_data : dict (list pyval)) :
  List.length (_evaluate_formula host formula df output_data) = len df /\
  forall i idx row,
    nth_error (iterrows df) i = Some (idx, row) ->
    exists v texts,
      nth_error (_evaluate_formula host formula df output_data) i = Some v /\
      nth_error (evaluated_texts host formula df output_data) i = Some texts /\
      (v, texts) = evaluate_row host (formula_clean_of formula) output_data
                                idx row /\
      ((texts = [] /\ v = VInt 0) \/
       (exists e, texts = [e] /\ _is_safe_expression e = true /\
                  ((py_eval host e = None /\ v = VInt 0) \/
                   py_eval host e = Some v))).
Proof.
  split; [apply evaluate_formula_length|].
  intros i idx row Hrow.
  destruct (evaluate_formula_nth formula df output_data i idx row Hrow)
    as [Hval Htexts].
  eexists. eexists. split; [exact Hval|]. split; [exact Htexts|].
  split; [symmetry; apply surjective_pairing|].
  destruct (evaluate_row_cases (formula_clean_of formula) output_data idx row)
    as [H|[e [Hsafe H]]]; rewrite H; simpl.
  - left. split; reflexivity.
  - right. exists e. split; [reflexivity|]. split; [exact Hsafe|].
    unfold eval_or_zero. destruct (py_eval host e) as [v|].
    + right. reflexivity.
    + left. split; reflexivity.
Qed.

End Facts.


(** *** The reference host conforms *)

Lemma ref_host_conforms : Reference.Conforms Reference.ref_host.
Proof.
  constructor; simpl.
  - intros names. apply Permutation_refl.
  - intros text v H. unfold Reference.ref_eval. rewrite H. reflexivity.
  - intros text H. unfold Reference.ref_eval. rewrite H. reflexivity.
Qed.

Lemma set_order_nil (h : PyHost) :
  Reference.Conforms h -> set_order h [] = [].
Proof.
  intros Hc. apply Permutation_nil. apply Permutation_sym.
  apply (Reference.set_order_perm h Hc []).
Qed.

Lemma set_order_one (h : PyHost) (name : string) :
  Reference.Conforms h -> set_order h [name] = [name].
Proof.
  intros Hc. apply Permutation_length_1_inv. apply Permutation_sym.
  apply (Reference.set_order_perm h Hc [name]).
Qed.

(** *** Sums and differences of the columns A and B *)

(** Columns A = 1, 2 and B = 3, 4. *)
Definition ab_frame : DataFrame :=
  {| columns := ["A"; "B"];
     rows := [ (0%Z, [VInt 1; VInt 3]); (1%Z, [VInt 2; VInt 4]) ] |}.

Definition ab_row (a b : Z) : Series := [("A", VInt a); ("B", VInt b)].

(** In [A + B] the name pattern finds nothing, a name having at least two
    characters: the text stays as it is, is refused as unsafe, and the row
    is 0 -- whatever the row holds. *)
Lemma a_plus_b_row (h : PyHost) (output_data : dict (list pyval))
    (idx : Z) (row : Series) :
  Reference.Conforms h ->
  evaluate_row h "A + B" output_data idx row = (VInt 0, []).
Proof.
  intros Hc. unfold evaluate_row, _replace_formula_references, formula_words.
  change (findall_quoted "A + B" ++ findall_unquoted "A + B")%list
    with (@nil string).
  rewrite (set_order_nil h Hc). reflexivity.
Qed.

Lemma append_empty (s : string) : (s ++ "")%string = s.
Proof. induction s as [|c s IH]; simpl; [reflexivity|]. rewrite IH. reflexivity. Qed.

(** In [A - B] the name pattern takes the whole text for one name, which
    the partial match resolves to column A. *)
Lemma a_minus_b_row (h : PyHost) (a b : Z) (x : float) (idx : Z) :
  Reference.Conforms h ->
  float_of_int a = Ok x ->
  _replace_formula_references h "A - B" (ab_row a b) [] idx
  = Ok (float_text h x).
Proof.
  intros Hc Hx. unfold _replace_formula_references, formula_words.
  change (findall_quoted "A - B" ++ findall_unquoted "A - B")%list
    with ["A - B"].
  rewrite (set_order_one h "A - B" Hc).
  unfold replace_words, replace_word, reference_value, _find_column_value.
  change (strip "A - B") with "A - B".
  cbn [ab_row map fst mem existsb String.eqb Ascii.eqb Bool.eqb orb].
  change (mem (lower "A - B") reserved_words) with false.
  change (find (fun col => String.eqb (lower col) (lower "A - B")) ["A"; "B"])
    with (@None string).
  change (find (partial_match "A - B") ["A"; "B"]) with (Some "A").
  unfold numeric_at, ab_row.
  change (Nat.ltb 1 (occurrences "A" (map fst [("A", VInt a); ("B", VInt b)])))
    with false.
  change (cell [("A", VInt a); ("B", VInt b)] "A") with (VInt a).
  cbn [_to_numeric]. rewrite Hx. cbn [bind py_str].
  unfold substitute.
  change (has_char " " "A - B") with true. cbn [orb bind].
  f_equal. cbv -[String.append float_text]. apply append_empty.
Qed.

(** C1 on the code.  With A = 1, 2 and B = 3, 4 the formula [=A + B]
    yields 0, 0 -- as it does on every table -- and not 4, 6; in [=A - B]
    the expression evaluated for a row is the value of A alone, so the
    column is 1.0, 2.0 and not -2, -2. *)
Theorem single_letter_formulas (h : PyHost) :
  Reference.Conforms h ->
  (forall df output_data,
     _evaluate_formula h "=A + B" df output_data = repeat (VInt 0) (len df)) /\
  _evaluate_formula h "=A + B" ab_frame [] = [VInt 0; VInt 0] /\
  _replace_formula_references h "A - B" (ab_row 1 3) [] 0
    = Ok (float_text h 1) /\
  _replace_formula_references h "A - B" (ab_row 2 4) [] 1
    = Ok (float_text h 2).
Proof.
  intros Hc.
  assert (Hall : forall df output_data,
             _evaluate_formula h "=A + B" df output_data
             = repeat (VInt 0) (len df)).
  { intros df output_data. unfold _evaluate_formula, len, iterrows.
    change (formula_clean_of "=A + B") with "A + B".
    induction (rows df) as [|r rs IH]; simpl; [reflexivity|].
    rewrite (a_plus_b_row h output_data _ _ Hc), IH. reflexivity. }
  split; [exact Hall|]. split; [apply (Hall ab_frame [])|].
  split; apply a_minus_b_row; try exact Hc; reflexivity.
Qed.

Lemma single_letter_formulas_witness :
  _evaluate_formula Reference.ref_host "=A + B" ab_frame []
  = [VInt 0; VInt 0].
Proof.
  exact (proj1 (proj2 (single_letter_formulas Reference.ref_host
                                              ref_host_conforms))).
Defined.

(** The same columns on the reference host, by evaluation. *)
Lemma a_minus_b_on_reference :
  _evaluate_formula Reference.ref_host "=A - B" ab_frame []
  = [VFloat 1; VFloat 2].
Proof. vm_compute. reflexivity. Qed.

(** *** Unsafe expressions *)

Lemma unsafe_expression_gives_zero_witness :
  nth_error (_evaluate_formula Reference.ref_host "=A + B" ab_frame []) 0
    = Some (VInt 0) /\
  nth_error (evaluated_texts Reference.ref_host "=A + B" ab_frame []) 0
    = Some [].
Proof.
  destruct (unsafe_expression_gives_zero Reference.ref_host "=A + B" ab_frame
              [] 0 0%Z (ab_row 1 3) "A + B") as [H1 [H2 _]].
  - reflexivity.
  - reflexivity.
  - left. exists "A"%char. split; reflexivity.
  - left. exists "A"%char. split; reflexivity.
  - split; assumption.
Defined.

(** The expression [1_0] has an underscore, which is outside the alphabet
    the claim gives, with or without the repair; yet it is handed to [eval]
    and the row is 10. *)
Lemma underscore_is_evaluated :
  _replace_formula_references Reference.ref_host "1_0" (ab_row 1 3) [] 0
    = Ok "1_0" /\
  all_chars claimed_alphabet "1_0" = false /\
  all_chars claimed_alphabet (unquote "1_0") = false /\
  evaluated_texts Reference.ref_host "=1_0" ab_frame [] = [["1_0"]; ["1_0"]] /\
  _evaluate_formula Reference.ref_host "=1_0" ab_frame [] = [VInt 10; VInt 10].
Proof. repeat split; vm_compute; reflexivity. Qed.

(** *** One value per row *)

Lemma formula_column_one_value_per_row_witness :
  List.length (_evaluate_formula Reference.ref_host "=A - B" ab_frame []) = 2%nat
  /\ exists v texts,
       nth_error (_evaluate_formula Reference.ref_host "=A - B" ab_frame []) 0
         = Some v /\
       nth_error (evaluated_texts Reference.ref_host "=A - B" ab_frame []) 0
         = Some texts.
Proof.
  destruct (formula_column_one_value_per_row Reference.ref_host "=A - B"
              ab_frame []) as [Hlen Hrows].
  split; [exact Hlen|].
  destruct (Hrows 0%nat 0%Z (ab_row 1 3) eq_refl) as [v [texts [Hv [Ht _]]]].
  exists v, texts. split; assumption.
Defined.

(** The text [()] is safe and evaluates to the empty tuple: the value of
    the row is not a number. *)
Lemma empty_tuple_is_not_numeric :
  _evaluate_formula Reference.ref_host "=()" ab_frame [] = [VTuple; VTuple] /\
  forallb is_number (_evaluate_formula Reference.ref_host "=()" ab_frame [])
    = false.
Proof. split; vm_compute; reflexivity. Qed.

End Formula.

(* ------------------------------------------------------------------ *)
(** ** Formulas over earlier output columns *)

Module ForwardReference.
Import Text Re Py Json Host Pandas ExcelProcessor Formula Reference.

(** The decimal form of an unsigned number is made of digits. *)
Lemma uint_text_digits (d : Decimal.uint) :
  all_chars is_digit (NilEmpty.string_of_uint d) = true.
Proof. induction d; simpl; try reflexivity; exact IHd. Qed.

Lemma span_all (p : ascii -> bool) (s rest : string) :
  all_chars p s = true ->
  match rest with String c _ => p c = false | EmptyString => True end ->
  span p (s ++ rest) = (s, rest).
Proof.
  intros Hs Hrest. induction s as [|c s IH]; simpl.
  - destruct rest as [|c r]; [reflexivity|]. simpl. rewrite Hrest. reflexivity.
  - simpl in Hs. apply andb_true_iff in Hs. destruct Hs as [Hc Hs].
    rewrite Hc, (IH Hs). reflexivity.
Qed.

Lemma clean_digits (s : string) (b : bool) :
  all_chars is_digit s = true -> s <> EmptyString \/ b = true ->
  clean b s = Some s.
Proof.
  revert b. induction s as [|c s IH]; intros b Hs Hne; simpl.
  - destruct Hne as [Hne| ->]; [exfalso; apply Hne; reflexivity|reflexivity].
  - simpl in Hs. apply andb_true_iff in Hs. destruct Hs as [Hc Hs].
    rewrite Hc, (IH true Hs (or_intror eq_refl)). reflexivity.
Qed.

Lemma digits_numchars (s : string) :
  all_chars is_digit s = true -> all_chars is_numchar s = true.
Proof.
  induction s as [|c s IH]; simpl; [reflexivity|].
  intros H. apply andb_true_iff in H. destruct H as [Hc Hs].
  rewrite (IH Hs). unfold is_numchar. rewrite Hc. reflexivity.
Qed.

Lemma nzhead_head (d : Decimal.uint) :
  match Decimal.nzhead d with Decimal.D0 _ => False | _ => True end.
Proof. induction d; simpl; auto. Qed.

(** The decimal form of a positive number does not start with a zero. *)
Lemma to_uint_head (p : positive) :
  match Pos.to_uint p with
  | Decimal.Nil => False
  | Decimal.D0 _ => False
  | _ => True
  end.
Proof.
  pose proof (Unsigned.to_of (Pos.to_uint p)) as H.
  rewrite Unsigned.of_to in H. simpl in H.
  pose proof (Unsigned.to_uint_nonzero p) as Hnz.
  pose proof (Unsigned.to_uint_nonnil p) as Hnn.
  destruct (Pos.to_uint p) as [|d|d|d|d|d|d|d|d|d|d]; try exact I.
  - apply Hnn. reflexivity.
  - unfold Decimal.unorm in H. simpl in H.
    pose proof (nzhead_head d) as Hh.
    destruct (Decimal.nzhead d); try discriminate; contradiction.
Qed.

Lemma Z_of_digits_uint (d : Decimal.uint) :
  Z_of_digits (NilEmpty.string_of_uint d) = Some (Z.of_uint d).
Proof. unfold Z_of_digits. rewrite NilEmpty.usu. reflexivity. Qed.

(** A positive number that the interpreter prints. *)
Definition prints (p : positive) : Prop :=
  Nat.ltb int_max_str_digits
          (String.length (NilEmpty.string_of_uint (Pos.to_uint p))) = false.

Lemma int_literal_pos (p : positive) :
  prints p ->
  int_literal (NilEmpty.string_of_uint (Pos.to_uint p)) = Some (VInt (Zpos p)).
Proof.
  intros Hlim.
  assert (Hval : Z_of_digits (NilEmpty.string_of_uint (Pos.to_uint p))
                 = Some (Zpos p)).
  { rewrite Z_of_digits_uint. unfold Z.of_uint.
    rewrite Unsigned.of_to. reflexivity. }
  pose proof (to_uint_head p) as Hh.
  unfold int_literal. unfold prints in Hlim. rewrite Hlim. clear Hlim.
  destruct (Pos.to_uint p) as [|d|d|d|d|d|d|d|d|d|d] eqn:E;
    try contradiction;
    simpl NilEmpty.string_of_uint in *;
    rewrite Hval; destruct (NilEmpty.string_of_uint d); reflexivity.
Qed.


Lemma digit_cases (c : ascii) :
  is_digit c = true ->
  In c ["0"; "1"; "2"; "3"; "4"; "5"; "6"; "7"; "8"; "9"]%char.
Proof.
  destruct c as [[] [] [] [] [] [] [] []]; intros H;
    try discriminate H; simpl; tauto.
Qed.

Lemma lex_digit_head (fuel : nat) (c : ascii) (t : string) :
  is_digit c = true ->
  lex (S fuel) (String c t) =
  match number (String c t) with
  | Some (v, rest) => option_map (cons (TNum v)) (lex fuel rest)
  | None => None
  end.
Proof.
  intros H. apply digit_cases in H. simpl in H.
  repeat (destruct H as [<-|H]; [reflexivity|]). contradiction.
Qed.

Lemma uint_text_nonempty (p : positive) :
  exists c t, NilEmpty.string_of_uint (Pos.to_uint p) = String c t
              /\ is_digit c = true.
Proof.
  pose proof (uint_text_digits (Pos.to_uint p)) as Hd.
  pose proof (to_uint_head p) as Hh.
  destruct (Pos.to_uint p); try contradiction; simpl in *;
    eexists; eexists; (split; [reflexivity|reflexivity]).
Qed.

Lemma number_pos (p : positive) (rest : string) :
  prints p ->
  match rest with
  | String c _ => is_numchar c = false /\ c <> "."%char
  | EmptyString => True
  end ->
  number (NilEmpty.string_of_uint (Pos.to_uint p) ++ rest)
  = Some (VInt (Zpos p), rest).
Proof.
  intros Hlim Hrest. unfold number.
  rewrite (span_all is_numchar).
  - destruct (uint_text_nonempty p) as [c [t [E Hc]]].
    assert (Hclean : digits_of (NilEmpty.string_of_uint (Pos.to_uint p))
                     = Some (NilEmpty.string_of_uint (Pos.to_uint p))).
    { rewrite E. unfold digits_of. rewrite <- E.
      apply clean_digits; [apply uint_text_digits|].
      left. rewrite E. discriminate. }
    destruct rest as [|r rs].
    + rewrite Hclean, (int_literal_pos p Hlim). reflexivity.
    + destruct Hrest as [_ Hdot].
      destruct (Ascii.eqb_spec r ".") as [->|_]; [contradiction|].
      rewrite Hclean, (int_literal_pos p Hlim).
      destruct r as [[] [] [] [] [] [] [] []]; try reflexivity.
      exfalso. apply Hdot. reflexivity.
  - apply digits_numchars. apply uint_text_digits.
  - destruct rest; [exact I|]. apply Hrest.
Qed.

Lemma length_append (a b : string) :
  String.length (a ++ b) = (String.length a + String.length b)%nat.
Proof. induction a as [|c a IH]; simpl; [reflexivity|]. rewrite IH. reflexivity. Qed.

Lemma lex_pos_times_two (p : positive) (k : nat) :
  prints p ->
  lex (S (5 + k)) (NilEmpty.string_of_uint (Pos.to_uint p) ++ " * 2")
  = Some [TNum (VInt (Zpos p)); TStar; TNum (VInt 2)].
Proof.
  intros Hlim.
  destruct (uint_text_nonempty p) as [c [t [E Hc]]].
  rewrite E. cbn [String.append]. rewrite (lex_digit_head _ c _ Hc).
  change (String c (t ++ " * 2")) with (String c t ++ " * 2").
  rewrite <- E, (number_pos p _ Hlim).
  - reflexivity.
  - split; [reflexivity|discriminate].
Qed.

Lemma lex_minus (fuel : nat) (t : string) :
  lex (S fuel) (String "-" t) = option_map (cons TMinus) (lex fuel t).
Proof. reflexivity. Qed.

(** [eval] of the text of an integer that prints, times two. *)
Lemma arith_times_two (z : Z) :
  Nat.ltb int_max_str_digits (digits z) = false ->
  py_arith (of_Z z ++ " * 2") = Got (VInt (z * 2)).
Proof.
  intros Hlim.
  assert (Hp : forall p, z = Zpos p \/ z = Zneg p -> prints p).
  { intros p [-> | ->]; exact Hlim. }
  unfold py_arith, of_Z. destruct z as [|p|p]; [reflexivity| |];
    specialize (Hp p); clear Hlim.
  - assert (Hlim : prints p) by (apply Hp; left; reflexivity). clear Hp.
    simpl Z.to_int. simpl NilEmpty.string_of_int.
    destruct (uint_text_nonempty p) as [c [t [E _]]].
    assert (Hlen : S (String.length
                        (NilEmpty.string_of_uint (Pos.to_uint p) ++ " * 2"))
                   = S (5 + String.length t)).
    { rewrite length_append, E. simpl. lia. }
    rewrite Hlen, (lex_pos_times_two p _ Hlim). reflexivity.
  - assert (Hlim : prints p) by (apply Hp; right; reflexivity). clear Hp.
    simpl Z.to_int. simpl NilEmpty.string_of_int.
    destruct (uint_text_nonempty p) as [c [t [E _]]].
    assert (Hlen : String.length
                     (NilEmpty.string_of_uint (Pos.to_uint p) ++ " * 2")
                   = (5 + String.length t)%nat).
    { rewrite length_append, E. simpl. lia. }
    cbn [String.append String.length].
    rewrite lex_minus, Hlen, (lex_pos_times_two p _ Hlim). reflexivity.
Qed.


(** *** Safe expressions *)

Ltac char_cases H :=
  simpl in H;
  repeat (apply orb_true_iff in H; destruct H as [H|H]);
  try discriminate H;
  apply Ascii.eqb_eq in H; subst.

Lemma has_char_all (p : ascii -> bool) (c : ascii) (s : string) :
  all_chars p s = true -> p c = false -> has_char c s = false.
Proof.
  intros Hs Hc. induction s as [|a s IH]; simpl; [reflexivity|].
  simpl in Hs. apply andb_true_iff in Hs. destruct Hs as [Ha Hs].
  rewrite (IH Hs), orb_false_r.
  destruct (Ascii.eqb_spec c a) as [->|_]; [congruence|reflexivity].
Qed.

Lemma prefix_head (c a : ascii) (d s : string) :
  String.prefix (String c d) (String a s) = true -> c = a.
Proof.
  simpl. destruct (ascii_dec c a) as [->|_]; [reflexivity|discriminate].
Qed.

(** A text that contains a word contains its first character. *)
Lemma contains_has_first (c : ascii) (d s : string) :
  contains (String c d) s = true -> has_char c s = true.
Proof.
  induction s as [|a s IH]; simpl contains; simpl has_char.
  - discriminate.
  - intros H. apply orb_true_iff in H. destruct H as [H|H].
    + destruct (ascii_dec c a) as [->|_]; [|discriminate].
      rewrite Ascii.eqb_refl. reflexivity.
    + rewrite (IH H). apply orb_true_r.
Qed.

Lemma allowed_not_upper (c : ascii) : allowed c = true -> is_upper c = false.
Proof.
  unfold allowed, allowed_chars. intros H. char_cases H; reflexivity.
Qed.

Lemma allowed_not_letter (c : ascii) : allowed c = true -> is_alpha c = false.
Proof.
  unfold allowed, allowed_chars. intros H. char_cases H; reflexivity.
Qed.

Lemma lower_allowed (s : string) :
  all_chars allowed s = true -> lower s = s.
Proof.
  induction s as [|c s IH]; simpl; [reflexivity|].
  intros H. apply andb_true_iff in H. destruct H as [Hc Hs].
  rewrite (IH Hs). unfold lower_char.
  rewrite (allowed_not_upper c Hc). reflexivity.
Qed.

Lemma safe_without_letters (expr : string) :
  all_chars allowed expr = true ->
  _is_safe_expression expr = negb (contains "__" expr).
Proof.
  intros Hall. unfold _is_safe_expression.
  fold allowed. change (fun c => has_char c allowed_chars) with allowed.
  rewrite Hall, (lower_allowed expr Hall). simpl andb.
  f_equal. unfold dangerous. cbn [existsb].
  assert (Hno : forall c d, is_alpha c = true ->
                            contains (String c d) expr = false).
  { intros c d Hc. destruct (contains (String c d) expr) eqn:E; [|reflexivity].
    apply contains_has_first in E.
    assert (has_char c expr = false).
    { apply (has_char_all allowed); [exact Hall|].
      destruct (allowed c) eqn:Ea; [|reflexivity].
      apply allowed_not_letter in Ea. congruence. }
    congruence. }
  rewrite (Hno "i"%char "mport"), (Hno "e"%char "xec"), (Hno "e"%char "val"),
    (Hno "o"%char "pen"), (Hno "f"%char "ile") by reflexivity.
  cbn [orb]. rewrite !orb_false_r. reflexivity.
Qed.

(** Over the alphabet of the code no banned word but the double underscore
    can occur, the alphabet having no letter: a text written in it is safe
    exactly when it holds no two underscores in a row. *)
Theorem safe_over_alphabet (expr : string) :
  all_chars allowed expr = true ->
  (_is_safe_expression expr = true <-> contains "__" expr = false).
Proof.
  intros Hall. rewrite (safe_without_letters expr Hall).
  destruct (contains "__" expr); simpl; split; congruence.
Qed.

Lemma safe_over_alphabet_witness :
  _is_safe_expression "(1 + 2) * 3.5" = true <->
  contains "__" "(1 + 2) * 3.5" = false.
Proof. exact (safe_over_alphabet "(1 + 2) * 3.5" eq_refl). Defined.

(** *** A formula that names an earlier output column *)

Lemma all_chars_append (p : ascii -> bool) (a b : string) :
  all_chars p (a ++ b) = all_chars p a && all_chars p b.
Proof.
  induction a as [|c a IH]; simpl; [reflexivity|].
  rewrite IH, andb_assoc. reflexivity.
Qed.

Lemma all_chars_weaken (p q : ascii -> bool) (s : string) :
  (forall c, p c = true -> q c = true) ->
  all_chars p s = true -> all_chars q s = true.
Proof.
  intros Hpq. induction s as [|c s IH]; simpl; [reflexivity|].
  intros H. apply andb_true_iff in H. destruct H as [Hc Hs].
  rewrite (Hpq c Hc), (IH Hs). reflexivity.
Qed.

(** The text of an integer: digits, after a minus sign when negative. *)
Definition sign_or_digit (c : ascii) : bool := is_digit c || Ascii.eqb c "-".

Lemma int_text_chars (z : Z) : all_chars sign_or_digit (of_Z z) = true.
Proof.
  assert (Hd : forall d, all_chars sign_or_digit (NilEmpty.string_of_uint d)
                         = true).
  { intros d. apply (all_chars_weaken is_digit); [|apply uint_text_digits].
    intros c Hc. unfold sign_or_digit. rewrite Hc. reflexivity. }
  unfold of_Z. destruct z; simpl; try apply Hd. reflexivity.
Qed.

Lemma sign_or_digit_allowed (c : ascii) :
  sign_or_digit c = true -> allowed c = true.
Proof.
  unfold sign_or_digit. intros H. apply orb_true_iff in H.
  destruct H as [H|H].
  - apply digit_cases in H. simpl in H.
    repeat (destruct H as [<-|H]; [reflexivity|]). contradiction.
  - apply Ascii.eqb_eq in H. subst. reflexivity.
Qed.

Lemma int_times_two_safe (z : Z) :
  _is_safe_expression (of_Z z ++ " * 2") = true.
Proof.
  assert (Hall : all_chars allowed (of_Z z ++ " * 2") = true).
  { rewrite all_chars_append.
    rewrite (all_chars_weaken sign_or_digit allowed (of_Z z)
               sign_or_digit_allowed (int_text_chars z)).
    reflexivity. }
  rewrite (safe_without_letters _ Hall).
  destruct (contains "__" (of_Z z ++ " * 2")) eqn:E; [|reflexivity].
  apply contains_has_first in E.
  assert (Hno : has_char "_" (of_Z z ++ " * 2") = false).
  { apply (has_char_all (fun c => sign_or_digit c || has_char c " *2")).
    - rewrite all_chars_append.
      rewrite (all_chars_weaken sign_or_digit _ (of_Z z)); [reflexivity| |].
      + intros c Hc. rewrite Hc. reflexivity.
      + apply int_text_chars.
    - reflexivity. }
  congruence.
Qed.

Lemma int_text_no_backslash (z : Z) : has_char backslash (of_Z z) = false.
Proof.
  apply (has_char_all sign_or_digit); [apply int_text_chars|reflexivity].
Qed.

Lemma prefix_refl (s : string) : String.prefix s s = true.
Proof.
  induction s as [|c s IH]; simpl; [reflexivity|].
  destruct (ascii_dec c c) as [_|n]; [exact IH|contradiction].
Qed.

Lemma contains_refl (s : string) : contains s s = true.
Proof.
  destruct s as [|c s]; [reflexivity|].
  cbn [contains]. rewrite prefix_refl. reflexivity.
Qed.

Lemma sub_word_total (repl : string) :
  sub_word "Total" repl "Total * 2" = (repl ++ " * 2")%string.
Proof. reflexivity. Qed.

Lemma find_none {A : Type} (f : A -> bool) (l : list A) :
  (forall x, In x l -> f x = false) -> find f l = None.
Proof.
  induction l as [|a l IH]; intros H; simpl; [reflexivity|].
  rewrite (H a (or_introl eq_refl)). apply IH.
  intros x Hx. apply H. right. exact Hx.
Qed.

(** A name that no column matches, not even in part, is not found among
    the input columns. *)
Lemma find_column_value_none (h : PyHost) (name : string) (row : Series) :
  forallb (fun col => negb (partial_match name col)) (map fst row) = true ->
  _find_column_value h name row = Ok None.
Proof.
  intros Hno. rewrite forallb_forall in Hno.
  assert (Hpm : forall col, In col (map fst row) ->
                            partial_match name col = false).
  { intros col Hin. apply negb_true_iff. apply Hno. exact Hin. }
  unfold _find_column_value.
  assert (Hmem : mem name (map fst row) = false).
  { unfold mem. destruct (existsb (String.eqb name) (map fst row)) eqn:E;
      [|reflexivity].
    apply existsb_exists in E. destruct E as [col [Hin Heq]].
    apply String.eqb_eq in Heq. subst col.
    pose proof (Hpm name Hin) as Hp. unfold partial_match in Hp.
    rewrite contains_refl in Hp. discriminate. }
  rewrite Hmem.
  rewrite (find_none (fun col => String.eqb (lower col) (lower name))).
  - rewrite (find_none (partial_match name)); [reflexivity|exact Hpm].
  - intros col Hin. destruct (String.eqb_spec (lower col) (lower name)) as [E|_];
      [|reflexivity].
    pose proof (Hpm col Hin) as Hp. unfold partial_match in Hp.
    rewrite E, contains_refl in Hp. discriminate.
Qed.

Lemma combine_names_subset {A : Type} (cols : list string) (cells : list A)
    (p : string -> bool) :
  forallb p cols = true -> forallb p (map fst (combine cols cells)) = true.
Proof.
  revert cells. induction cols as [|c cols IH]; intros cells H; [reflexivity|].
  destruct cells as [|x cells]; [reflexivity|].
  simpl in *. apply andb_true_iff in H. destruct H as [Hc H].
  rewrite Hc, (IH cells H). reflexivity.
Qed.

(** When no input column matches the name [Total], not even in part, a
    formula [=Total * 2] takes the value stored for the output column
    [Total] at the position given by the row's label; when that value is an
    integer the row of the new column is its double, unless the integer
    has more digits than [str] converts: the row is then 0, the
    [ValueError] being caught with the row's other exceptions. *)
Theorem forward_reference_doubles
    (h : PyHost) (df : DataFrame) (output_data : dict (list pyval))
    (totals : list pyval) (i : nat) (idx : Z) (cells : list pyval) (z : Z) :
  Conforms h ->
  forallb (fun col => negb (partial_match "Total" col)) (columns df) = true ->
  dict_get output_data "Total" = Some totals ->
  nth_error (rows df) i = Some (idx, cells) ->
  list_index totals idx = Some (VInt z) ->
  nth_error (_evaluate_formula h "=Total * 2" df output_data) i
  = Some (if Nat.ltb int_max_str_digits (digits z) then VInt 0
          else VInt (z * 2)).
Proof.
  intros Hc Hcols Htot Hrow Hz.
  assert (Hit : nth_error (iterrows df) i
                = Some (idx, combine (columns df) cells)).
  { unfold iterrows. rewrite nth_error_map, Hrow. reflexivity. }
  destruct (evaluate_formula_nth h "=Total * 2" df output_data i idx _ Hit)
    as [Hval _].
  rewrite Hval. f_equal.
  change (formula_clean_of "=Total * 2") with "Total * 2".
  unfold evaluate_row, _replace_formula_references, formula_words.
  change (findall_quoted "Total * 2" ++ findall_unquoted "Total * 2")%list
    with ["Total"].
  rewrite (set_order_one h "Total" Hc).
  unfold replace_words, replace_word, reference_value.
  change (strip "Total") with "Total".
  change (mem (lower "Total") reserved_words) with false. cbv iota.
  rewrite (find_column_value_none h "Total" _
             (combine_names_subset _ _ _ Hcols)).
  cbn [bind]. rewrite Htot, Hz. cbn [bind py_str]. unfold int_str.
  destruct (Nat.ltb int_max_str_digits (digits z)) eqn:Hlim; [reflexivity|].
  cbn [bind]. unfold substitute.
  change (has_char " " "Total" || has_char "-" "Total") with false. cbv iota.
  rewrite int_text_no_backslash, sub_word_total. cbn [bind].
  rewrite int_times_two_safe. unfold eval_or_zero.
  rewrite (eval_value h Hc _ _ (arith_times_two z Hlim)). reflexivity.
Qed.

Lemma forward_reference_doubles_witness :
  nth_error (_evaluate_formula ref_host "=Total * 2"
               {| columns := ["Gross"; "Net"];
                  rows := [(0%Z, [VInt 1; VInt 3]); (1%Z, [VInt 2; VInt 4])] |}
               [("Total", [VInt 4; VInt 6])]) 1
  = Some (VInt 12).
Proof.
  apply (forward_reference_doubles ref_host _ _ [VInt 4; VInt 6] 1 1%Z
           [VInt 2; VInt 4] 6).
  - exact ref_host_conforms.
  - reflexivity.
  - reflexivity.
  - reflexivity.
  - reflexivity.
Defined.

End ForwardReference.

(* ------------------------------------------------------------------ *)
(** ** The column mapper *)

Module Mapping.
Import Text Re Py Json Host Pandas ExcelProcessor ConfigManager.

(** The output name of a rule: its [name], stripped, unless that is blank. *)
Definition named (col_config : json) : option string :=
  match col_config with
  | JDict d =>
      match field d "name" with
      | Some (JStr s) =>
          if String.eqb (strip s) EmptyString then None else Some (strip s)
      | _ => None
      end
  | _ => None
  end.

(** A new key goes to the end, a known key keeps its place. *)
Definition add_key (keys : list string) (name : option string) : list string :=
  match name with
  | Some n => if mem n keys then keys else (keys ++ [n])%list
  | None => keys
  end.

(** The distinct output names of the rules, in the order of their first
    appearance. *)
Definition output_names (rules : list json) : list string :=
  fold_left add_key (map named rules) [].

Lemma dict_set_keys {A : Type} (d : dict A) (k : string) (v : A) :
  dict_keys (dict_set d k v) = add_key (dict_keys d) (Some k).
Proof.
  unfold dict_keys, add_key, mem.
  induction d as [|[k' v'] d IH]; simpl; [reflexivity|].
  destruct (String.eqb k k'); simpl; [reflexivity|].
  rewrite IH. destruct (existsb (String.eqb k) (map fst d)); reflexivity.
Qed.

Lemma dict_get_set {A : Type} (d : dict A) (k k' : string) (v : A) :
  dict_get (dict_set d k v) k' =
  if String.eqb k' k then Some v else dict_get d k'.
Proof.
  induction d as [|[k0 v0] d IH]; simpl.
  - destruct (String.eqb k' k); reflexivity.
  - destruct (String.eqb_spec k k0) as [->|Hne]; simpl.
    + destruct (String.eqb k' k0); reflexivity.
    + rewrite IH.
      destruct (String.eqb_spec k' k0) as [->|_]; [|reflexivity].
      destruct (String.eqb_spec k0 k) as [E|_]; [congruence|reflexivity].
Qed.

Lemma dict_get_keys {A : Type} (d : dict A) (k : string) :
  dict_has d k = mem k (dict_keys d).
Proof.
  unfold dict_has, mem, dict_keys.
  induction d as [|[k0 v0] d IH]; simpl; [reflexivity|].
  destruct (String.eqb k k0); [reflexivity|exact IH].
Qed.

(** Building the frame keeps the names, their order, and the number of
    cells of each column. *)
Lemma frame_of_dict_keys (h : PyHost) (d : dict (list pyval)) :
  dict_keys (frame_of_dict h d) = dict_keys d.
Proof.
  unfold dict_keys, frame_of_dict. rewrite map_map. reflexivity.
Qed.

Lemma frame_column_length (h : PyHost) (values : list pyval) :
  List.length (frame_column h values) = List.length values.
Proof.
  unfold frame_column. destruct (forallb is_text values); [reflexivity|].
  apply length_map.
Qed.

Lemma frame_of_dict_get (h : PyHost) (d : dict (list pyval)) (k : string) :
  dict_get (frame_of_dict h d) k = option_map (frame_column h) (dict_get d k).
Proof.
  induction d as [|[k0 v0] d IH]; simpl; [reflexivity|].
  destruct (String.eqb k k0); [reflexivity|exact IH].
Qed.

Section Facts.
Variable host : PyHost.

(** What a rule adds to the output: nothing when its name is blank, else
    its name with its values. *)
Lemma map_rule_result (df : DataFrame) (out out' : dict (list pyval))
    (col_config : json) :
  map_rule host df out col_config = Ok out' ->
  match named col_config with
  | None => out' = out
  | Some n =>
      exists source values,
        get col_config "source_column" (JStr EmptyString) = Ok (JStr source) /\
        rule_values host df out col_config source = Ok values /\
        out' = dict_set out n values
  end.
Proof.
  unfold map_rule, named, get.
  destruct col_config as [| | | | |l|d]; try discriminate.
  cbn [bind]. unfold text_of.
  destruct (field d "name") as [[| | | |s| |]|] eqn:Hname; cbn [bind];
    try discriminate.
  - destruct (String.eqb (strip s) EmptyString).
    + intros [= <-]. reflexivity.
    + destruct (field d "source_column") as [[| | | |src| |]|]; cbn [bind];
        try discriminate.
      * destruct (rule_values host df out (JDict d) src) as [values|] eqn:Hv;
          cbn [bind]; [|discriminate].
        intros [= <-]. exists src, values. repeat split. exact Hv.
      * destruct (rule_values host df out (JDict d) EmptyString)
          as [values|] eqn:Hv; cbn [bind]; [|discriminate].
        intros [= <-]. exists EmptyString, values. repeat split. exact Hv.
  - change (strip EmptyString) with EmptyString. cbn [String.eqb].
    intros [= <-]. reflexivity.
Qed.

Lemma map_rule_keys (df : DataFrame) (out out' : dict (list pyval))
    (col_config : json) :
  map_rule host df out col_config = Ok out' ->
  dict_keys out' = add_key (dict_keys out) (named col_config).
Proof.
  intros H. apply map_rule_result in H.
  destruct (named col_config) as [n|].
  - destruct H as [source [values [_ [_ ->]]]]. apply dict_set_keys.
  - subst. reflexivity.
Qed.

Lemma map_rules_keys (df : DataFrame) (rules : list json)
    (out out' : dict (list pyval)) :
  map_rules host df out rules = Ok out' ->
  dict_keys out' = fold_left add_key (map named rules) (dict_keys out).
Proof.
  revert out. induction rules as [|r rules IH]; intros out H; simpl in *.
  - injection H as <-. reflexivity.
  - destruct (map_rule host df out r) as [out1|] eqn:Hr; [|discriminate].
    cbn [bind] in H. rewrite (IH out1 H), (map_rule_keys _ _ _ _ Hr).
    reflexivity.
Qed.

End Facts.

Section Ordering.
Variable host : PyHost.

Lemma select_names (d : dict (list pyval)) (order : list string) :
  map fst (select d order) = order.
Proof.
  unfold select. rewrite map_map. simpl. apply map_id.
Qed.

Lemma mem_filter (c : string) (p : string -> bool) (l : list string) :
  mem c (filter p l) = mem c l && p c.
Proof.
  unfold mem. induction l as [|a l IH]; simpl; [reflexivity|].
  destruct (p a) eqn:Hp; simpl; rewrite IH.
  - destruct (String.eqb_spec c a) as [->|_]; simpl; [|reflexivity].
    rewrite Hp. reflexivity.
  - destruct (String.eqb_spec c a) as [->|_]; simpl; [|reflexivity].
    rewrite Hp, andb_false_r. reflexivity.
Qed.

Lemma mem_In (c : string) (l : list string) : mem c l = true <-> In c l.
Proof.
  unfold mem. rewrite existsb_exists. split.
  - intros [x [Hin Heq]]. apply String.eqb_eq in Heq. subst. exact Hin.
  - intros Hin. exists c. split; [exact Hin|apply String.eqb_refl].
Qed.

(** The names of the ordered table: the listed names that exist, as
    listed, then the other columns as they stand. *)
Lemma order_columns_names (result_df : dict (list pyval)) (order : list string)
    (table : Table) :
  order_columns result_df (JList (map JStr order)) = Ok table ->
  map fst table =
  (filter (fun c => mem c (dict_keys result_df)) order
   ++ filter (fun c => negb (mem c order)) (dict_keys result_df))%list.
Proof.
  unfold order_columns. destruct order as [|o order].
  - simpl. intros [= <-]. symmetry. apply VoidFilter.filter_all_true.
    reflexivity.
  - remember (o :: order) as ord eqn:E.
    assert (Ht : truthy (JList (map JStr ord)) = true)
      by (subst ord; reflexivity).
    rewrite Ht. cbn [iter bind].
    rewrite VoidFilter.existing_in_text. cbn [bind].
    intros [= <-]. rewrite select_names. unfold VoidFilter.surviving.
    f_equal. apply filter_ext_in. intros c Hc.
    rewrite mem_filter.
    assert (Hk : mem c (dict_keys result_df) = true) by (apply mem_In; exact Hc).
    rewrite Hk, andb_true_r. reflexivity.
Qed.

(** With a [column_order], the columns of the mapped table are the listed
    names that are output names, in the listed order, followed by the other
    output names in the order of the rules that first bear them. *)
Theorem apply_mapping_column_order
    (df : DataFrame) (cfg : list (string * json)) (rules : list json)
    (order : list string) (table : Table) :
  field cfg "output_columns" = Some (JList rules) ->
  field cfg "column_order" = Some (JList (map JStr order)) ->
  apply_mapping host df (JDict cfg) = Ok table ->
  map fst table =
  (filter (fun c => mem c (output_names rules)) order
   ++ filter (fun c => negb (mem c order)) (output_names rules))%list.
Proof.
  intros Hrules Horder. unfold apply_mapping, get.
  rewrite Hrules, Horder. cbn [bind iter].
  destruct (map_rules host (_apply_void_filtering host df (JDict cfg)) [] rules)
    as [result_df|] eqn:Hmap; cbn [bind]; [|discriminate].
  intros Htable. apply order_columns_names in Htable.
  rewrite frame_of_dict_keys, (map_rules_keys host _ _ _ _ Hmap) in Htable.
  exact Htable.
Qed.

(** Without a [column_order] the columns are the output names in the order
    of the rules. *)
Theorem apply_mapping_default_order
    (df : DataFrame) (cfg : list (string * json)) (rules : list json)
    (table : Table) :
  field cfg "output_columns" = Some (JList rules) ->
  field cfg "column_order" = None ->
  apply_mapping host df (JDict cfg) = Ok table ->
  map fst table = output_names rules.
Proof.
  intros Hrules Horder. unfold apply_mapping, get.
  rewrite Hrules, Horder. cbn [bind iter].
  destruct (map_rules host (_apply_void_filtering host df (JDict cfg)) [] rules)
    as [result_df|] eqn:Hmap; cbn [bind]; [|discriminate].
  unfold order_columns. cbn [truthy]. intros [= <-].
  change (map fst (frame_of_dict host result_df))
    with (dict_keys (frame_of_dict host result_df)).
  rewrite frame_of_dict_keys. apply (map_rules_keys host _ _ _ _ Hmap).
Qed.

End Ordering.

(** *** What validation guarantees about the rules *)

(** A rule that passes validation: a dict whose [name] is text, not blank,
    whose [source_column] is text if present and whose [formatting] is a
    dict if present. *)
Definition well_shaped (r : json) : Prop :=
  exists d s,
    r = JDict d /\
    field d "name" = Some (JStr s) /\
    String.eqb (strip s) EmptyString = false /\
    present_not is_str d "source_column" = false /\
    present_not is_dict d "formatting" = false.

Lemma andthen_return {A B : Type} (m : outcome A) (k : A -> outcome B) (b : B) :
  andthen m k = Return b -> exists a, m = Return a /\ k a = Return b.
Proof.
  destruct m as [a|e msg]; simpl; [|discriminate].
  intros H. exists a. split; [reflexivity|exact H].
Qed.

Lemma raise_if_return (c : bool) (msg : string) (u : unit) :
  raise_if c msg = Return u -> c = false.
Proof. destruct c; [discriminate|reflexivity]. Qed.

Section Shape.
Variable host : PyHost.

Lemma column_config_shape (r : json) (n : nat) :
  _validate_column_config host r n = Return tt -> well_shaped r.
Proof.
  unfold _validate_column_config.
  destruct r as [| | | | | |d]; try discriminate.
  destruct (field d "name") as [[| | | |s| |]|] eqn:Hname; try discriminate.
  intros H.
  apply andthen_return in H. destruct H as [u1 [H1 H]].
  apply andthen_return in H. destruct H as [u2 [H2 H]].
  apply andthen_return in H. destruct H as [u3 [_ H]].
  apply andthen_return in H. destruct H as [u4 [_ H]].
  apply raise_if_return in H1. apply raise_if_return in H2.
  apply raise_if_return in H.
  exists d, s. repeat split; assumption.
Qed.

Lemma validate_columns_shape (rules : list json) (i : nat) :
  validate_columns_from host i rules = Return tt -> Forall well_shaped rules.
Proof.
  revert i. induction rules as [|r rules IH]; intros i H; [constructor|].
  simpl in H. apply andthen_return in H. destruct H as [[] [Hr H]].
  constructor; [exact (column_config_shape r _ Hr)|exact (IH _ H)].
Qed.

(** A configuration that passes validation is a dict whose
    [output_columns] is a non-empty list of well-shaped rules. *)
Lemma validated_shape (config : json) :
  validate_config host config = Return tt ->
  exists cfg rules,
    config = JDict cfg /\
    field cfg "output_columns" = Some (JList rules) /\
    rules <> [] /\ Forall well_shaped rules.
Proof.
  unfold validate_config.
  destruct (validate_body host config) as [[]|e msg] eqn:Hbody;
    [intros _|discriminate].
  unfold validate_body in Hbody.
  destruct config as [| | | | | |cfg]; try discriminate.
  apply andthen_return in Hbody. destruct Hbody as [[] [Hcols _]].
  unfold _validate_output_columns in Hcols.
  destruct (field cfg "output_columns") as [[| | | | |rules|]|] eqn:Hf;
    try discriminate.
  destruct rules as [|r rules]; [discriminate|].
  exists cfg, (r :: rules).
  split; [reflexivity|]. split; [exact Hf|].
  split; [discriminate|].
  exact (validate_columns_shape _ _ Hcols).
Qed.

End Shape.

(** *** The mapping of a validated configuration *)

Section Mapping.
Variable host : PyHost.

Lemma void_filtering_columns (df : DataFrame) (config : json) :
  columns (_apply_void_filtering host df config) = columns df.
Proof.
  unfold _apply_void_filtering. rewrite VoidFilter.void_filtering_plan.
  destruct (VoidFilter.void_plan (columns df) config) as [[ex|]|];
    try reflexivity.
  destruct (VoidFilter.overflow_in df ex); reflexivity.
Qed.

Lemma void_filtering_rows (df : DataFrame) (config : json) :
  incl (rows (_apply_void_filtering host df config)) (rows df).
Proof.
  unfold _apply_void_filtering. rewrite VoidFilter.void_filtering_plan.
  destruct (VoidFilter.void_plan (columns df) config) as [[ex|]|];
    try apply incl_refl.
  destruct (VoidFilter.overflow_in df ex); [apply incl_refl|].
  intros r Hr. unfold VoidFilter.without_void in Hr. cbn [rows] in Hr.
  apply filter_In in Hr. exact (proj1 Hr).
Qed.

(** A value that [str] converts: any but an integer of too many digits. *)
Definition printable (v : pyval) : Prop := exists text, py_str host v = Ok text.

(** Every cell of the frame is converted by [str]. *)
Definition printable_frame (df : DataFrame) : Prop :=
  forall r v, In r (rows df) -> In v (snd r) -> printable v.

Lemma void_filtering_printable (df : DataFrame) (config : json) :
  printable_frame df ->
  printable_frame (_apply_void_filtering host df config).
Proof.
  intros H r v Hr Hv. apply (H r v); [|exact Hv].
  apply (void_filtering_rows df config). exact Hr.
Qed.

Lemma cell_of_row (cols : list string) (cells : list pyval) (name : string) :
  cell (combine cols cells) name = VNone \/
  In (cell (combine cols cells) name) cells.
Proof.
  unfold cell. revert cells.
  induction cols as [|c cols IH]; intros cells; [left; reflexivity|].
  destruct cells as [|x cells]; [left; reflexivity|].
  cbn [combine dict_get]. destruct (String.eqb name c).
  - right. left. reflexivity.
  - destruct (IH cells) as [H|H]; [left; exact H|right; right; exact H].
Qed.

Lemma traverse_ok {A B : Type} (f : A -> res B) (xs : list A) :
  (forall x, In x xs -> exists y, f x = Ok y) ->
  exists ys, traverse f xs = Ok ys /\ List.length ys = List.length xs.
Proof.
  induction xs as [|x xs IH]; intros H.
  - exists []. split; reflexivity.
  - destruct (H x (or_introl eq_refl)) as [y Hy].
    destruct IH as [ys [Hys Hlen]].
    { intros x' Hx'. apply H. right. exact Hx'. }
    exists (y :: ys). cbn [traverse]. rewrite Hy. cbn [bind].
    rewrite Hys. cbn [bind]. split; [reflexivity|].
    simpl. rewrite Hlen. reflexivity.
Qed.

Lemma remove_asterisks_ok (v : pyval) :
  printable v -> exists w, remove_asterisks host v = Ok w.
Proof.
  intros [text Ht]. unfold remove_asterisks.
  destruct (notna v); [|eexists; reflexivity].
  rewrite Ht. eexists. reflexivity.
Qed.

Lemma column_cells_printable (df : DataFrame) (name : string) (v : pyval) :
  printable_frame df ->
  In v (map (fun r => cell (snd r) name) (iterrows df)) -> printable v.
Proof.
  intros Hp Hin. apply in_map_iff in Hin. destruct Hin as [r [<- Hr]].
  unfold iterrows in Hr. apply in_map_iff in Hr.
  destruct Hr as [r0 [<- Hr0]]. cbn [snd].
  destruct (cell_of_row (columns df) (snd r0) name) as [E|E].
  - rewrite E. exists "None". reflexivity.
  - exact (Hp r0 _ Hr0 E).
Qed.

Lemma column_values_ok (df : DataFrame) (name : string) :
  NoDup (columns df) ->
  exists values,
    column_values df name = Ok values /\ List.length values = len df.
Proof.
  intros Hnd. unfold column_values.
  pose proof (VoidFilter.occurrences_nodup name (columns df) Hnd) as Hocc.
  apply Nat.ltb_ge in Hocc. rewrite Hocc.
  eexists. split; [reflexivity|].
  unfold iterrows, len. rewrite !length_map. reflexivity.
Qed.

(** The values of a well-shaped rule: they are computed without an
    exception, one per row of the table. *)
Lemma rule_values_ok (df : DataFrame) (out : dict (list pyval))
    (d : list (string * json)) (s source : string) :
  NoDup (columns df) -> printable_frame df ->
  field d "name" = Some (JStr s) ->
  present_not is_dict d "formatting" = false ->
  exists values,
    rule_values host df out (JDict d) source = Ok values /\
    List.length values = len df.
Proof.
  intros Hnd Hprint Hname Hfmt. unfold rule_values.
  destruct (startswith "=" source).
  { eexists. split; [reflexivity|apply Formula.evaluate_formula_length]. }
  destruct (String.eqb source EmptyString).
  { eexists. split; [reflexivity|]. unfold blank_column. apply repeat_length. }
  unfold _map_column.
  destruct (mem source (columns df)).
  - destruct (column_values_ok df source Hnd) as [values [Hv Hlen]].
    rewrite Hv. cbn [bind].
    assert (Hstar : exists starred,
               traverse (remove_asterisks host) values = Ok starred /\
               List.length starred = len df).
    { destruct (traverse_ok (remove_asterisks host) values)
        as [ys [Hys Hl]].
      - intros v Hin. apply remove_asterisks_ok.
        unfold column_values in Hv.
        destruct (Nat.ltb 1 (occurrences source (columns df)));
          [discriminate Hv|].
        injection Hv as <-.
        exact (column_cells_printable df source v Hprint Hin).
      - exists ys. split; [exact Hys|]. rewrite Hl. exact Hlen. }
    destruct Hstar as [starred [Hstar Hstarlen]].
    assert (Ht : truthy (JDict d) = true).
    { destruct d; [discriminate Hname|reflexivity]. }
    rewrite Ht. unfold get. cbn [bind].
    unfold present_not in Hfmt.
    destruct (field d "formatting") as [[| | | | | |f]|]; try discriminate;
      cbn [bind];
      match goal with
      | |- context [truthy ?x] => destruct (truthy x)
      end;
      try rewrite Hstar;
      eexists; (split; [reflexivity|]); assumption.
  - eexists. split; [reflexivity|]. unfold blank_column. apply repeat_length.
Qed.

Lemma map_rule_ok (df : DataFrame) (out : dict (list pyval)) (r : json) :
  NoDup (columns df) -> printable_frame df -> well_shaped r ->
  exists name values,
    named r = Some name /\
    map_rule host df out r = Ok (dict_set out name values) /\
    List.length values = len df.
Proof.
  intros Hnd Hprint [d [s [-> [Hname [Hblank [Hsrc Hfmt]]]]]].
  unfold map_rule, named, get. rewrite Hname. cbn [bind text_of].
  rewrite Hblank.
  unfold present_not in Hsrc.
  destruct (field d "source_column") as [[| | | |src| |]|]; try discriminate;
    cbn [bind text_of].
  - destruct (rule_values_ok df out d s src Hnd Hprint Hname Hfmt)
      as [values [Hv Hlen]].
    rewrite Hv. cbn [bind]. exists (strip s), values. repeat split. exact Hlen.
  - destruct (rule_values_ok df out d s EmptyString Hnd Hprint Hname Hfmt)
      as [values [Hv Hlen]].
    rewrite Hv. cbn [bind]. exists (strip s), values. repeat split. exact Hlen.
Qed.

(** Every column has one value per row. *)
Definition rectangular (n : nat) (t : Table) : Prop :=
  Forall (fun col => List.length (snd col) = n) t.

Lemma dict_set_rectangular (n : nat) (out : dict (list pyval)) (k : string)
    (values : list pyval) :
  rectangular n out -> List.length values = n ->
  rectangular n (dict_set out k values).
Proof.
  unfold rectangular. intros Hout Hlen.
  induction out as [|[k' v'] out IH]; simpl.
  - constructor; [exact Hlen|constructor].
  - inversion Hout as [|x l Hx Hl]; subst.
    destruct (String.eqb k k'); constructor; auto.
Qed.

Lemma map_rules_ok (df : DataFrame) (rules : list json)
    (out : dict (list pyval)) :
  NoDup (columns df) -> printable_frame df -> Forall well_shaped rules ->
  rectangular (len df) out ->
  exists out',
    map_rules host df out rules = Ok out' /\ rectangular (len df) out'.
Proof.
  intros Hnd Hprint Hrules. revert out.
  induction Hrules as [|r rules Hr _ IH]; intros out Hout.
  - exists out. split; [reflexivity|exact Hout].
  - destruct (map_rule_ok df out r Hnd Hprint Hr)
      as [name [values [_ [Hm Hlen]]]].
    destruct (IH (dict_set out name values)
                 (dict_set_rectangular _ _ _ _ Hout Hlen)) as [out' [H1 H2]].
    exists out'. split; [|exact H2]. simpl. rewrite Hm. exact H1.
Qed.

End Mapping.

Section Result.
Variable host : PyHost.

(** The [column_order] of a configuration, read as a list of names; none
    when the key is absent. *)
Definition column_order_of (cfg : list (string * json)) (order : list string)
  : Prop :=
  field cfg "column_order" = Some (JList (map JStr order)) \/
  (field cfg "column_order" = None /\ order = []).

Lemma get_column_order (cfg : list (string * json)) (order : list string) :
  column_order_of cfg order ->
  get (JDict cfg) "column_order" (JList []) = Ok (JList (map JStr order)).
Proof.
  unfold get. intros [H|[H ->]]; rewrite H; reflexivity.
Qed.

Lemma dict_get_In {A : Type} (d : dict A) (k : string) (v : A) :
  dict_get d k = Some v -> In (k, v) d.
Proof.
  induction d as [|[k' v'] d IH]; simpl; [discriminate|].
  destruct (String.eqb_spec k k') as [->|_].
  - intros [= ->]. left. reflexivity.
  - intros H. right. exact (IH H).
Qed.

Lemma dict_get_key {A : Type} (d : dict A) (k : string) :
  In k (dict_keys d) -> exists v, dict_get d k = Some v.
Proof.
  intros H. apply mem_In in H. rewrite <- dict_get_keys in H.
  unfold dict_has in H. destruct (dict_get d k) as [v|]; [|discriminate].
  exists v. reflexivity.
Qed.

(** The names of the ordered table are names of the unordered one. *)
Lemma ordered_names_are_keys (result_df : dict (list pyval))
    (order : list string) (c : string) :
  In c (filter (fun c => mem c (dict_keys result_df)) order
        ++ filter (fun c => negb (mem c order)) (dict_keys result_df))%list
  <-> In c (dict_keys result_df).
Proof.
  rewrite in_app_iff, !filter_In. split.
  - intros [[_ H]|[H _]]; [apply mem_In; exact H|exact H].
  - intros H. destruct (mem c order) eqn:E.
    + left. split; [apply mem_In; exact E|apply mem_In; exact H].
    + right. split; [exact H|reflexivity].
Qed.

Lemma order_columns_entries (result_df : dict (list pyval))
    (order : list string) (table : Table) :
  order_columns result_df (JList (map JStr order)) = Ok table ->
  forall name values,
    In (name, values) table -> dict_get result_df name = Some values
                               \/ In (name, values) result_df.
Proof.
  unfold order_columns. destruct (truthy (JList (map JStr order))).
  - cbn [iter bind]. rewrite VoidFilter.existing_in_text. cbn [bind].
    intros [= <-] name values Hin. left.
    unfold select in Hin. apply in_map_iff in Hin.
    destruct Hin as [col [Heq Hcol]]. injection Heq as -> <-.
    assert (Hk : In name (dict_keys result_df)).
    { apply in_app_iff in Hcol. destruct Hcol as [H|H];
        apply filter_In in H; destruct H as [H1 H2];
        [apply mem_In; exact H2|exact H1]. }
    destruct (dict_get_key _ _ Hk) as [v Hv]. rewrite Hv. reflexivity.
  - intros [= <-] name values Hin. right. exact Hin.
Qed.

Lemma frame_of_dict_rectangular (n : nat) (d : dict (list pyval)) :
  rectangular n d -> rectangular n (frame_of_dict host d).
Proof.
  unfold rectangular, frame_of_dict. intros H.
  induction H as [|[k v] d Hk _ IH]; [constructor|].
  cbn [map]. constructor; [|exact IH].
  cbn [snd fst] in *. rewrite frame_column_length. exact Hk.
Qed.

(** A validated configuration with a list of names (or nothing) as
    [column_order] is mapped without an exception on a table whose column
    names are distinct and whose cells [str] converts, and every column of
    the result has one value per row that passed the void filter. *)
Theorem apply_mapping_succeeds
    (df : DataFrame) (config : json) :
  validate_config host config = Return tt ->
  NoDup (columns df) ->
  printable_frame host df ->
  (forall cfg, config = JDict cfg -> exists order, column_order_of cfg order) ->
  exists table,
    apply_mapping host df config = Ok table /\
    rectangular (len (_apply_void_filtering host df config)) table.
Proof.
  intros Hvalid Hnd Hprint Horder.
  destruct (validated_shape host config Hvalid)
    as [cfg [rules [-> [Hrules [_ Hshape]]]]].
  destruct (Horder cfg eq_refl) as [order Ho].
  set (fdf := _apply_void_filtering host df (JDict cfg)).
  assert (Hnd' : NoDup (columns fdf)).
  { unfold fdf. rewrite void_filtering_columns. exact Hnd. }
  assert (Hprint' : printable_frame host fdf).
  { unfold fdf. apply void_filtering_printable. exact Hprint. }
  destruct (map_rules_ok host fdf rules [] Hnd' Hprint' Hshape (Forall_nil _))
    as [output_data [Hmap Hrect0]].
  pose proof (frame_of_dict_rectangular _ _ Hrect0) as Hrect.
  set (result_df := frame_of_dict host output_data) in *.
  unfold apply_mapping. fold fdf.
  unfold get at 1. rewrite Hrules. cbn [bind iter]. rewrite Hmap. cbn [bind].
  rewrite (get_column_order cfg order Ho). cbn [bind]. fold result_df.
  destruct (order_columns result_df (JList (map JStr order))) as [table|]
    eqn:Htable.
  - exists table. split; [reflexivity|].
    unfold rectangular in *. rewrite Forall_forall in *.
    intros [name values] Hin.
    destruct (order_columns_entries _ _ _ Htable name values Hin) as [H|H].
    + apply dict_get_In in H. exact (Hrect _ H).
    + exact (Hrect _ H).
  - exfalso. unfold order_columns in Htable.
    destruct (truthy (JList (map JStr order))); [|discriminate].
    cbn [iter bind] in Htable.
    rewrite VoidFilter.existing_in_text in Htable. discriminate.
Qed.

End Result.

Section LastRule.
Variable host : PyHost.

Lemma add_key_nodup (keys : list string) (name : option string) :
  NoDup keys -> NoDup (add_key keys name).
Proof.
  intros H. destruct name as [n|]; [|exact H]. simpl.
  destruct (mem n keys) eqn:E; [exact H|].
  apply NoDup_app; [exact H|repeat constructor; intros []|].
  intros x Hx [<-|[]]. apply mem_In in Hx. congruence.
Qed.

Lemma fold_add_key_nodup (names : list (option string)) (keys : list string) :
  NoDup keys -> NoDup (fold_left add_key names keys).
Proof.
  revert keys. induction names as [|n names IH]; intros keys H; [exact H|].
  simpl. apply IH. apply add_key_nodup. exact H.
Qed.

Lemma add_key_In (keys : list string) (name : option string) (x : string) :
  In x (add_key keys name) <-> In x keys \/ name = Some x.
Proof.
  destruct name as [n|]; simpl.
  - destruct (mem n keys) eqn:E.
    + split; [intros H; left; exact H|].
      intros [H|[= ->]]; [exact H|apply mem_In; exact E].
    + rewrite in_app_iff. simpl. split.
      * intros [H|[->|[]]]; [left; exact H|right; reflexivity].
      * intros [H|[= ->]]; [left; exact H|right; left; reflexivity].
  - split; [intros H; left; exact H|intros [H|H]; [exact H|discriminate]].
Qed.

Lemma fold_add_key_In (names : list (option string)) (keys : list string)
    (x : string) :
  In x (fold_left add_key names keys) <-> In x keys \/ In (Some x) names.
Proof.
  revert keys. induction names as [|n names IH]; intros keys; simpl.
  - tauto.
  - rewrite IH, add_key_In. split.
    + intros [[H|H]|H]; [left; exact H|right; left; exact H|right; right; exact H].
    + intros [H|[H|H]]; [left; left; exact H|left; right; exact H|right; exact H].
Qed.

(** The values stored under a name are those of the last rule that bears
    it, computed from the output built by the rules before it. *)
Lemma map_rules_last (df : DataFrame) (rules : list json)
    (out0 out : dict (list pyval)) (name : string) (values : list pyval) :
  map_rules host df out0 rules = Ok out ->
  dict_get out name = Some values ->
  (dict_get out0 name = Some values /\
   Forall (fun r => named r <> Some name) rules) \/
  exists before rule after built source,
    rules = (before ++ rule :: after)%list /\
    named rule = Some name /\
    Forall (fun r => named r <> Some name) after /\
    map_rules host df out0 before = Ok built /\
    get rule "source_column" (JStr EmptyString) = Ok (JStr source) /\
    rule_values host df built rule source = Ok values.
Proof.
  revert out0. induction rules as [|r rules IH]; intros out0 Hmap Hget.
  - simpl in Hmap. injection Hmap as <-. left. split; [exact Hget|constructor].
  - simpl in Hmap.
    destruct (map_rule host df out0 r) as [out1|] eqn:Hr; [|discriminate].
    cbn [bind] in Hmap.
    destruct (IH out1 Hmap Hget) as [[Hget1 Hnone]|Hsplit].
    + pose proof (map_rule_result host df out0 out1 r Hr) as Hres.
      destruct (named r) as [n|] eqn:Hn.
      * destruct Hres as [source [vals [Hsrc [Hvals ->]]]].
        rewrite dict_get_set in Hget1.
        destruct (String.eqb_spec name n) as [->|Hne].
        -- injection Hget1 as <-. right.
           exists [], r, rules, out0, source.
           repeat split; try assumption.
        -- left. split; [exact Hget1|].
           constructor; [|exact Hnone]. rewrite Hn. congruence.
      * subst out1. left. split; [exact Hget1|].
        constructor; [|exact Hnone]. rewrite Hn. discriminate.
    + destruct Hsplit as [before [rule [after [built [source
                            [-> [Hname [Hafter [Hb [Hsrc Hv]]]]]]]]]].
      right. exists (r :: before), rule, after, built, source.
      repeat split; try assumption.
      simpl. rewrite Hr. exact Hb.
Qed.

(** A mapped table has one column for each distinct output name: when the
    [column_order] lists no name twice the column names are distinct, they
    are the names of the rules, and a column is the column that
    [pd.DataFrame] builds from the list computed for the last rule bearing
    its name, from the output of the rules before it. *)
Theorem one_column_per_name
    (df : DataFrame) (cfg : list (string * json)) (rules : list json)
    (order : list string) (table : Table) :
  field cfg "output_columns" = Some (JList rules) ->
  column_order_of cfg order ->
  NoDup order ->
  apply_mapping host df (JDict cfg) = Ok table ->
  NoDup (map fst table) /\
  (forall name, In name (map fst table) <-> In (Some name) (map named rules)) /\
  (forall name values,
     In (name, values) table ->
     exists before rule after built source computed,
       rules = (before ++ rule :: after)%list /\
       named rule = Some name /\
       Forall (fun r => named r <> Some name) after /\
       map_rules host (_apply_void_filtering host df (JDict cfg)) [] before
         = Ok built /\
       get rule "source_column" (JStr EmptyString) = Ok (JStr source) /\
       rule_values host (_apply_void_filtering host df (JDict cfg)) built
                   rule source = Ok computed /\
       values = frame_column host computed).
Proof.
  intros Hrules Ho Hnd. unfold apply_mapping.
  unfold get at 1. rewrite Hrules. cbn [bind iter].
  destruct (map_rules host (_apply_void_filtering host df (JDict cfg)) [] rules)
    as [output_data|] eqn:Hmap; cbn [bind]; [|discriminate].
  rewrite (get_column_order cfg order Ho). cbn [bind]. intros Htable.
  pose proof (map_rules_keys host _ _ _ _ Hmap) as Hkeys. simpl in Hkeys.
  pose proof (order_columns_names _ _ _ Htable) as Hnames.
  pose proof (frame_of_dict_keys host output_data) as Hframe.
  set (result_df := frame_of_dict host output_data) in *.
  assert (Hknd : NoDup (dict_keys result_df)).
  { rewrite Hframe, Hkeys. apply fold_add_key_nodup. constructor. }
  split; [|split].
  - rewrite Hnames. apply NoDup_app.
    + apply NoDup_filter. exact Hnd.
    + apply NoDup_filter. exact Hknd.
    + intros x Hx Hx'. apply filter_In in Hx. apply filter_In in Hx'.
      destruct Hx as [Hx _]. destruct Hx' as [_ Hx'].
      apply mem_In in Hx. rewrite Hx in Hx'. discriminate.
  - intros name. rewrite Hnames, ordered_names_are_keys, Hframe, Hkeys.
    rewrite fold_add_key_In. simpl. tauto.
  - intros name values Hin.
    assert (Hget : dict_get result_df name = Some values).
    { destruct (order_columns_entries _ _ _ Htable name values Hin)
        as [H|H]; [exact H|].
      assert (Hk : In name (dict_keys result_df)).
      { unfold dict_keys. apply in_map_iff. exists (name, values).
        split; [reflexivity|exact H]. }
      destruct (dict_get_key _ _ Hk) as [v Hv]. rewrite Hv. f_equal.
      apply dict_get_In in Hv.
      clear - Hknd H Hv. unfold dict_keys in Hknd.
      induction result_df as [|[k w] d IH]; [destruct H|].
      simpl in Hknd. inversion Hknd as [|x l Hnot Hd]; subst.
      destruct H as [H|H]; destruct Hv as [Hv|Hv].
      - congruence.
      - injection H as -> ->. exfalso. apply Hnot.
        apply in_map_iff. exists (name, v). split; [reflexivity|exact Hv].
      - injection Hv as -> ->. exfalso. apply Hnot.
        apply in_map_iff. exists (name, values). split; [reflexivity|exact H].
      - exact (IH Hd H Hv). }
    unfold result_df in Hget. rewrite frame_of_dict_get in Hget.
    destruct (dict_get output_data name) as [computed|] eqn:Hcomputed;
      [|discriminate Hget].
    injection Hget as <-.
    destruct (map_rules_last _ _ _ _ _ _ Hmap Hcomputed) as [[H _]|H];
      [discriminate H|].
    destruct H as [before [rule [after [built [source
                     [H1 [H2 [H3 [H4 [H5 H6]]]]]]]]]].
    exists before, rule, after, built, source, computed.
    repeat split; assumption.
Qed.

End LastRule.

(** *** The theorems at an example *)

Definition rule (name source : string) : json :=
  JDict [("name", JStr name); ("source_column", JStr source)].

(** Rules A, B, C and again A, listed as C, A. *)
Definition example_cfg : list (string * json) :=
  [ ("output_columns",
     JList [rule "A" "Gross"; rule " B " ""; rule "C" "=Gross + Net";
            rule "A" "Net"]);
    ("column_order", JList [JStr "C"; JStr "A"]) ].

Definition example_rules : list json :=
  [rule "A" "Gross"; rule " B " ""; rule "C" "=Gross + Net"; rule "A" "Net"].

Definition plain_cfg : list (string * json) :=
  [ ("output_columns", JList example_rules) ].

Definition pay_frame : DataFrame :=
  {| columns := ["Gross"; "Net"];
     rows := [ (0%Z, [VInt 10; VInt 7]); (1%Z, [VInt 20; VInt 15]) ] |}.

Definition example_table : Table :=
  [ ("C", [VFloat 17; VFloat 35]);
    ("A", [VInt 7; VInt 15]);
    ("B", [VStr ""; VStr ""]) ].

Lemma example_mapping :
  apply_mapping Reference.ref_host pay_frame (JDict example_cfg)
  = Ok example_table.
Proof. vm_compute. reflexivity. Qed.

Lemma apply_mapping_column_order_witness :
  map fst example_table = ["C"; "A"; "B"].
Proof.
  exact (apply_mapping_column_order Reference.ref_host pay_frame example_cfg
           example_rules ["C"; "A"] example_table eq_refl eq_refl
           example_mapping).
Defined.

Definition plain_table : Table :=
  [ ("A", [VInt 7; VInt 15]);
    ("B", [VStr ""; VStr ""]);
    ("C", [VFloat 17; VFloat 35]) ].

Lemma plain_mapping :
  apply_mapping Reference.ref_host pay_frame (JDict plain_cfg) = Ok plain_table.
Proof. vm_compute. reflexivity. Qed.

Lemma apply_mapping_default_order_witness :
  map fst plain_table = ["A"; "B"; "C"].
Proof.
  exact (apply_mapping_default_order Reference.ref_host pay_frame plain_cfg
           example_rules plain_table eq_refl eq_refl plain_mapping).
Defined.

Lemma nodup_gross_net : NoDup ["Gross"; "Net"].
Proof. repeat constructor; simpl; intuition discriminate. Qed.

Lemma apply_mapping_succeeds_witness :
  exists table,
    apply_mapping Reference.ref_host pay_frame (JDict example_cfg) = Ok table /\
    rectangular 2 table.
Proof.
  apply (apply_mapping_succeeds Reference.ref_host pay_frame
           (JDict example_cfg)).
  - reflexivity.
  - exact nodup_gross_net.
  - intros r v Hr Hv. simpl in Hr.
    destruct Hr as [<-|[<-|[]]]; simpl in Hv;
      destruct Hv as [<-|[<-|[]]]; eexists; vm_compute; reflexivity.
  - intros cfg [= <-]. exists ["C"; "A"]. left. reflexivity.
Defined.

(** A table with one integer of 4301 digits, and a validated configuration
    that copies its column with [remove_asterisks]. *)
Definition long_frame : DataFrame :=
  {| columns := ["Code"]; rows := [ (0%Z, [VInt (10 ^ 4300)]) ] |}.

Definition starred_cfg : json :=
  JDict [ ("output_columns",
           JList [ JDict [ ("name", JStr "Code");
                           ("source_column", JStr "Code");
                           ("formatting",
                            JDict [ ("remove_asterisks", JBool true) ]) ] ]) ].

(** Without the condition on the cells the mapping can raise: [str] refuses
    the integer, and nothing catches its [ValueError]. *)
Lemma unprintable_cell_stops_mapping :
  validate_config Reference.ref_host starred_cfg = Return tt /\
  NoDup (columns long_frame) /\
  apply_mapping Reference.ref_host long_frame starred_cfg = Raise.
Proof.
  split; [vm_compute; reflexivity|]. split.
  - repeat constructor. intros [].
  - vm_compute. reflexivity.
Qed.

Lemma one_column_per_name_witness :
  NoDup (map fst example_table) /\
  (forall name, In name (map fst example_table)
                <-> In (Some name) (map named example_rules)).
Proof.
  destruct (one_column_per_name Reference.ref_host pay_frame example_cfg
              example_rules ["C"; "A"] example_table eq_refl
              (or_introl eq_refl)) as [H1 [H2 _]].
  - repeat constructor; simpl; intuition discriminate.
  - exact example_mapping.
  - split; assumption.
Defined.

End Mapping.

(* ------------------------------------------------------------------ *)
(** ** Validation: what the validator accepts and what it reports *)

Module Validation.
Import Text Re Py Json Host Pandas ExcelProcessor ConfigManager Mapping.

Section Facts.
Variable host : PyHost.

(** The rule up to its width: name, source and alignment pass. *)
Definition passes_before_width (d : list (string * json)) : Prop :=
  (exists s, field d "name" = Some (JStr s)
             /\ String.eqb (strip s) EmptyString = false) /\
  present_not is_str d "source_column" = false /\
  match field d "alignment" with
  | Some alignment => bad_alignment alignment = false
  | None => True
  end.

(** A width that [float] accepts and that is not above zero is reported as
    not being a number: the [ValueError] raised for a non-positive width
    inside the [try] is caught by its own [except] clause. *)
Theorem nonpositive_width_message
    (d : list (string * json)) (col_num : nat) (w : json) (x : float) :
  passes_before_width d ->
  field d "width" = Some w ->
  py_float host w = Return x ->
  PrimFloat.leb x 0 = true ->
  _validate_column_config host (JDict d) col_num
  = Throw ValueError ("Column " ++ num col_num ++ " width must be a number").
Proof.
  intros [[s [Hname Hblank]] [Hsrc Halign]] Hwidth Hfloat Hle.
  unfold _validate_column_config. rewrite Hname, Hblank, Hsrc, Hwidth, Hfloat.
  cbn [raise_if andthen].
  destruct (field d "alignment") as [alignment|].
  - rewrite Halign. cbn [raise_if andthen]. rewrite Hle. reflexivity.
  - cbn [raise_if andthen]. rewrite Hle. reflexivity.
Qed.

Lemma append_cancel (a x y : string) : (a ++ x = a ++ y)%string -> x = y.
Proof.
  induction a as [|c a IH]; simpl; intros H; [exact H|].
  injection H as H. exact (IH H).
Qed.

Lemma append_shift (a b c : string) :
  ((a ++ b) ++ c)%string = (a ++ (b ++ c))%string.
Proof.
  induction a as [|x a IH]; simpl; [reflexivity|]. rewrite IH. reflexivity.
Qed.

Ltac not_positive :=
  let E := fresh "E" in
  intros E; simpl in E; injection E as E;
  try rewrite append_shift in E; apply append_cancel in E;
  discriminate E.

(** No configuration makes the validator say that a width must be
    positive: whatever the rule, that message is never the one raised. *)
Theorem width_must_be_positive_never_raised
    (col_config : json) (col_num : nat) (k : kind) (msg : string) :
  _validate_column_config host col_config col_num = Throw k msg ->
  msg <> ("Column " ++ num col_num ++ " width must be positive")%string.
Proof.
  unfold _validate_column_config.
  destruct col_config as [| | | | | |d]; try (intros [= <- <-]; not_positive).
  destruct (field d "name") as [[| | | |s| |]|];
    try (intros [= <- <-]; not_positive).
  unfold raise_if.
  destruct (String.eqb (strip s) EmptyString); cbn [andthen];
    [intros [= <- <-]; not_positive|].
  destruct (present_not is_str d "source_column"); cbn [andthen];
    [intros [= <- <-]; not_positive|].
  destruct (field d "alignment") as [alignment|].
  - destruct (bad_alignment alignment); cbn [andthen];
      [unfold raise_naming; destruct (json_str host alignment);
       cbn [andthen]; intros [= <- <-];
       [not_positive|intros E; simpl in E; discriminate E]|].
    destruct (field d "width") as [w|].
    + unfold py_float.
      destruct w as [| b | z | x | t | l | f]; cbn [andthen except_type_or_value];
        try (intros [= <- <-]; not_positive).
      * destruct (PrimFloat.leb _ 0); cbn [andthen except_type_or_value];
          [intros [= <- <-]; not_positive|].
        destruct (present_not is_dict d "formatting");
          [intros [= <- <-]; not_positive|discriminate].
      * destruct (float_of_int z) as [x|]; cbn [andthen except_type_or_value].
        -- destruct (PrimFloat.leb x 0); cbn [andthen except_type_or_value];
             [intros [= <- <-]; not_positive|].
           destruct (present_not is_dict d "formatting");
             [intros [= <- <-]; not_positive|discriminate].
        -- intros [= <- <-]. intros E. simpl in E. discriminate E.
      * destruct (PrimFloat.leb x 0); cbn [andthen except_type_or_value];
          [intros [= <- <-]; not_positive|].
        destruct (present_not is_dict d "formatting");
          [intros [= <- <-]; not_positive|discriminate].
      * destruct (float_of_text host t) as [x|];
          cbn [andthen except_type_or_value];
          [|intros [= <- <-]; not_positive].
        destruct (PrimFloat.leb x 0); cbn [andthen except_type_or_value];
          [intros [= <- <-]; not_positive|].
        destruct (present_not is_dict d "formatting");
          [intros [= <- <-]; not_positive|discriminate].
    + cbn [andthen].
      destruct (present_not is_dict d "formatting");
        [intros [= <- <-]; not_positive|discriminate].
  - cbn [andthen].
    destruct (field d "width") as [w|].
    + unfold py_float.
      destruct w as [| b | z | x | t | l | f]; cbn [andthen except_type_or_value];
        try (intros [= <- <-]; not_positive).
      * destruct (PrimFloat.leb _ 0); cbn [andthen except_type_or_value];
          [intros [= <- <-]; not_positive|].
        destruct (present_not is_dict d "formatting");
          [intros [= <- <-]; not_positive|discriminate].
      * destruct (float_of_int z) as [x|]; cbn [andthen except_type_or_value].
        -- destruct (PrimFloat.leb x 0); cbn [andthen except_type_or_value];
             [intros [= <- <-]; not_positive|].
           destruct (present_not is_dict d "formatting");
             [intros [= <- <-]; not_positive|discriminate].
        -- intros [= <- <-]. intros E. simpl in E. discriminate E.
      * destruct (PrimFloat.leb x 0); cbn [andthen except_type_or_value];
          [intros [= <- <-]; not_positive|].
        destruct (present_not is_dict d "formatting");
          [intros [= <- <-]; not_positive|discriminate].
      * destruct (float_of_text host t) as [x|];
          cbn [andthen except_type_or_value];
          [|intros [= <- <-]; not_positive].
        destruct (PrimFloat.leb x 0); cbn [andthen except_type_or_value];
          [intros [= <- <-]; not_positive|].
        destruct (present_not is_dict d "formatting");
          [intros [= <- <-]; not_positive|discriminate].
    + cbn [andthen].
      destruct (present_not is_dict d "formatting");
        [intros [= <- <-]; not_positive|discriminate].
Qed.

(** What a rule must be to pass: a dict; a [name] that is text and not
    blank; a [source_column] that is text, an [alignment] among the three, a
    [width] that [float] accepts and that is not at or below zero, a
    [formatting] that is a dict -- each only if present. *)
Definition accepted (r : json) : Prop :=
  exists d s,
    r = JDict d /\
    field d "name" = Some (JStr s) /\
    String.eqb (strip s) EmptyString = false /\
    present_not is_str d "source_column" = false /\
    match field d "alignment" with
    | Some alignment => bad_alignment alignment = false
    | None => True
    end /\
    match field d "width" with
    | Some w => exists x, py_float host w = Return x
                          /\ PrimFloat.leb x 0 = false
    | None => True
    end /\
    present_not is_dict d "formatting" = false.

Lemma width_check_return (w : json) (msg1 msg2 : string) :
  except_type_or_value
    (andthen (py_float host w)
             (fun width => raise_if (PrimFloat.leb width 0) msg1))
    (Throw ValueError msg2) = Return tt
  <-> exists x, py_float host w = Return x /\ PrimFloat.leb x 0 = false.
Proof.
  destruct (py_float host w) as [x|k m] eqn:E; cbn [andthen].
  - unfold raise_if. destruct (PrimFloat.leb x 0) eqn:L; simpl.
    + split; [discriminate|]. intros [y [[= <-] Hy]]. congruence.
    + split; [|reflexivity]. intros _. exists x. split; [reflexivity|exact L].
  - split.
    + destruct k; simpl; discriminate.
    + intros [x [H _]]. discriminate.
Qed.

(** A rule passes validation, at whatever position, exactly when it is
    accepted in the sense above: no condition relates it to another rule,
    and the position only shows in the message. *)
Lemma column_config_return (r : json) (col_num : nat) :
  _validate_column_config host r col_num = Return tt <-> accepted r.
Proof.
  unfold _validate_column_config, accepted. split.
  - destruct r as [| | | | | |d]; try discriminate.
    destruct (field d "name") as [[| | | |s| |]|] eqn:Hname; try discriminate.
    intros H.
    apply andthen_return in H. destruct H as [u1 [H1 H]].
    apply andthen_return in H. destruct H as [u2 [H2 H]].
    apply andthen_return in H. destruct H as [u3 [H3 H]].
    apply andthen_return in H. destruct H as [u4 [H4 H]].
    apply raise_if_return in H1. apply raise_if_return in H2.
    apply raise_if_return in H.
    exists d, s. split; [reflexivity|]. split; [exact Hname|].
    split; [exact H1|]. split; [exact H2|]. split; [|split; [|exact H]].
    + destruct (field d "alignment") as [alignment|]; [|exact I].
      destruct (bad_alignment alignment); [|reflexivity].
      unfold raise_naming in H3.
      destruct (json_str host alignment); discriminate H3.
    + destruct (field d "width") as [w|]; [|exact I].
      destruct u4. apply width_check_return in H4. exact H4.
  - intros [d [s [-> [Hname [Hblank [Hsrc [Halign [Hwidth Hfmt]]]]]]]].
    rewrite Hname, Hblank, Hsrc, Hfmt. cbn [raise_if andthen].
    assert (Ha : match field d "alignment" with
                 | Some alignment =>
                     if bad_alignment alignment then
                       raise_naming host
                         ("Column " ++ num col_num ++ " invalid alignment: ")
                         alignment
                     else Return tt
                 | None => Return tt
                 end = Return tt).
    { destruct (field d "alignment") as [alignment|]; [|reflexivity].
      rewrite Halign. reflexivity. }
    rewrite Ha. cbn [andthen].
    destruct (field d "width") as [w|]; [|reflexivity].
    rewrite (proj2 (width_check_return w _ _) Hwidth). reflexivity.
Qed.

Lemma validate_columns_iff (rules : list json) (i : nat) :
  validate_columns_from host i rules = Return tt <-> Forall accepted rules.
Proof.
  revert i. induction rules as [|r rules IH]; intros i; simpl.
  - split; [constructor|reflexivity].
  - split.
    + intros H. apply andthen_return in H. destruct H as [[] [Hr H]].
      constructor; [apply (column_config_return r (i + 1)); exact Hr|].
      apply (IH (S i)). exact H.
    + intros H. inversion H as [|x l Hr Hl]; subst.
      apply (column_config_return r (i + 1)) in Hr. rewrite Hr.
      cbn [andthen]. apply IH. exact Hl.
Qed.

(** The [output_columns] of a configuration pass exactly when they are a
    non-empty list of rules each accepted on its own: nothing relates one
    rule to another, so two rules may bear the same name. *)
Theorem output_columns_pass_iff (cfg : list (string * json)) :
  _validate_output_columns host cfg = Return tt <->
  exists rules,
    field cfg "output_columns" = Some (JList rules) /\
    rules <> [] /\ Forall accepted rules.
Proof.
  unfold _validate_output_columns. split.
  - destruct (field cfg "output_columns") as [[| | | | |rules|]|];
      try discriminate.
    destruct rules as [|r rules]; [discriminate|].
    intros H. exists (r :: rules). split; [reflexivity|].
    split; [discriminate|]. apply (validate_columns_iff _ 0). exact H.
  - intros [rules [-> [Hne Hall]]].
    destruct rules as [|r rules]; [contradiction|].
    apply (validate_columns_iff _ 0). exact Hall.
Qed.


End Facts.

(** *** Colours *)

Lemma rstrip_by_none (blank : ascii -> bool) (s : string) :
  all_chars (fun c => negb (blank c)) s = true -> rstrip_by blank s = s.
Proof.
  induction s as [|c s IH]; simpl; [reflexivity|].
  intros H. apply andb_true_iff in H. destruct H as [Hc Hs].
  rewrite (IH Hs). apply negb_true_iff in Hc. rewrite Hc.
  destruct s; reflexivity.
Qed.

Lemma lstrip_by_none (blank : ascii -> bool) (s : string) :
  all_chars (fun c => negb (blank c)) s = true -> lstrip_by blank s = s.
Proof.
  destruct s as [|c s]; simpl; [reflexivity|].
  intros H. apply andb_true_iff in H. destruct H as [Hc _].
  apply negb_true_iff in Hc. rewrite Hc. reflexivity.
Qed.

Lemma all_chars_imp (p q : ascii -> bool) (s : string) :
  (forall c, p c = true -> q c = true) ->
  all_chars p s = true -> all_chars q s = true.
Proof.
  intros Hpq. induction s as [|c s IH]; simpl; [reflexivity|].
  intros H. apply andb_true_iff in H. destruct H as [Hc Hs].
  rewrite (Hpq c Hc), (IH Hs). reflexivity.
Qed.

Lemma hex_cases (c : ascii) :
  is_hex c = true ->
  In c ["0"; "1"; "2"; "3"; "4"; "5"; "6"; "7"; "8"; "9";
        "a"; "b"; "c"; "d"; "e"; "f"; "A"; "B"; "C"; "D"; "E"; "F"]%char.
Proof.
  destruct c as [[] [] [] [] [] [] [] []]; intros H;
    try discriminate H; simpl; tauto.
Qed.

Lemma hex_digits_all (s : string) (prev : bool) :
  all_chars is_hex s = true ->
  hex_digits prev s = match s with EmptyString => prev | _ => true end.
Proof.
  revert prev. induction s as [|c s IH]; intros prev H; [reflexivity|].
  simpl in H. apply andb_true_iff in H. destruct H as [Hc Hs].
  simpl. rewrite Hc, (IH true Hs). destruct s; reflexivity.
Qed.

Ltac by_hex_cases H :=
  apply hex_cases in H; simpl in H;
  repeat (destruct H as [<-|H]; [reflexivity|]); contradiction.

Lemma hex_not_space (c : ascii) : is_hex c = true -> negb (is_cspace c) = true.
Proof. intros H. by_hex_cases H. Qed.

Lemma hex_not_sign (c : ascii) :
  is_hex c = true -> Ascii.eqb c "+" || Ascii.eqb c "-" = false.
Proof. intros H. by_hex_cases H. Qed.

Lemma hex_not_x (c : ascii) :
  is_hex c = true -> Ascii.eqb c "x" || Ascii.eqb c "X" = false.
Proof. intros H. by_hex_cases H. Qed.

Lemma hex_not_underscore (c : ascii) :
  is_hex c = true -> Ascii.eqb c "_" = false.
Proof. intros H. by_hex_cases H. Qed.

Lemma cstrip_hex (s : string) : all_chars is_hex s = true -> cstrip s = s.
Proof.
  intros H. apply (all_chars_imp _ _ _ hex_not_space) in H.
  unfold cstrip. rewrite (lstrip_by_none _ _ H). apply rstrip_by_none, H.
Qed.

(** [int(text, 16)] succeeds on two or more hexadecimal digits. *)
Lemma int16_ok_hex (s : string) :
  (2 <= String.length s)%nat -> all_chars is_hex s = true ->
  int16_ok s = true.
Proof.
  intros Hlen Hhex. unfold int16_ok. rewrite (cstrip_hex s Hhex).
  destruct s as [|c1 [|c2 t]]; simpl in Hlen; try lia.
  pose proof Hhex as Hall.
  simpl in Hhex. apply andb_true_iff in Hhex. destruct Hhex as [H1 Hhex].
  apply andb_true_iff in Hhex. destruct Hhex as [H2 _].
  unfold drop_sign. rewrite (hex_not_sign c1 H1), (hex_not_x c2 H2).
  rewrite andb_false_r. apply (hex_digits_all _ false Hall).
Qed.

(** Every text of six hexadecimal digits is a valid colour. *)
Theorem six_hex_digits_valid (color : string) :
  String.length color = 6%nat -> all_chars is_hex color = true ->
  _is_valid_hex_color color = true.
Proof.
  intros Hlen Hhex. unfold _is_valid_hex_color. rewrite Hlen.
  destruct color as [|c t]; [discriminate Hlen|].
  cbn [String.eqb Nat.eqb negb].
  apply int16_ok_hex; [rewrite Hlen; lia|exact Hhex].
Qed.

(** A valid colour is empty or has six characters, but they need not be
    hexadecimal digits: the test is that [int(color, 16)] succeeds, so a
    sign before five digits and [0x] before four are colours as well. *)
Theorem valid_color_need_not_be_hex :
  (forall color,
     _is_valid_hex_color color = true ->
     color = EmptyString \/ String.length color = 6%nat) /\
  (forall sign digits,
     sign = "+"%char \/ sign = "-"%char ->
     String.length digits = 5%nat -> all_chars is_hex digits = true ->
     _is_valid_hex_color (String sign digits) = true) /\
  (forall x digits,
     x = "x"%char \/ x = "X"%char ->
     String.length digits = 4%nat -> all_chars is_hex digits = true ->
     _is_valid_hex_color (String "0" (String x digits)) = true).
Proof.
  split; [|split].
  - intros color. unfold _is_valid_hex_color.
    destruct (String.eqb_spec color EmptyString) as [->|_]; [left; reflexivity|].
    destruct (Nat.eqb_spec (String.length color) 6) as [E|_];
      [right; exact E|discriminate].
  - intros sign digits Hsign Hlen Hhex. unfold _is_valid_hex_color.
    cbn [String.length]. rewrite Hlen.
    cbn [String.eqb Nat.eqb negb].
    assert (Hstrip : cstrip (String sign digits) = String sign digits).
    { unfold cstrip.
      assert (Hns : all_chars (fun c => negb (is_cspace c))
                              (String sign digits) = true).
      { simpl. rewrite (all_chars_imp _ _ _ hex_not_space Hhex).
        destruct Hsign as [-> | ->]; reflexivity. }
      rewrite (lstrip_by_none _ _ Hns). apply rstrip_by_none, Hns. }
    unfold int16_ok. rewrite Hstrip.
    assert (Hdrop : drop_sign (String sign digits) = digits).
    { destruct Hsign as [-> | ->]; reflexivity. }
    rewrite Hdrop.
    destruct digits as [|c1 [|c2 t]]; try discriminate Hlen.
    pose proof Hhex as Hall.
    simpl in Hhex. apply andb_true_iff in Hhex. destruct Hhex as [H1 Hhex].
    apply andb_true_iff in Hhex. destruct Hhex as [H2 _].
    rewrite (hex_not_x c2 H2), andb_false_r.
    apply (hex_digits_all _ false Hall).
  - intros x digits Hx Hlen Hhex. unfold _is_valid_hex_color.
    cbn [String.length]. rewrite Hlen.
    cbn [String.eqb Nat.eqb negb].
    assert (Hstrip : cstrip (String "0" (String x digits))
                     = String "0" (String x digits)).
    { unfold cstrip.
      assert (Hns : all_chars (fun c => negb (is_cspace c))
                              (String "0" (String x digits)) = true).
      { simpl. rewrite (all_chars_imp _ _ _ hex_not_space Hhex).
        destruct Hx as [-> | ->]; reflexivity. }
      rewrite (lstrip_by_none _ _ Hns). apply rstrip_by_none, Hns. }
    unfold int16_ok. rewrite Hstrip. unfold drop_sign.
    cbn [Ascii.eqb Bool.eqb orb andb].
    assert (Hxx : Ascii.eqb x "x" || Ascii.eqb x "X" = true).
    { destruct Hx as [-> | ->]; reflexivity. }
    change (Ascii.eqb "0" "+" || Ascii.eqb "0" "-") with false.
    change (Ascii.eqb "0" "0") with true.
    cbv iota beta. rewrite Hxx. cbn [andb].
    destruct digits as [|u t]; [discriminate Hlen|].
    pose proof Hhex as Hall.
    simpl in Hhex. apply andb_true_iff in Hhex. destruct Hhex as [Hu _].
    rewrite (hex_not_underscore u Hu).
    apply (hex_digits_all _ false Hall).
Qed.

(** *** On the reference host *)

Definition zero_width_rule : list (string * json) :=
  [ ("name", JStr "Gross"); ("alignment", JStr "right"); ("width", JInt 0) ].

Lemma zero_width_passes_before : passes_before_width zero_width_rule.
Proof.
  split; [|split].
  - exists "Gross". split; reflexivity.
  - reflexivity.
  - reflexivity.
Defined.

Lemma nonpositive_width_message_witness :
  _validate_column_config Reference.ref_host (JDict zero_width_rule) 1
  = Throw ValueError "Column 1 width must be a number".
Proof.
  exact (nonpositive_width_message Reference.ref_host zero_width_rule 1
           (JInt 0) 0%float zero_width_passes_before eq_refl eq_refl eq_refl).
Defined.

Lemma width_must_be_positive_never_raised_witness :
  "Column 1 width must be a number" <> "Column 1 width must be positive".
Proof.
  exact (width_must_be_positive_never_raised Reference.ref_host
           (JDict zero_width_rule) 1 ValueError
           "Column 1 width must be a number" eq_refl).
Defined.




Lemma six_hex_digits_valid_witness : _is_valid_hex_color "366092" = true.
Proof. exact (six_hex_digits_valid "366092" eq_refl eq_refl). Defined.

End Validation.

(* ------------------------------------------------------------------ *)
(** ** Names: what a formula refers to *)

Module Names.
Import Text Re Py Json Host Pandas ExcelProcessor Reference.

(** *** The names the pattern finds *)

(** What every unquoted name looks like: a letter, then one or more
    characters of the class of the pattern, the last of them a word
    character. *)
Definition name_shape (w : string) : Prop :=
  match w with
  | EmptyString => False
  | String c t =>
      is_alpha c = true /\ (1 <= String.length t)%nat /\
      all_chars is_mid t = true /\ last_is_word false t = true
  end.

Lemma substring_zero (t : string) : String.substring 0 0 t = EmptyString.
Proof. destruct t; reflexivity. Qed.

Lemma last_is_word_nonempty (p q : bool) (s : string) :
  (1 <= String.length s)%nat -> last_is_word p s = last_is_word q s.
Proof. destruct s; simpl; [lia|reflexivity]. Qed.

Lemma token_tail_shape (t : string) (m : nat) :
  token_tail t = Some m ->
  (1 <= m <= String.length t)%nat /\
  String.length (String.substring 0 m t) = m /\
  all_chars is_mid (String.substring 0 m t) = true /\
  last_is_word false (String.substring 0 m t) = true.
Proof.
  revert m. induction t as [|c t IH]; intros m; simpl token_tail;
    [discriminate|].
  destruct (is_mid c) eqn:Hmid; [|discriminate].
  destruct (token_tail t) as [m'|] eqn:Htail.
  - intros [= <-]. destruct (IH m' eq_refl) as [Hm [Hlen [Hall Hlast]]].
    cbn [String.substring String.length all_chars last_is_word].
    rewrite Hmid, Hall, Hlen.
    rewrite (last_is_word_nonempty (is_word c) false) by lia.
    repeat split; try lia. exact Hlast.
  - destruct (is_word c) eqn:Hw; [|discriminate].
    destruct (negb (word_at_head t)); [|discriminate].
    intros [= <-].
    cbn [String.substring String.length]. rewrite substring_zero.
    cbn [String.length all_chars last_is_word]. rewrite Hmid, Hw.
    repeat split; lia.
Qed.

Lemma findall_unquoted_from_shape (s : string) (skip : nat) (prev : bool) :
  Forall name_shape (findall_unquoted_from skip prev s).
Proof.
  revert skip prev. induction s as [|c s IH]; intros skip prev;
    cbn [findall_unquoted_from]; [constructor|].
  destruct skip as [|k]; [|apply IH].
  destruct (is_alpha c && negb prev) eqn:Hhead; [|apply IH].
  destruct (token_tail s) as [m|] eqn:Htail; [|apply IH].
  constructor; [|apply IH].
  apply andb_true_iff in Hhead. destruct Hhead as [Ha _].
  destruct (token_tail_shape s m Htail) as [Hm [Hlen [Hall Hlast]]].
  unfold name_shape. rewrite Hlen. repeat split; try assumption; lia.
Qed.

(** Every name the unquoted pattern finds in a formula has at least two
    characters, starts with a letter and ends with a word character, and
    has only word characters, blanks and hyphens between: a column with a
    one-letter name is never found, and blanks and hyphens are taken into
    the name. *)
Theorem unquoted_names_have_two_characters (formula : string) :
  Forall (fun w => name_shape w /\ (2 <= String.length w)%nat)
         (findall_unquoted formula).
Proof.
  unfold findall_unquoted.
  apply (Forall_impl _ (P := name_shape));
    [|apply findall_unquoted_from_shape].
  intros w Hw. split; [exact Hw|].
  destruct w as [|c t]; [contradiction|].
  destruct Hw as [_ [Hlen _]]. simpl. lia.
Qed.

(** *** Formulas without names *)

Definition no_name_char (c : ascii) : bool :=
  negb (is_alpha c) && negb (Ascii.eqb c dquote).

Lemma findall_quoted_none (s : string) :
  all_chars no_name_char s = true -> findall_quoted_from 0 s = [].
Proof.
  induction s as [|c s IH]; [reflexivity|].
  cbn [all_chars findall_quoted_from]. intros H.
  apply andb_true_iff in H. destruct H as [Hc Hs].
  apply andb_true_iff in Hc. destruct Hc as [_ Hq].
  apply negb_true_iff in Hq. rewrite Hq. exact (IH Hs).
Qed.

Lemma findall_unquoted_none (s : string) (prev : bool) :
  all_chars no_name_char s = true -> findall_unquoted_from 0 prev s = [].
Proof.
  revert prev. induction s as [|c s IH]; intros prev; [reflexivity|].
  cbn [all_chars findall_unquoted_from]. intros H.
  apply andb_true_iff in H. destruct H as [Hc Hs].
  apply andb_true_iff in Hc. destruct Hc as [Ha _].
  apply negb_true_iff in Ha. rewrite Ha. cbn [andb]. exact (IH _ Hs).
Qed.

Lemma replace_from_absent (c : ascii) (s : string) :
  has_char c s = false ->
  replace_from 0 (String c EmptyString) EmptyString s = s.
Proof.
  induction s as [|a s IH]; [reflexivity|].
  cbn [has_char]. intros H. apply orb_false_iff in H. destruct H as [Hc Hs].
  cbn [replace_from String.prefix].
  destruct (ascii_dec c a) as [->|_].
  - rewrite Ascii.eqb_refl in Hc. discriminate.
  - rewrite (IH Hs). reflexivity.
Qed.

Lemma no_name_char_no_quote (s : string) :
  all_chars no_name_char s = true -> has_char dquote s = false.
Proof.
  intros H. apply (ForwardReference.has_char_all no_name_char); [exact H|reflexivity].
Qed.

(** A formula with no letter and no double quote names nothing: on a host
    whose [set] behaves, every row of the column is the value of the
    formula text itself, 0 when the text is unsafe or [eval] raises,
    whatever the table holds. *)
Theorem formula_without_names_is_constant
    (h : PyHost) (formula : string) (df : DataFrame)
    (output_data : dict (list pyval)) :
  Conforms h ->
  all_chars no_name_char (formula_clean_of formula) = true ->
  _evaluate_formula h formula df output_data =
  repeat (if _is_safe_expression (formula_clean_of formula)
          then eval_or_zero h (formula_clean_of formula)
          else VInt 0)
         (len df).
Proof.
  intros Hc Hno.
  assert (Hrow : forall idx row,
             evaluate_row h (formula_clean_of formula) output_data idx row
             = (if _is_safe_expression (formula_clean_of formula)
                then (eval_or_zero h (formula_clean_of formula),
                      [formula_clean_of formula])
                else (VInt 0, []))).
  { intros idx row.
    unfold evaluate_row, _replace_formula_references, formula_words.
    unfold findall_quoted, findall_unquoted.
    rewrite (findall_quoted_none _ Hno), (findall_unquoted_none _ false Hno).
    cbn [app]. rewrite (Formula.set_order_nil h Hc). cbn [replace_words].
    destruct (_is_safe_expression (formula_clean_of formula)) eqn:Hsafe;
      [reflexivity|].
    unfold replace.
    rewrite (replace_from_absent dquote _ (no_name_char_no_quote _ Hno)).
    rewrite Hsafe. reflexivity. }
  unfold _evaluate_formula, iterrows, len. rewrite map_map.
  induction (rows df) as [|r rs IH]; [reflexivity|].
  cbn [map List.length repeat]. rewrite IH. f_equal.
  cbn [fst snd]. rewrite Hrow.
  destruct (_is_safe_expression (formula_clean_of formula)); reflexivity.
Qed.

(** *** Looking a name up in a row *)

Lemma find_some_partial (name : string) (names : list string) (col : string) :
  find (partial_match name) names = Some col ->
  In col names /\ partial_match name col = true.
Proof. apply find_some. Qed.


Lemma forallb_false_of {A : Type} (p : A -> bool) (l : list A) (x : A) :
  In x l -> p x = false -> forallb p l = false.
Proof.
  intros Hin Hp. destruct (forallb p l) eqn:E; [|reflexivity].
  rewrite forallb_forall in E. rewrite (E x Hin) in Hp. discriminate.
Qed.


(** *** On the reference host *)

Lemma formula_without_names_is_constant_witness :
  _evaluate_formula ref_host "=(1 + 2) * 3" Formula.ab_frame []
  = [VInt 9; VInt 9].
Proof.
  exact (formula_without_names_is_constant ref_host "=(1 + 2) * 3"
           Formula.ab_frame [] Formula.ref_host_conforms eq_refl).
Defined.

End Names.

(* ------------------------------------------------------------------ *)
(** ** Rows: the void filter, the header and the asterisks on any table *)

Module Rows.
Import Text Re Py Json Host Pandas ExcelProcessor VoidFilter.

Section Facts.

Variable host : PyHost.

(** *** The void filter on any frame *)

(** Whatever the frame and the configuration, the void filter returns the
    columns it was given and a selection of the rows it was given, in
    their order: it never adds, alters or reorders a row, and never
    raises. *)
Theorem void_filter_only_drops_rows (df : DataFrame) (config : json) :
  columns (_apply_void_filtering host df config) = columns df /\
  (exists keep,
     rows (_apply_void_filtering host df config) = filter keep (rows df)) /\
  (len (_apply_void_filtering host df config) <= len df)%nat.
Proof.
  assert (Hsame : columns df = columns df /\
                  (exists keep, rows df = filter keep (rows df)) /\
                  (len df <= len df)%nat).
  { split; [reflexivity|]. split; [|lia].
    exists (fun _ => true). symmetry. apply filter_all_true. reflexivity. }
  unfold _apply_void_filtering. rewrite (void_filtering_plan host df config).
  destruct (void_plan (columns df) config) as [[ex|]|]; try exact Hsame.
  destruct (overflow_in df ex); [exact Hsame|].
  split; [reflexivity|]. split.
  - eexists. reflexivity.
  - unfold len, without_void. simpl. apply filter_length_le.
Qed.

Lemma occurrences_mem (z : string) (cols : list string) :
  (1 <= occurrences z cols)%nat -> mem z cols = true.
Proof.
  unfold occurrences, mem. induction cols as [|c cols IH]; simpl; [lia|].
  destruct (String.eqb z c); simpl; [reflexivity|exact IH].
Qed.

Lemma surviving_In (z : string) (zs cols : list string) :
  In z zs -> mem z cols = true -> In z (surviving zs cols).
Proof.
  intros Hin Hmem. unfold surviving. apply filter_In. split; assumption.
Qed.

(** When one of the zero columns names two or more columns of the table,
    the filter, though enabled, returns the table as it is: the exception
    of the numeric conversion is swallowed and no row is removed, not even
    a row of zeros. *)
Theorem void_filter_ambiguous_column
    (df : DataFrame) (config : json) (zs : list string) (z : string) :
  void_setting config true zs ->
  In z zs ->
  (2 <= occurrences z (columns df))%nat ->
  _apply_void_filtering host df config = df.
Proof.
  intros Hset Hin Htwice.
  unfold _apply_void_filtering. rewrite (void_filtering_plan host df).
  rewrite (void_plan_setting _ _ _ _ Hset).
  destruct zs as [|z0 zs]; [reflexivity|].
  destruct (surviving (z0 :: zs) (columns df)) as [|e ex] eqn:Hsv;
    [reflexivity|].
  assert (Hamb : ambiguous (e :: ex) (columns df) = true).
  { apply existsb_exists. exists z. split.
    - rewrite <- Hsv. apply surviving_In; [exact Hin|].
      apply occurrences_mem. lia.
    - apply Nat.ltb_lt. lia. }
  cbv zeta. rewrite Hamb. reflexivity.
Qed.

(** *** The header row on any grid *)

(** The keywords counted in a row whose cells [str] converts. *)
Definition keywords (cells : list pyval) (m : nat) : Prop :=
  matches host cells = Ok m.

(** A header row that is found bears a label of at most 20 and has three
    keywords or more; every row before it has a label of at most 20 and
    fewer than three keywords, and [str] converts its cells.  This holds
    for any labels, in any order. *)
Theorem header_row_is_first_match (df_raw : DataFrame) (idx : Z) :
  _find_header_row host df_raw = Ok (Some idx) ->
  exists before cells after,
    rows df_raw = (before ++ (idx, cells) :: after)%list /\
    Forall (fun r => (fst r <= 20)%Z /\
                     exists m, keywords (snd r) m /\ (m < 3)%nat) before /\
    (idx <= 20)%Z /\ exists m, keywords cells m /\ (3 <= m)%nat.
Proof.
  unfold _find_header_row, keywords.
  induction (rows df_raw) as [|[i cells] rest IH]; cbn [find_header_in];
    [discriminate|].
  destruct (20 <? i)%Z eqn:Hfar; [discriminate|].
  apply Z.ltb_ge in Hfar.
  destruct (matches host cells) as [m|] eqn:Hcount; [|discriminate].
  cbn [bind].
  destruct (Nat.leb 3 m) eqn:Hm.
  - intros [= <-]. exists [], cells, rest.
    apply Nat.leb_le in Hm.
    split; [reflexivity|]. split; [constructor|]. split; [exact Hfar|].
    exists m. split; [exact Hcount|exact Hm].
  - intros H. destruct (IH H) as [before [c [after [-> [Hb [Hi Hc]]]]]].
    exists ((i, cells) :: before), c, after.
    apply Nat.leb_gt in Hm.
    split; [reflexivity|]. split; [|split; [exact Hi|exact Hc]].
    constructor; [|exact Hb]. split; [exact Hfar|].
    exists m. split; [exact Hcount|exact Hm].
Qed.

(** *** Asterisks *)





End Facts.

(** *** On the reference host *)

Definition twin_frame : DataFrame :=
  {| columns := ["Gross"; "Gross"];
     rows := [ (0%Z, [VInt 0; VInt 0]); (1%Z, [VInt 5; VInt 0]) ] |}.

Definition gross_void : json :=
  JDict [("void", JDict [("enabled", JBool true);
                         ("zero_columns", JList [JStr "Gross"])])].

Lemma gross_void_setting : void_setting gross_void true ["Gross"].
Proof.
  exists [("void", JDict [("enabled", JBool true);
                          ("zero_columns", JList [JStr "Gross"])])],
         [("enabled", JBool true); ("zero_columns", JList [JStr "Gross"])].
  repeat split.
Defined.

Lemma void_filter_ambiguous_column_witness :
  _apply_void_filtering Reference.ref_host twin_frame gross_void = twin_frame.
Proof.
  apply (void_filter_ambiguous_column Reference.ref_host twin_frame gross_void
           ["Gross"] "Gross" gross_void_setting).
  - left. reflexivity.
  - vm_compute. lia.
Defined.

Lemma header_row_is_first_match_witness :
  exists before cells after,
    rows HeaderLocator.late_header = (before ++ (20%Z, cells) :: after)%list /\
    Forall (fun r => (fst r <= 20)%Z /\
                     exists m, keywords Reference.ref_host (snd r) m
                               /\ (m < 3)%nat) before /\
    (20 <= 20)%Z /\
    exists m, keywords Reference.ref_host cells m /\ (3 <= m)%nat.
Proof.
  apply (header_row_is_first_match Reference.ref_host
           HeaderLocator.late_header 20).
  vm_compute. reflexivity.
Defined.



End Rows.

(* ------------------------------------------------------------------ *)
(** ** Defaults: the configurations the code builds *)

Module Defaults.
Import Text Re Py Json Host Pandas ExcelProcessor ConfigManager VoidFilter.

Definition default_fields : list (string * json) :=
    [ ("output_columns",
       JList [ JDict [ ("name", JStr "Column 1");
                       ("source_column", JStr EmptyString);
                       ("alignment", JStr "left");
                       ("width", JInt 15);
                       ("formatting", JDict []) ] ]);
      ("header_formatting",
       JDict [ ("bold", JBool true);
               ("background_color", JStr "366092");
               ("font_color", JStr "FFFFFF");
               ("alignment", JStr "center") ]);
      ("column_name_alignment", JDict []);
      ("general_settings", JDict [ ("auto_fit_columns", JBool true) ]);
      ("void", JDict [ ("enabled", JBool false);
                       ("zero_columns", JList []) ]) ].

(** [DEFAULT_MAPPING_CONFIG] of the settings, which [get_default_config]
    hands out. *)
Definition DEFAULT_MAPPING_CONFIG : json := JDict default_fields.

(** The configuration that [create_sample_config] saves. *)
Definition sample_config : json :=
  JDict
    [ ("output_columns",
       JList [ JDict [ ("name", JStr "Employee Name");
                       ("source_column", JStr "Name");
                       ("alignment", JStr "left");
                       ("width", JInt 20);
                       ("formatting", JDict []) ];
               JDict [ ("name", JStr "Amount");
                       ("source_column", JStr "Net Pay");
                       ("alignment", JStr "right");
                       ("width", JInt 12);
                       ("formatting",
                        JDict [ ("number_format", JStr "#,##0.00") ]) ];
               JDict [ ("name", JStr "Date");
                       ("source_column", JStr "Pay Date");
                       ("alignment", JStr "center");
                       ("width", JInt 12);
                       ("formatting",
                        JDict [ ("date_format", JStr "MM/DD/YYYY") ]) ] ]);
      ("header_formatting",
       JDict [ ("bold", JBool true);
               ("background_color", JStr "366092");
               ("font_color", JStr "FFFFFF");
               ("alignment", JStr "center") ]);
      ("general_settings", JDict [ ("auto_fit_columns", JBool true) ]);
      ("void", JDict [ ("enabled", JBool false);
                       ("zero_columns", JList []) ]) ].

Section Facts.

Variable host : PyHost.

(** The two configurations the code itself builds pass its validation,
    whatever the host, and so [create_sample_config] is not stopped by the
    validation that [save_config] runs before it writes; mapped with the
    default configuration, any table becomes the single blank column
    [Column 1], one empty text per row. *)
Theorem built_in_configurations (df : DataFrame) :
  validate_config host DEFAULT_MAPPING_CONFIG = Return tt /\
  validate_config host sample_config = Return tt /\
  apply_mapping host df DEFAULT_MAPPING_CONFIG
  = Ok [ ("Column 1", repeat (VStr EmptyString) (len df)) ].
Proof.
  split; [|split].
  - vm_compute. reflexivity.
  - vm_compute. reflexivity.
  - unfold apply_mapping.
    assert (Hvoid : _apply_void_filtering host df DEFAULT_MAPPING_CONFIG = df)
      by reflexivity.
    rewrite Hvoid.
    assert (Htext : forall n,
               frame_column host (repeat (VStr EmptyString) n)
               = repeat (VStr EmptyString) n).
    { intros n. unfold frame_column.
      assert (H : forallb is_text (repeat (VStr EmptyString) n) = true)
        by (induction n as [|n IH]; [reflexivity|exact IH]).
      rewrite H. reflexivity. }
    transitivity
      (@Ok Table [ ("Column 1",
                    frame_column host (repeat (VStr EmptyString) (len df))) ]);
      [reflexivity|].
    rewrite Htext. reflexivity.
Qed.

Lemma all_text_from_names (i : nat) (what : string) (names : list json) :
  all_text_from i what names = Return tt ->
  exists zs, names = map JStr zs.
Proof.
  revert i. induction names as [|n names IH]; intros i; [exists []; reflexivity|].
  cbn [all_text_from]. destruct n as [| | | |s| |]; try discriminate.
  cbn [is_str negb raise_if andthen]. intros H.
  destruct (IH (S i) H) as [zs ->]. exists (s :: zs). reflexivity.
Qed.

Lemma andthen_return_inv {A B : Type} (m : outcome A) (k : A -> outcome B)
    (b : B) :
  andthen m k = Return b -> exists a, m = Return a /\ k a = Return b.
Proof.
  destruct m as [a|e msg]; [|discriminate].
  intros H. exists a. split; [reflexivity|exact H].
Qed.

(** A void section that passed validation and gives both settings is a
    truth value and a list of names: the validated configurations are
    among those for which the void filter is specified. *)
Theorem validated_void_setting
    (cfg v : list (string * json)) (e z : json) :
  validate_config host (JDict cfg) = Return tt ->
  field cfg "void" = Some (JDict v) ->
  field v "enabled" = Some e ->
  field v "zero_columns" = Some z ->
  exists enabled zs,
    e = JBool enabled /\ z = JList (map JStr zs) /\
    void_setting (JDict cfg) enabled zs.
Proof.
  intros Hvalid Hvoid Hen Hz.
  unfold validate_config in Hvalid.
  destruct (validate_body host (JDict cfg)) as [[]|k msg] eqn:Hbody;
    [clear Hvalid|discriminate].
  unfold validate_body in Hbody.
  apply andthen_return_inv in Hbody. destruct Hbody as [_ [_ Hbody]].
  apply andthen_return_inv in Hbody. destruct Hbody as [_ [_ Hbody]].
  apply andthen_return_inv in Hbody. destruct Hbody as [_ [_ Hbody]].
  unfold if_present in Hbody. rewrite Hvoid in Hbody.
  unfold _validate_void_settings in Hbody.
  apply andthen_return_inv in Hbody. destruct Hbody as [u [Hbool Hlist]].
  unfold present_not in Hbool. rewrite Hen in Hbool.
  destruct e as [|enabled| | | | |]; try discriminate Hbool.
  rewrite Hz in Hlist.
  destruct z as [| | | | |items|]; try discriminate Hlist.
  destruct (all_text_from_names _ _ _ Hlist) as [zs ->].
  exists enabled, zs. split; [reflexivity|]. split; [reflexivity|].
  exists cfg, v. repeat split; assumption.
Qed.

End Facts.

Lemma validated_void_setting_witness :
  exists enabled zs,
    JBool false = JBool enabled /\ JList [] = JList (map JStr zs) /\
    void_setting DEFAULT_MAPPING_CONFIG enabled zs.
Proof.
  exact (validated_void_setting Reference.ref_host default_fields
           [ ("enabled", JBool false); ("zero_columns", JList []) ]
           (JBool false) (JList []) eq_refl eq_refl eq_refl eq_refl).
Defined.

End Defaults.

(* ------------------------------------------------------------------ *)
(** ** Settings: the freeze panes of the general settings *)

Module Settings.
Import Text Re Py Json Host Pandas ExcelProcessor ConfigManager.

Definition newline : string := String (ascii_of_nat 10) EmptyString.

(** A cell reference as the validator takes it: letters of either case,
    digits, and possibly one final newline. *)
Definition reference_shape (s : string) : Prop :=
  exists letters digits tail,
    s = letters ++ digits ++ tail /\
    letters <> EmptyString /\ all_chars is_alpha letters = true /\
    digits <> EmptyString /\ all_chars is_digit digits = true /\
    (tail = EmptyString \/ tail = newline).

Lemma upper_digit (c : ascii) : is_digit (upper_char c) = is_digit c.
Proof. destruct c as [[] [] [] [] [] [] [] []]; reflexivity. Qed.

Lemma upper_letter (c : ascii) : is_upper (upper_char c) = is_alpha c.
Proof. destruct c as [[] [] [] [] [] [] [] []]; reflexivity. Qed.

Lemma upper_newline (c : ascii) :
  Ascii.eqb (upper_char c) (ascii_of_nat 10) = Ascii.eqb c (ascii_of_nat 10).
Proof. destruct c as [[] [] [] [] [] [] [] []]; reflexivity. Qed.

Lemma upper_empty (s : string) :
  String.eqb (upper s) EmptyString = String.eqb s EmptyString.
Proof. destruct s; reflexivity. Qed.

Lemma alpha_not_digit (c : ascii) : is_alpha c = true -> is_digit c = false.
Proof.
  destruct c as [[] [] [] [] [] [] [] []]; vm_compute; intros H;
    first [reflexivity | discriminate H].
Qed.

Lemma digits_then_end_shape (s : string) (seen : bool) :
  all_digits_then_end seen (upper s) = true <->
  exists digits tail,
    s = digits ++ tail /\ all_chars is_digit digits = true /\
    (seen = true \/ digits <> EmptyString) /\
    (tail = EmptyString \/ tail = newline).
Proof.
  revert seen. induction s as [|c s IH]; intros seen.
  - cbn [upper all_digits_then_end]. split.
    + intros ->. exists EmptyString, EmptyString.
      repeat split; auto.
    + intros [d [t [Hs [_ [Hseen _]]]]].
      destruct d; [|discriminate Hs].
      destruct Hseen as [H|H]; [exact H|contradiction].
  - cbn [upper all_digits_then_end]. rewrite upper_digit.
    destruct (is_digit c) eqn:Hd.
    + rewrite IH. split.
      * intros [d [t [-> [Hall [_ Ht]]]]].
        exists (String c d), t. cbn [all_chars]. rewrite Hd, Hall.
        repeat split; auto. right. discriminate.
      * intros [d [t [Hs [Hall [_ Ht]]]]].
        destruct d as [|c' d].
        -- simpl in Hs. subst t.
           destruct Ht as [Ht|Ht]; [discriminate Ht|].
           injection Ht as -> _. discriminate Hd.
        -- injection Hs as <- ->. cbn [all_chars] in Hall.
           apply andb_true_iff in Hall. destruct Hall as [_ Hall].
           exists d, t. repeat split; auto.
    + rewrite upper_newline, upper_empty. split.
      * intros H. apply andb_true_iff in H. destruct H as [H Hs].
        apply andb_true_iff in H. destruct H as [Hseen Hc].
        apply Ascii.eqb_eq in Hc. apply String.eqb_eq in Hs. subst.
        exists EmptyString, newline. repeat split; auto.
      * intros [d [t [Hs [Hall [Hseen Ht]]]]].
        destruct d as [|c' d].
        -- simpl in Hs. subst t.
           destruct Ht as [Ht|Ht]; [discriminate Ht|].
           injection Ht as -> ->.
           destruct Hseen as [->|H]; [reflexivity|contradiction].
        -- injection Hs as <- ->. cbn [all_chars] in Hall.
           rewrite Hd in Hall. discriminate Hall.
Qed.

Lemma letters_then_digits_shape (s : string) (seen : bool) :
  letters_then_digits seen (upper s) = true <->
  exists letters digits tail,
    s = letters ++ digits ++ tail /\
    (seen = true \/ letters <> EmptyString) /\
    all_chars is_alpha letters = true /\
    digits <> EmptyString /\ all_chars is_digit digits = true /\
    (tail = EmptyString \/ tail = newline).
Proof.
  revert seen. induction s as [|c s IH]; intros seen.
  - cbn [upper letters_then_digits]. split; [discriminate|].
    intros [l [d [t [Hs [_ [_ [Hd _]]]]]]].
    destruct l; [|discriminate Hs]. destruct d; [contradiction|discriminate Hs].
  - cbn [upper letters_then_digits]. rewrite upper_letter.
    destruct (is_alpha c) eqn:Ha.
    + rewrite IH. split.
      * intros [l [d [t [-> [_ [Hl [Hd [Hdig Ht]]]]]]]].
        exists (String c l), d, t. cbn [all_chars]. rewrite Ha, Hl.
        repeat split; auto. right. discriminate.
      * intros [l [d [t [Hs [_ [Hl [Hd [Hdig Ht]]]]]]]].
        destruct l as [|c' l].
        -- destruct d as [|c' d]; [contradiction|].
           injection Hs as <- _. cbn [all_chars] in Hdig.
           rewrite (alpha_not_digit c Ha) in Hdig. discriminate Hdig.
        -- injection Hs as <- ->. cbn [all_chars] in Hl.
           apply andb_true_iff in Hl. destruct Hl as [_ Hl].
           exists l, d, t. repeat split; auto.
    + change (String (upper_char c) (upper s)) with (upper (String c s)).
      split.
      * intros H. apply andb_true_iff in H. destruct H as [Hseen H].
        apply digits_then_end_shape in H.
        destruct H as [d [t [Hs [Hdig [Hne Ht]]]]].
        exists EmptyString, d, t. repeat split; auto.
        destruct Hne as [H|H]; [discriminate H|exact H].
      * intros [l [d [t [Hs [Hseen [Hl [Hd [Hdig Ht]]]]]]]].
        destruct l as [|c' l].
        -- destruct Hseen as [->|H]; [|contradiction]. cbn [andb].
           apply digits_then_end_shape. exists d, t. repeat split; auto.
        -- injection Hs as <- _. cbn [all_chars] in Hl.
           rewrite Ha in Hl. discriminate Hl.
Qed.

(** An ASCII text given as [freeze_panes] passes exactly when it is empty
    or letters followed by digits, in either case of letter and with or
    without one final newline, which the dollar of the pattern lets by.
    Beyond ASCII [str.upper] and the digit class of the pattern follow
    Unicode, and nothing is said here. *)
Theorem freeze_panes_text_accepted (s : string) :
  ascii_text s = true ->
  (validate_freeze_panes (JStr s) = Return tt <->
   s = EmptyString \/ reference_shape s).
Proof.
  intros _.
  unfold validate_freeze_panes, reference_shape, cell_reference.
  cbn [truthy].
  destruct (String.eqb_spec s EmptyString) as [->|Hne]; cbn [negb].
  - split; [left; reflexivity|reflexivity].
  - destruct (letters_then_digits false (upper s)) eqn:E; cbn [negb raise_if].
    + split; [|reflexivity]. intros _. right.
      apply letters_then_digits_shape in E.
      destruct E as [l [d [t [Hs [Hl [Ha [Hd [Hdig Ht]]]]]]]].
      exists l, d, t. repeat split; auto.
      destruct Hl as [H|H]; [discriminate H|exact H].
    + split; [discriminate|]. intros [H|H]; [contradiction|].
      destruct H as [l [d [t [Hs [Hl [Ha [Hd [Hdig Ht]]]]]]]].
      assert (letters_then_digits false (upper s) = true).
      { apply letters_then_digits_shape. exists l, d, t.
        repeat split; auto. }
      congruence.
Qed.

Lemma freeze_panes_text_accepted_witness :
  validate_freeze_panes (JStr "a2") = Return tt <->
  "a2" = EmptyString \/ reference_shape "a2".
Proof. exact (freeze_panes_text_accepted "a2" eq_refl). Defined.

End Settings.
